(** * Volume input drivers of volume_io: free format and MGH

    A shallow embedding of [volume_io/Volumes/input_free.c] and
    [volume_io/Volumes/input_mgh.c]: the header readers, the slice readers,
    the range scans and the incremental [input_more_*] loaders, followed by
    the properties established about them.

    Conventions of the embedding.
    - C [int]s are integers of [Z]; arrays are lists read with [load] and
      written with [store], both undefined outside the array.
    - [Real] is the C [double] and [float] the C [float]: IEEE 754 binary64
      and binary32 values of [SpecFloat], with correctly rounded operations.
    - Behaviour that ISO C leaves undefined (use of a closed stream, of an
      unallocated buffer, an out-of-range conversion to [int]) is the result
      [None] of the [io] monad.
    - Objects read before being written hold the indeterminate values of the
      [World] ([junk_int], [junk_real], [junk_byte]). *)

From Stdlib Require Import ZArith Lia Bool Strings.Byte Strings.Ascii.
From Stdlib Require Import Floats.SpecFloat.
From stdpp Require Import gmap strings list fin_maps sorting.

Local Open Scope Z_scope.

(** ** Scalars *)

Definition INT_MIN : Z := - 2 ^ 31.
Definition INT_MAX : Z := 2 ^ 31 - 1.

(** [Real] is [double] (precision 53, emax 1024); [float] is binary32
    (precision 24, emax 128). *)
Definition Real : Type := spec_float.
Definition float : Type := spec_float.

Definition Radd : Real -> Real -> Real := SFadd 53 1024.
Definition Rsub : Real -> Real -> Real := SFsub 53 1024.
Definition Rmul : Real -> Real -> Real := SFmul 53 1024.
Definition Rdiv : Real -> Real -> Real := SFdiv 53 1024.
Definition Ropp : Real -> Real := SFopp.
Definition Fmul : float -> float -> float := SFmul 24 128.

(** [x < y] and [x > y] of C: false as soon as an operand is NaN. *)
Definition Rlt (x y : spec_float) : bool := SFltb x y.
Definition Rgt (x y : spec_float) : bool := SFltb y x.

(** Conversions [(Real) i], [(float) i], [float] to [double] and back. *)
Definition Real_of_int (i : Z) : Real := binary_normalize 53 1024 i 0 false.
Definition float_of_int (i : Z) : float := binary_normalize 24 128 i 0 false.

Definition Real_of_float (f : float) : Real :=
  match f with
  | S754_finite s m e => binary_round 53 1024 s m e
  | _ => f
  end.

Definition float_of_Real (r : Real) : float :=
  match r with
  | S754_finite s m e => binary_round 24 128 s m e
  | _ => r
  end.

Definition fabs (x : Real) : Real := SFabs x.

Definition Rzero : Real := S754_zero false.
Definition Rone : Real := Real_of_int 1.
Definition FLT_MAX : float := S754_finite false 16777215 104.

(** The integral part of a finite value, towards zero. *)
Definition Rtrunc (x : Real) : option Z :=
  match x with
  | S754_zero _ => Some 0
  | S754_finite s m e =>
      Some (cond_Zopp s
              (match e with
               | Z0 => Zpos m
               | Zpos _ => Zpos m * 2 ^ e
               | Zneg _ => Zpos m / 2 ^ (- e)
               end))
  | _ => None
  end.

(** [(int) x]: defined only when the integral part is representable. *)
Definition int_of_Real (x : Real) : option Z :=
  match Rtrunc x with
  | Some z => if bool_decide (INT_MIN <= z <= INT_MAX) then Some z else None
  | None => None
  end.

(** The value whose binary32 encoding is the 32-bit pattern [b]. *)
Definition float_of_bits (b : Z) : float :=
  let s := Z.testbit b 31 in
  let e := Z.land (Z.shiftr b 23) 255 in
  let m := Z.land b (2 ^ 23 - 1) in
  if e =? 0 then
    match m with Zpos p => S754_finite s p (-149) | _ => S754_zero s end
  else if e =? 255 then
    if m =? 0 then S754_infinity s else S754_nan
  else
    match m + 2 ^ 23 with Zpos p => S754_finite s p (e - 150) | _ => S754_nan end.

(** ** Bytes and byte order *)

Definition byte_val (b : byte) : Z := Z.of_N (Byte.to_N b).

Definition le_val (bs : list byte) : Z :=
  foldr (fun b acc => byte_val b + 256 * acc) 0 bs.

(** The unsigned value of an object whose bytes are [bs], on a host of the
    given byte order. *)
Definition host_val (big : bool) (bs : list byte) : Z :=
  if big then le_val (rev bs) else le_val bs.

Definition bswap_16 (x : Z) : Z := (x mod 256) * 256 + (x / 256) mod 256.

Definition bswap_32 (x : Z) : Z :=
  (x mod 256) * 2 ^ 24 + ((x / 2 ^ 8) mod 256) * 2 ^ 16 +
  ((x / 2 ^ 16) mod 256) * 2 ^ 8 + (x / 2 ^ 24) mod 256.

(** [ntohs] and [ntohl] take and return unsigned values. *)
Definition ntohs (big : bool) (x : Z) : Z := if big then x else bswap_16 x.
Definition ntohl (big : bool) (x : Z) : Z := if big then x else bswap_32 x.

(** Conversion of an unsigned 32- or 16-bit value to [int] or [short]. *)
Definition to_int (x : Z) : Z := (x + 2 ^ 31) mod 2 ^ 32 - 2 ^ 31.
Definition to_short (x : Z) : Z := (x + 2 ^ 15) mod 2 ^ 16 - 2 ^ 15.

(** The product of two [int] values as the machine computes it: a product
    that does not fit in 32 bits wraps around (in ISO C such an overflow is
    undefined). *)
Definition int_mul (a b : Z) : Z := to_int (a * b).

(** Conversion of an [int] to [size_t], taken to be of 64 bits. *)
Definition size_t_of_int (x : Z) : Z := x mod 2 ^ 64.

(** ** Arrays *)

Definition load {A} (a : list A) (i : Z) : option A :=
  if bool_decide (0 <= i) then a !! Z.to_nat i else None.

Definition store {A} (a : list A) (i : Z) (x : A) : option (list A) :=
  if bool_decide (0 <= i) then
    match a !! Z.to_nat i with
    | Some _ => Some (<[Z.to_nat i := x]> a)
    | None => None
    end
  else None.

(** ** Enumerations of volume_io *)

Inductive Status := OK | ERROR.

Inductive Data_types :=
  | NO_DATA_TYPE | UNSIGNED_BYTE | SIGNED_BYTE | UNSIGNED_SHORT | SIGNED_SHORT
  | UNSIGNED_INT | SIGNED_INT | FLOAT | DOUBLE | MAX_DATA_TYPE.

Inductive nc_type :=
  | NC_UNSPECIFIED | NC_BYTE | NC_CHAR | NC_SHORT | NC_INT | NC_FLOAT | NC_DOUBLE.

Global Instance Status_eq_dec : EqDecision Status.
Proof. solve_decision. Defined.
Global Instance Data_types_eq_dec : EqDecision Data_types.
Proof. solve_decision. Defined.
Global Instance nc_type_eq_dec : EqDecision nc_type.
Proof. solve_decision. Defined.

Definition X : Z := 0.
Definition Y : Z := 1.
Definition Z_ : Z := 2.
Definition N_DIMENSIONS : Z := 3.
Definition MAX_DIMENSIONS : Z := 5.

(** ** Files, streams and the [io] monad

    The low-level file primitives of volume_io and znzlib are collaborators
    of the two drivers. They are modelled over a [World]: the files on disk,
    the open streams (a [FILE *] or [znzFile] is the key of its stream, 0 is
    [NULL]) and the indeterminate contents of fresh storage. An ASCII file is
    given by its sequence of tokens, a binary file by its bytes. *)

Inductive token :=
  | Tint (n : Z)
  | Treal (r : Real)
  | Tword (s : string).

Inductive file_data :=
  | Ascii (toks : list token)
  | Binary (bytes : list byte).

Inductive stream :=
  | TextStream (rest : list token)
  | ByteStream (bytes : list byte) (pos : Z).

Record World := {
  big_endian : bool;
  disk : gmap string file_data;
  streams : gmap Z stream;
  next_FILE : Z;
  junk_int : nat -> Z;
  junk_real : nat -> Real;
  junk_byte : nat -> byte
}.

Definition with_streams (w : World) (s : gmap Z stream) (n : Z) : World :=
  {| big_endian := big_endian w; disk := disk w; streams := s; next_FILE := n;
     junk_int := junk_int w; junk_real := junk_real w; junk_byte := junk_byte w |}.

Definition io (A : Type) : Type := World -> option (A * World).

Definition ret {A} (a : A) : io A := fun w => Some (a, w).

Definition bind {A B} (m : io A) (k : A -> io B) : io B :=
  fun w => match m w with Some (a, w') => k a w' | None => None end.

Definition undefined {A} : io A := fun _ => None.

(** A pure step that may be undefined. *)
Definition lift {A} (o : option A) : io A :=
  fun w => match o with Some a => Some (a, w) | None => None end.

Definition get_world : io World := fun w => Some (w, w).

Notation "'let*' p ':=' m 'in' k" := (bind m (fun p => k))
  (at level 10, p pattern, m at level 100, k at level 200).

Definition start_stream (d : file_data) : stream :=
  match d with
  | Ascii toks => TextStream toks
  | Binary bytes => ByteStream bytes 0
  end.

(** [open_file], [znzopen]: a new stream on an existing file, else [NULL]. *)
Definition open_file (filename : string) : io (Status * Z) :=
  fun w =>
    match disk w !! filename with
    | Some d =>
        let f := next_FILE w in
        Some ((OK, f), with_streams w (<[f := start_stream d]> (streams w)) (f + 1))
    | None => Some ((ERROR, 0), w)
    end.

(** The named file, or the one with the default suffix appended. *)
Definition open_file_with_default_suffix (filename suffix : string)
  : io (Status * Z) :=
  fun w =>
    match disk w !! filename with
    | Some _ => open_file filename w
    | None => open_file (filename +:+ "." +:+ suffix) w
    end.

(** [close_file], [znzclose]: closing anything but an open stream is
    undefined. *)
Definition close_file (f : Z) : io Status :=
  fun w =>
    match streams w !! f with
    | Some _ => Some (OK, with_streams w (delete f (streams w)) (next_FILE w))
    | None => None
    end.

(** [set_file_position], [znzseek]. *)
Definition set_file_position (f : Z) (byte_position : Z) : io Status :=
  fun w =>
    match streams w !! f with
    | Some (ByteStream bytes _) =>
        if bool_decide (0 <= byte_position)
        then Some (OK, with_streams w (<[f := ByteStream bytes byte_position]> (streams w))
                                    (next_FILE w))
        else Some (ERROR, w)
    | Some (TextStream _) => Some (ERROR, w)
    | None => None
    end.

(** [znztell]. *)
Definition file_position (f : Z) : io Z :=
  fun w =>
    match streams w !! f with
    | Some (ByteStream _ pos) => Some (pos, w)
    | Some (TextStream _) => Some (-1, w)
    | None => None
    end.

(** The first [n] groups of [size] bytes of [bs] that are complete. *)
Fixpoint chunks (size : nat) (n : nat) (bs : list byte) : list (list byte) :=
  match n with
  | O => []
  | S n' =>
      if bool_decide (size <= length bs)%nat
      then take size bs :: chunks size n' (drop size bs)
      else []
  end.

(** [fread], [znzread]: the elements read, at most [n] of [size] bytes each;
    the stream advances past them. *)
Definition read_elements (f : Z) (size : Z) (n : Z) : io (list (list byte)) :=
  fun w =>
    match streams w !! f with
    | Some (ByteStream bytes pos) =>
        if bool_decide (0 <= n /\ 0 < size /\ 0 <= pos) then
          let els := chunks (Z.to_nat size) (Z.to_nat n) (drop (Z.to_nat pos) bytes) in
          Some (els, with_streams w
                       (<[f := ByteStream bytes (pos + size * Z.of_nat (length els))]>
                          (streams w))
                       (next_FILE w))
        else None
    | Some (TextStream _) => Some ([], w)
    | None => None
    end.

(** ASCII token readers: each consumes the token it accepts. *)
Definition read_token {A} (f : Z) (accept : token -> option (A * list token))
  : io (Status * option A) :=
  fun w =>
    match streams w !! f with
    | Some (TextStream (t :: rest)) =>
        match accept t with
        | Some (a, back) =>
            Some ((OK, Some a),
                  with_streams w (<[f := TextStream (back ++ rest)]> (streams w))
                               (next_FILE w))
        | None => Some ((ERROR, None), w)
        end
    | Some _ => Some ((ERROR, None), w)
    | None => None
    end.

Definition input_int (f : Z) : io (Status * option Z) :=
  read_token f (fun t => match t with Tint n => Some (n, []) | _ => None end).

Definition input_real (f : Z) : io (Status * option Real) :=
  read_token f (fun t =>
    match t with
    | Tint n => Some (Real_of_int n, [])
    | Treal r => Some (r, [])
    | Tword _ => None
    end).

Definition input_nonwhite_character (f : Z) : io (Status * option ascii) :=
  read_token f (fun t =>
    match t with
    | Tword (String c "") => Some (c, [])
    | Tword (String c rest) => Some (c, [Tword rest])
    | Tword "" => None
    | _ => Some ("0"%char, [])
    end).

Definition input_string (f : Z) : io (Status * option string) :=
  read_token f (fun t => match t with Tword s => Some (s, []) | _ => None end).

(** Path helpers of volume_io. *)
Fixpoint last_slash (s : string) (i : nat) (found : option nat) : option nat :=
  match s with
  | "" => found
  | String c rest =>
      last_slash rest (S i) (if Ascii.eqb c "/" then Some i else found)
  end.

Definition extract_directory (filename : string) : string :=
  match last_slash filename 0 None with
  | Some i => String.substring 0 i filename
  | None => "."
  end.

Definition get_absolute_filename (filename directory : string) : string :=
  match filename with
  | String "/" _ => filename
  | _ => directory +:+ "/" +:+ filename
  end.

(** Freshly allocated storage holds indeterminate bytes. *)
Definition fresh_bytes (w : World) (n : Z) : list byte :=
  map (junk_byte w) (seq 0 (Z.to_nat n)).

Definition fresh_shorts (w : World) (n : Z) : list Z :=
  map (fun i => junk_int w i mod 2 ^ 16) (seq 0 (Z.to_nat n)).

(** ** The volume and the input state

    [Volume] keeps the part of the volume container that the drivers reach.
    The container is defined outside the two files: its setters and getters
    are taken to store and return what they are given. Voxels are kept as
    [Real] cells; a cell never written holds an indeterminate value. [data]
    is [None] until the storage is allocated. *)

Record Volume := {
  data_type : Data_types;
  nc_data_type : nc_type;
  is_signed : bool;
  spatial_axes : list Z;
  direction_cosines : list (list Real);
  separations : list Real;
  translation_voxel : list Real;
  translation_world : list Real;
  starts : list Real;
  sizes : list Z;
  n_dimensions : Z;
  voxel_min : Real;
  voxel_max : Real;
  real_min : Real;
  real_max : Real;
  data : option (gmap (Z * Z * Z) Real)
}.

Definition with_data_type (v : Volume)
  (t : Data_types) (nc : nc_type) (sg : bool) : Volume :=
  {| data_type := t; nc_data_type := nc; is_signed := sg;
     spatial_axes := spatial_axes v; direction_cosines := direction_cosines v;
     separations := separations v; translation_voxel := translation_voxel v;
     translation_world := translation_world v; starts := starts v;
     sizes := sizes v; n_dimensions := n_dimensions v;
     voxel_min := voxel_min v; voxel_max := voxel_max v;
     real_min := real_min v; real_max := real_max v; data := data v |}.

Definition with_spatial_axes (v : Volume) (a : list Z) : Volume :=
  {| data_type := data_type v; nc_data_type := nc_data_type v;
     is_signed := is_signed v; spatial_axes := a;
     direction_cosines := direction_cosines v; separations := separations v;
     translation_voxel := translation_voxel v;
     translation_world := translation_world v; starts := starts v;
     sizes := sizes v; n_dimensions := n_dimensions v;
     voxel_min := voxel_min v; voxel_max := voxel_max v;
     real_min := real_min v; real_max := real_max v; data := data v |}.

Definition with_direction_cosines (v : Volume)
  (d : list (list Real)) : Volume :=
  {| data_type := data_type v; nc_data_type := nc_data_type v;
     is_signed := is_signed v; spatial_axes := spatial_axes v;
     direction_cosines := d; separations := separations v;
     translation_voxel := translation_voxel v;
     translation_world := translation_world v; starts := starts v;
     sizes := sizes v; n_dimensions := n_dimensions v;
     voxel_min := voxel_min v; voxel_max := voxel_max v;
     real_min := real_min v; real_max := real_max v; data := data v |}.

Definition set_volume_separations (v : Volume) (s : list Real) : Volume :=
  {| data_type := data_type v; nc_data_type := nc_data_type v;
     is_signed := is_signed v; spatial_axes := spatial_axes v;
     direction_cosines := direction_cosines v; separations := s;
     translation_voxel := translation_voxel v;
     translation_world := translation_world v; starts := starts v;
     sizes := sizes v; n_dimensions := n_dimensions v;
     voxel_min := voxel_min v; voxel_max := voxel_max v;
     real_min := real_min v; real_max := real_max v; data := data v |}.

Definition set_volume_translation (v : Volume)
  (voxel : list Real) (world : list Real) : Volume :=
  {| data_type := data_type v; nc_data_type := nc_data_type v;
     is_signed := is_signed v; spatial_axes := spatial_axes v;
     direction_cosines := direction_cosines v; separations := separations v;
     translation_voxel := voxel; translation_world := world;
     starts := starts v; sizes := sizes v; n_dimensions := n_dimensions v;
     voxel_min := voxel_min v; voxel_max := voxel_max v;
     real_min := real_min v; real_max := real_max v; data := data v |}.

Definition set_volume_starts (v : Volume) (s : list Real) : Volume :=
  {| data_type := data_type v; nc_data_type := nc_data_type v;
     is_signed := is_signed v; spatial_axes := spatial_axes v;
     direction_cosines := direction_cosines v; separations := separations v;
     translation_voxel := translation_voxel v;
     translation_world := translation_world v; starts := s; sizes := sizes v;
     n_dimensions := n_dimensions v; voxel_min := voxel_min v;
     voxel_max := voxel_max v; real_min := real_min v; real_max := real_max v;
     data := data v |}.

Definition set_volume_sizes (v : Volume) (s : list Z) : Volume :=
  {| data_type := data_type v; nc_data_type := nc_data_type v;
     is_signed := is_signed v; spatial_axes := spatial_axes v;
     direction_cosines := direction_cosines v; separations := separations v;
     translation_voxel := translation_voxel v;
     translation_world := translation_world v; starts := starts v; sizes := s;
     n_dimensions := n_dimensions v; voxel_min := voxel_min v;
     voxel_max := voxel_max v; real_min := real_min v; real_max := real_max v;
     data := data v |}.

Definition with_n_dimensions (v : Volume) (n : Z) : Volume :=
  {| data_type := data_type v; nc_data_type := nc_data_type v;
     is_signed := is_signed v; spatial_axes := spatial_axes v;
     direction_cosines := direction_cosines v; separations := separations v;
     translation_voxel := translation_voxel v;
     translation_world := translation_world v; starts := starts v;
     sizes := sizes v; n_dimensions := n; voxel_min := voxel_min v;
     voxel_max := voxel_max v; real_min := real_min v; real_max := real_max v;
     data := data v |}.

(** Modelled from the spec: [set_volume_voxel_range] is defined outside the
    two files. The extrema found are committed as the voxel range of the
    volume, as they are. *)
Definition set_volume_voxel_range (v : Volume)
  (lo : Real) (hi : Real) : Volume :=
  {| data_type := data_type v; nc_data_type := nc_data_type v;
     is_signed := is_signed v; spatial_axes := spatial_axes v;
     direction_cosines := direction_cosines v; separations := separations v;
     translation_voxel := translation_voxel v;
     translation_world := translation_world v; starts := starts v;
     sizes := sizes v; n_dimensions := n_dimensions v; voxel_min := lo;
     voxel_max := hi; real_min := real_min v; real_max := real_max v;
     data := data v |}.

Definition set_volume_real_range (v : Volume)
  (lo : Real) (hi : Real) : Volume :=
  {| data_type := data_type v; nc_data_type := nc_data_type v;
     is_signed := is_signed v; spatial_axes := spatial_axes v;
     direction_cosines := direction_cosines v; separations := separations v;
     translation_voxel := translation_voxel v;
     translation_world := translation_world v; starts := starts v;
     sizes := sizes v; n_dimensions := n_dimensions v;
     voxel_min := voxel_min v; voxel_max := voxel_max v; real_min := lo;
     real_max := hi; data := data v |}.

Definition with_data (v : Volume)
  (d : option (gmap (Z * Z * Z) Real)) : Volume :=
  {| data_type := data_type v; nc_data_type := nc_data_type v;
     is_signed := is_signed v; spatial_axes := spatial_axes v;
     direction_cosines := direction_cosines v; separations := separations v;
     translation_voxel := translation_voxel v;
     translation_world := translation_world v; starts := starts v;
     sizes := sizes v; n_dimensions := n_dimensions v;
     voxel_min := voxel_min v; voxel_max := voxel_max v;
     real_min := real_min v; real_max := real_max v; data := d |}.

(** [volume_input_struct]: the state of one input session. A buffer or
    table is [None] while the session owns no such allocation. *)

Record volume_input_struct := {
  file_data_type : Data_types;
  sizes_in_file : list Z;
  axis_index_from_file : list Z;
  one_file_per_slice : bool;
  directory : string;
  slice_filenames : option (list string);
  slice_byte_offsets : option (list Z);
  volume_file : Z;
  byte_slice_buffer : option (list byte);
  short_slice_buffer : option (list Z);
  slice_index : Z;
  min_value : Real;
  max_value : Real
}.

Definition set_file_data_type (i : volume_input_struct)
  (x : Data_types) : volume_input_struct :=
  {| file_data_type := x; sizes_in_file := sizes_in_file i;
     axis_index_from_file := axis_index_from_file i;
     one_file_per_slice := one_file_per_slice i; directory := directory i;
     slice_filenames := slice_filenames i;
     slice_byte_offsets := slice_byte_offsets i; volume_file := volume_file i;
     byte_slice_buffer := byte_slice_buffer i;
     short_slice_buffer := short_slice_buffer i; slice_index := slice_index i;
     min_value := min_value i; max_value := max_value i |}.

Definition set_sizes_in_file (i : volume_input_struct)
  (x : list Z) : volume_input_struct :=
  {| file_data_type := file_data_type i; sizes_in_file := x;
     axis_index_from_file := axis_index_from_file i;
     one_file_per_slice := one_file_per_slice i; directory := directory i;
     slice_filenames := slice_filenames i;
     slice_byte_offsets := slice_byte_offsets i; volume_file := volume_file i;
     byte_slice_buffer := byte_slice_buffer i;
     short_slice_buffer := short_slice_buffer i; slice_index := slice_index i;
     min_value := min_value i; max_value := max_value i |}.

Definition set_axis_index_from_file (i : volume_input_struct)
  (x : list Z) : volume_input_struct :=
  {| file_data_type := file_data_type i; sizes_in_file := sizes_in_file i;
     axis_index_from_file := x; one_file_per_slice := one_file_per_slice i;
     directory := directory i; slice_filenames := slice_filenames i;
     slice_byte_offsets := slice_byte_offsets i; volume_file := volume_file i;
     byte_slice_buffer := byte_slice_buffer i;
     short_slice_buffer := short_slice_buffer i; slice_index := slice_index i;
     min_value := min_value i; max_value := max_value i |}.

Definition set_one_file_per_slice (i : volume_input_struct)
  (x : bool) : volume_input_struct :=
  {| file_data_type := file_data_type i; sizes_in_file := sizes_in_file i;
     axis_index_from_file := axis_index_from_file i; one_file_per_slice := x;
     directory := directory i; slice_filenames := slice_filenames i;
     slice_byte_offsets := slice_byte_offsets i; volume_file := volume_file i;
     byte_slice_buffer := byte_slice_buffer i;
     short_slice_buffer := short_slice_buffer i; slice_index := slice_index i;
     min_value := min_value i; max_value := max_value i |}.

Definition set_directory (i : volume_input_struct)
  (x : string) : volume_input_struct :=
  {| file_data_type := file_data_type i; sizes_in_file := sizes_in_file i;
     axis_index_from_file := axis_index_from_file i;
     one_file_per_slice := one_file_per_slice i; directory := x;
     slice_filenames := slice_filenames i;
     slice_byte_offsets := slice_byte_offsets i; volume_file := volume_file i;
     byte_slice_buffer := byte_slice_buffer i;
     short_slice_buffer := short_slice_buffer i; slice_index := slice_index i;
     min_value := min_value i; max_value := max_value i |}.

Definition set_slice_filenames (i : volume_input_struct)
  (x : option (list string)) : volume_input_struct :=
  {| file_data_type := file_data_type i; sizes_in_file := sizes_in_file i;
     axis_index_from_file := axis_index_from_file i;
     one_file_per_slice := one_file_per_slice i; directory := directory i;
     slice_filenames := x; slice_byte_offsets := slice_byte_offsets i;
     volume_file := volume_file i; byte_slice_buffer := byte_slice_buffer i;
     short_slice_buffer := short_slice_buffer i; slice_index := slice_index i;
     min_value := min_value i; max_value := max_value i |}.

Definition set_slice_byte_offsets (i : volume_input_struct)
  (x : option (list Z)) : volume_input_struct :=
  {| file_data_type := file_data_type i; sizes_in_file := sizes_in_file i;
     axis_index_from_file := axis_index_from_file i;
     one_file_per_slice := one_file_per_slice i; directory := directory i;
     slice_filenames := slice_filenames i; slice_byte_offsets := x;
     volume_file := volume_file i; byte_slice_buffer := byte_slice_buffer i;
     short_slice_buffer := short_slice_buffer i; slice_index := slice_index i;
     min_value := min_value i; max_value := max_value i |}.

Definition set_volume_file (i : volume_input_struct)
  (x : Z) : volume_input_struct :=
  {| file_data_type := file_data_type i; sizes_in_file := sizes_in_file i;
     axis_index_from_file := axis_index_from_file i;
     one_file_per_slice := one_file_per_slice i; directory := directory i;
     slice_filenames := slice_filenames i;
     slice_byte_offsets := slice_byte_offsets i; volume_file := x;
     byte_slice_buffer := byte_slice_buffer i;
     short_slice_buffer := short_slice_buffer i; slice_index := slice_index i;
     min_value := min_value i; max_value := max_value i |}.

Definition set_byte_slice_buffer (i : volume_input_struct)
  (x : option (list byte)) : volume_input_struct :=
  {| file_data_type := file_data_type i; sizes_in_file := sizes_in_file i;
     axis_index_from_file := axis_index_from_file i;
     one_file_per_slice := one_file_per_slice i; directory := directory i;
     slice_filenames := slice_filenames i;
     slice_byte_offsets := slice_byte_offsets i; volume_file := volume_file i;
     byte_slice_buffer := x; short_slice_buffer := short_slice_buffer i;
     slice_index := slice_index i; min_value := min_value i;
     max_value := max_value i |}.

Definition set_short_slice_buffer (i : volume_input_struct)
  (x : option (list Z)) : volume_input_struct :=
  {| file_data_type := file_data_type i; sizes_in_file := sizes_in_file i;
     axis_index_from_file := axis_index_from_file i;
     one_file_per_slice := one_file_per_slice i; directory := directory i;
     slice_filenames := slice_filenames i;
     slice_byte_offsets := slice_byte_offsets i; volume_file := volume_file i;
     byte_slice_buffer := byte_slice_buffer i; short_slice_buffer := x;
     slice_index := slice_index i; min_value := min_value i;
     max_value := max_value i |}.

Definition set_slice_index (i : volume_input_struct)
  (x : Z) : volume_input_struct :=
  {| file_data_type := file_data_type i; sizes_in_file := sizes_in_file i;
     axis_index_from_file := axis_index_from_file i;
     one_file_per_slice := one_file_per_slice i; directory := directory i;
     slice_filenames := slice_filenames i;
     slice_byte_offsets := slice_byte_offsets i; volume_file := volume_file i;
     byte_slice_buffer := byte_slice_buffer i;
     short_slice_buffer := short_slice_buffer i; slice_index := x;
     min_value := min_value i; max_value := max_value i |}.

Definition set_min_value (i : volume_input_struct)
  (x : Real) : volume_input_struct :=
  {| file_data_type := file_data_type i; sizes_in_file := sizes_in_file i;
     axis_index_from_file := axis_index_from_file i;
     one_file_per_slice := one_file_per_slice i; directory := directory i;
     slice_filenames := slice_filenames i;
     slice_byte_offsets := slice_byte_offsets i; volume_file := volume_file i;
     byte_slice_buffer := byte_slice_buffer i;
     short_slice_buffer := short_slice_buffer i; slice_index := slice_index i;
     min_value := x; max_value := max_value i |}.

Definition set_max_value (i : volume_input_struct)
  (x : Real) : volume_input_struct :=
  {| file_data_type := file_data_type i; sizes_in_file := sizes_in_file i;
     axis_index_from_file := axis_index_from_file i;
     one_file_per_slice := one_file_per_slice i; directory := directory i;
     slice_filenames := slice_filenames i;
     slice_byte_offsets := slice_byte_offsets i; volume_file := volume_file i;
     byte_slice_buffer := byte_slice_buffer i;
     short_slice_buffer := short_slice_buffer i; slice_index := slice_index i;
     min_value := min_value i; max_value := x |}.

(** *** Volume container *)

Definition data_type_code (t : Data_types) : Z :=
  match t with
  | NO_DATA_TYPE => 0 | UNSIGNED_BYTE => 1 | SIGNED_BYTE => 2
  | UNSIGNED_SHORT => 3 | SIGNED_SHORT => 4 | UNSIGNED_INT => 5
  | SIGNED_INT => 6 | FLOAT => 7 | DOUBLE => 8 | MAX_DATA_TYPE => 9
  end.

Definition nc_type_of_code (c : Z) : nc_type :=
  match c with
  | 1 => NC_BYTE | 2 => NC_CHAR | 3 => NC_SHORT | 4 => NC_INT
  | 5 => NC_FLOAT | 6 => NC_DOUBLE | _ => NC_UNSPECIFIED
  end.

(** [set_volume_type( volume, nc_data_type, is_signed, 0.0, 0.0 )]. *)
Definition set_volume_type (v : Volume) (nc : nc_type) (sg : bool) : Volume :=
  let t :=
    match nc with
    | NC_BYTE => if sg then SIGNED_BYTE else UNSIGNED_BYTE
    | NC_SHORT => if sg then SIGNED_SHORT else UNSIGNED_SHORT
    | NC_INT => if sg then SIGNED_INT else UNSIGNED_INT
    | NC_FLOAT => FLOAT
    | NC_DOUBLE => DOUBLE
    | NC_CHAR | NC_UNSPECIFIED => data_type v
    end in
  with_data_type v t nc sg.

Definition volume_is_alloced (v : Volume) : bool :=
  match data v with Some _ => true | None => false end.

(** [alloc_volume_data]: the cells exist and hold indeterminate values. *)
Definition alloc_volume_data (v : Volume) : Volume := with_data v (Some ∅).

Definition in_volume (v : Volume) (x y z : Z) : bool :=
  match load (sizes v) X, load (sizes v) Y, load (sizes v) Z_ with
  | Some sx, Some sy, Some sz =>
      bool_decide (0 <= x < sx /\ 0 <= y < sy /\ 0 <= z < sz)
  | _, _, _ => false
  end.

(** [SET_VOXEL_3D], [set_volume_voxel_value]. *)
Definition set_voxel (v : Volume) (x y z : Z) (value : Real) : option Volume :=
  match data v with
  | Some cells =>
      if in_volume v x y z
      then Some (with_data v (Some (<[(x, y, z) := value]> cells)))
      else None
  | None => None
  end.

(** [GET_VOXEL_3D]. *)
Definition get_voxel (junk : Real) (v : Volume) (x y z : Z) : option Real :=
  match data v with
  | Some cells =>
      if in_volume v x y z
      then Some (default junk (cells !! (x, y, z)))
      else None
  | None => None
  end.

(** ** Loops *)

Definition for_less (a b : Z) : list Z := seqZ a (b - a).

Fixpoint foreach {S} (l : list Z) (body : Z -> S -> io S) (s : S) : io S :=
  match l with
  | [] => ret s
  | i :: l' => let* s' := body i s in foreach l' body s'
  end.

(** An output argument keeps its value when the reader fails. *)
Definition into {A} (old : A) (m : io (Status * option A)) : io (Status * A) :=
  let* (status, r) := m in ret (status, default old r).

(** * input_free.c *)

Definition DEFAULT_SUFFIX : string := "fre".
Definition NUM_BYTE_VALUES : Z := 256.

(** [fread] into a buffer: the elements read replace the start of it. *)
Definition overwrite {A} (old new : list A) : list A :=
  new ++ drop (length new) old.

(** [io_binary_data( file, READ_FILE, buffer, size, n )]: [OK] when all [n]
    elements were read. Reading through a pointer that is not a live buffer
    of at least [n] elements is undefined. *)
Definition io_binary_data {A} (file : Z) (buffer : option (list A))
    (size : Z) (decode : bool -> list byte -> A) (n : Z)
  : io (Status * option (list A)) :=
  let* old := lift buffer in
  if bool_decide (n <= Z.of_nat (length old)) then
    let* w := get_world in
    let* els := read_elements file size n in
    ret (if bool_decide (Z.of_nat (length els) = n) then OK else ERROR,
         Some (overwrite old (map (decode (big_endian w)) els)))
  else undefined.

Definition decode_byte (_ : bool) (bs : list byte) : byte :=
  match bs with b :: _ => b | [] => x00 end.

(** ** [input_slice]: reads the next slice from the volume. *)
Definition input_slice (volume_input : volume_input_struct)
  : io (Status * volume_input_struct) :=
  let* size0 := lift (load (sizes_in_file volume_input) 0) in
  if bool_decide (slice_index volume_input < size0) then
    let* (status, file) :=
      if one_file_per_slice volume_input then
        let* names := lift (slice_filenames volume_input) in
        let* name := lift (load names (slice_index volume_input)) in
        let slice_filename := get_absolute_filename name (directory volume_input) in
        let* (status, file) := open_file slice_filename in
        if decide (status = OK) then
          let* offsets := lift (slice_byte_offsets volume_input) in
          let* offset := lift (load offsets (slice_index volume_input)) in
          let* status := set_file_position file offset in
          ret (status, file)
        else ret (status, file)
      else ret (OK, volume_file volume_input) in
    let* (status, volume_input) :=
      if decide (status = OK) then
        let* size1 := lift (load (sizes_in_file volume_input) 1) in
        let* size2 := lift (load (sizes_in_file volume_input) 2) in
        match file_data_type volume_input with
        | UNSIGNED_BYTE =>
            let* (status, buffer) :=
              io_binary_data file (byte_slice_buffer volume_input) 1
                             decode_byte (size1 * size2) in
            ret (status, set_byte_slice_buffer volume_input buffer)
        | UNSIGNED_SHORT =>
            let* (status, buffer) :=
              io_binary_data file (short_slice_buffer volume_input) 2
                             host_val (size1 * size2) in
            ret (status, set_short_slice_buffer volume_input buffer)
        | _ => ret (status, volume_input)
        end
      else ret (status, volume_input) in
    let* status :=
      if decide (status = OK) then
        if one_file_per_slice volume_input then close_file file else ret status
      else ret status in
    ret (status, set_slice_index volume_input (slice_index volume_input + 1))
  else ret (ERROR, volume_input).

(** ** [initialize_free_format_input] *)

(** [input_int( file, &a[i] )] and [input_real( file, &a[i] )]. *)
Definition input_int_at (file : Z) (a : list Z) (i : Z)
  : io (Status * list Z) :=
  let* old := lift (load a i) in
  let* (status, x) := into old (input_int file) in
  let* a := lift (store a i x) in
  ret (status, a).

Definition input_real_at (file : Z) (a : list Real) (i : Z)
  : io (Status * list Real) :=
  let* old := lift (load a i) in
  let* (status, x) := into old (input_real file) in
  let* a := lift (store a i x) in
  ret (status, a).

(** The three translation values; reading stops at the first failure. *)
Definition input_translations (file : Z) (trans : list Real)
  : io (bool * list Real) :=
  let* (sx, trans) := input_real_at file trans X in
  if decide (sx = OK) then
    let* (sy, trans) := input_real_at file trans Y in
    if decide (sy = OK) then
      let* (sz, trans) := input_real_at file trans Z_ in
      ret (bool_decide (sz = OK), trans)
    else ret (false, trans)
  else ret (false, trans).

(** The spatial axis named by an axis letter of the header. *)
Definition axis_of_letter (ch : ascii) : option Z :=
  if (Ascii.eqb ch "x" || Ascii.eqb ch "X")%bool then Some X
  else if (Ascii.eqb ch "y" || Ascii.eqb ch "Y")%bool then Some Y
  else if (Ascii.eqb ch "z" || Ascii.eqb ch "Z")%bool then Some Z_
  else None.

(** One line "number_voxels +/-voxel_separation x|y|z" of the header; the
    result tells whether the line was read entirely. *)
Definition input_axis (file : Z) (volume : Volume) (axis : Z)
    (st : volume_input_struct * list Real)
  : io (bool * (volume_input_struct * list Real)) :=
  let (volume_input, file_separations) := st in
  let* (status, s) := input_int_at file (sizes_in_file volume_input) axis in
  let volume_input := set_sizes_in_file volume_input s in
  if decide (status = OK) then
    let* (status, file_separations) := input_real_at file file_separations axis in
    if decide (status = OK) then
      let* (status, ch) := into "000"%char (input_nonwhite_character file) in
      if decide (status = OK) then
        match axis_of_letter ch with
        | Some c =>
            let* a := lift (load (spatial_axes volume) c) in
            let* idx := lift (store (axis_index_from_file volume_input) axis a) in
            ret (true, (set_axis_index_from_file volume_input idx, file_separations))
        | None => ret (false, (volume_input, file_separations))
        end
      else ret (false, (volume_input, file_separations))
    else ret (false, (volume_input, file_separations))
  else ret (false, (volume_input, file_separations)).

Fixpoint input_axes (axes : list Z) (file : Z) (volume : Volume)
    (st : volume_input_struct * list Real)
  : io (Status * (volume_input_struct * list Real)) :=
  match axes with
  | [] => ret (OK, st)
  | axis :: axes' =>
      let* (complete, st) := input_axis file volume axis st in
      if complete then input_axes axes' file volume st else ret (ERROR, st)
  end.

(** Lines 108-117: negative spatial axes are replaced by X, Y, Z. *)
Definition default_spatial_axes (volume : Volume) : option Volume :=
  ax ← load (spatial_axes volume) X;
  ay ← load (spatial_axes volume) Y;
  az ← load (spatial_axes volume) Z_;
  if bool_decide (ax < 0 \/ ay < 0 \/ az < 0) then
    a ← store (spatial_axes volume) X 0;
    a ← store a Y 1;
    a ← store a Z_ 2;
    Some (with_spatial_axes volume a)
  else Some volume.

(** Lines 164-171, for one value of [c]. *)
Definition set_identity_axis (volume : Volume) (c : Z) : option Volume :=
  a ← store (spatial_axes volume) c c;
  row ← load (direction_cosines volume) c;
  row ← store row X Rzero;
  row ← store row Y Rzero;
  row ← store row Z_ Rzero;
  row ← store row c Rone;
  d ← store (direction_cosines volume) c row;
  Some (with_direction_cosines (with_spatial_axes volume a) d).

Definition set_identity_axes (volume : Volume) : option Volume :=
  foldl (fun v c => v ≫= (fun v => set_identity_axis v c)) (Some volume)
        (for_less 0 N_DIMENSIONS).

(** Lines 173-179. *)
Definition two_axis_indices_equal (volume_input : volume_input_struct)
  : option bool :=
  ax ← load (axis_index_from_file volume_input) X;
  ay ← load (axis_index_from_file volume_input) Y;
  az ← load (axis_index_from_file volume_input) Z_;
  Some (bool_decide (ax = ay \/ ax = az \/ ay = az)).

(** Lines 192-208: the slice file names, each with an optional offset. *)
Fixpoint input_slice_files (fuel : nat) (file : Z)
    (names : list string) (offsets : list Z)
  : io (list string * list Z) :=
  match fuel with
  | O => ret (names, offsets)
  | S fuel' =>
      let* (status, slice_filename) := into ""%string (input_string file) in
      if decide (status = OK) then
        let* (status, offset) := into 0 (input_int file) in
        let offset := if decide (status = OK) then offset else 0 in
        input_slice_files fuel' file (names ++ [slice_filename]) (offsets ++ [offset])
      else ret (names, offsets)
  end.

Definition tokens_left (file : Z) : io nat :=
  fun w =>
    match streams w !! file with
    | Some (TextStream rest) => Some (length rest, w)
    | Some (ByteStream _ _) => Some (O, w)
    | None => None
    end.

(** Lines 232-244, for one value of [axis]: the sizes and separations go to
    the volume axis of the file axis, and a negative separation moves the
    translation. *)
Definition record_axis (volume_input : volume_input_struct)
    (file_separations : list Real) (axis : Z)
    (st : list Z * list Real * list Real)
  : option (list Z * list Real * list Real) :=
  let '(sizes, volume_separations, trans) := st in
  a ← load (axis_index_from_file volume_input) axis;
  n ← load (sizes_in_file volume_input) axis;
  sizes ← store sizes a n;
  sep ← load file_separations axis;
  volume_separations ← store volume_separations a sep;
  s ← load volume_separations axis;
  if Rlt s Rzero then
    n ← load sizes axis;
    t ← load trans axis;
    trans ← store trans axis (Radd t (Rmul (Ropp s) (Real_of_int (n - 1))));
    Some (sizes, volume_separations, trans)
  else Some (sizes, volume_separations, trans).

Definition record_axes (volume_input : volume_input_struct)
    (file_separations : list Real) (st : list Z * list Real * list Real)
  : option (list Z * list Real * list Real) :=
  foldl (fun st axis => st ≫= record_axis volume_input file_separations axis)
        (Some st) (for_less 0 N_DIMENSIONS).

(** Lines 301-308: the extrema of the slice buffer, read as shorts. *)
Definition scan_voxel (volume_input : volume_input_struct) (slice i : Z)
    (st : Z * Z) : option (Z * Z) :=
  let (min_value, max_value) := st in
  buffer ← short_slice_buffer volume_input;
  value ← load buffer i;
  let min_value :=
    if bool_decide ((slice = 0 /\ i = 0) \/ value < min_value)
    then value else min_value in
  let max_value :=
    if bool_decide ((slice = 0 /\ i = 0) \/ value > max_value)
    then value else max_value in
  Some (min_value, max_value).

Definition scan_slice (n_voxels_in_slice : Z) (slice : Z)
    (st : volume_input_struct * (Z * Z))
  : io (volume_input_struct * (Z * Z)) :=
  let (volume_input, range) := st in
  let* (_, volume_input) := input_slice volume_input in
  let* range :=
    lift (foldl (fun r i => r ≫= scan_voxel volume_input slice i) (Some range)
                (for_less 0 n_voxels_in_slice)) in
  ret (volume_input, range).

(** Lines 52-97: the header file is opened; the number of bytes per voxel
    and the translation are read; the type of the file data and the type
    wanted in memory are decided. The result carries [status], [file],
    [trans], the input state and [desired_data_type]. *)
Definition input_header_start (filename : string) (volume : Volume)
    (volume_input : volume_input_struct)
  : io (Status * Z * list Real * volume_input_struct * nc_type) :=
  let* w := get_world in
  (* automatic variables start indeterminate *)
  let n_bytes_per_voxel := junk_int w 3 in
  let desired_data_type := nc_type_of_code (junk_int w 5) in
  let trans := map (junk_real w) (seq 10 3) in
  let* (file_status, file) :=
    open_file_with_default_suffix filename DEFAULT_SUFFIX in
  let status := file_status in
  (* the line containing n_bytes_per_voxel *)
  let* (status, n_bytes_per_voxel) :=
    if decide (status = OK) then into n_bytes_per_voxel (input_int file)
    else ret (status, n_bytes_per_voxel) in
  (* the 3 translation values *)
  let* (status, trans) :=
    if decide (status = OK) then
      let* (read, trans) := input_translations file trans in
      ret (if read then OK else ERROR, trans)
    else ret (status, trans) in
  (* the type of the data in the image file and in memory *)
  if decide (status = OK) then
    let '(status, volume_input) :=
      if decide (n_bytes_per_voxel = 1)
      then (status, set_file_data_type volume_input UNSIGNED_BYTE)
      else if decide (n_bytes_per_voxel = 2)
      then (status, set_file_data_type volume_input UNSIGNED_SHORT)
      else (ERROR, volume_input) in
    ret (status, file, trans, volume_input,
         if decide (data_type volume = NO_DATA_TYPE)
         then nc_type_of_code (data_type_code (file_data_type volume_input))
         else nc_data_type volume)
  else ret (status, file, trans, volume_input, desired_data_type).

(** Lines 173-226: equal axis indices are refused; the slice files, or the
    volume file and its offset, are read; the header file is closed. The
    result carries [status], the input state, [abs_volume_filename] and
    [volume_byte_offset]. *)
Definition input_header_files (filename : string) (file : Z)
    (status : Status) (volume_input : volume_input_struct)
  : io (Status * volume_input_struct * string * Z) :=
  let* w := get_world in
  let volume_byte_offset := junk_int w 4 in
  let abs_volume_filename := ""%string in
  let* status :=
    if decide (status = OK) then
      let* equal := lift (two_axis_indices_equal volume_input) in
      ret (if equal then ERROR else status)
    else ret status in
  let volume_input := set_directory volume_input (extract_directory filename) in
  let* (status, volume_input, abs_volume_filename, volume_byte_offset) :=
    if decide (status = OK) then
      let* size0 := lift (load (sizes_in_file volume_input) 0) in
      if bool_decide (size0 <= 0) then
        let* fuel := tokens_left file in
        let* (names, offsets) := input_slice_files (S fuel) file [] [] in
        let n_slices := Z.of_nat (length names) in
        let volume_input :=
          if decide (names = []) then volume_input
          else set_slice_byte_offsets
                 (set_slice_filenames volume_input (Some names)) (Some offsets) in
        let* s := lift (store (sizes_in_file volume_input) 0 n_slices) in
        ret (status,
             set_one_file_per_slice (set_sizes_in_file volume_input s) true,
             abs_volume_filename, volume_byte_offset)
      else
        let volume_input := set_one_file_per_slice volume_input false in
        let* (status, volume_filename) := into ""%string (input_string file) in
        let abs_volume_filename :=
          get_absolute_filename volume_filename (directory volume_input) in
        let* (read, volume_byte_offset) :=
          into volume_byte_offset (input_int file) in
        ret (status, volume_input, abs_volume_filename,
             if decide (read = OK) then volume_byte_offset else 0)
    else ret (status, volume_input, abs_volume_filename, volume_byte_offset) in
  let* status :=
    if decide (status = OK) then close_file file else ret status in
  ret (status, volume_input, abs_volume_filename, volume_byte_offset).

(** Lines 230-254: the information is recorded in the volume. [sizes] and
    [volume_separations] are automatic arrays, indeterminate on entry. *)
Definition record_volume_info (w : World) (status : Status)
    (volume : Volume) (volume_input : volume_input_struct)
    (file_separations trans : list Real) (desired_data_type : nc_type)
  : option Volume :=
  let sizes := map (junk_int w) (seq 0 3) in
  let volume_separations := map (junk_real w) (seq 5 5) in
  '(volume, sizes) ←
    (if decide (status = OK) then
       '(sizes, volume_separations, trans) ←
         record_axes volume_input file_separations
                     (sizes, volume_separations, trans);
       let origin_voxel := replicate 5 Rzero in
       Some (set_volume_translation
               (set_volume_separations volume volume_separations)
               origin_voxel trans, sizes)
     else Some (volume, sizes));
  let volume := set_volume_type volume desired_data_type false in
  Some (set_volume_sizes volume sizes).

(** Lines 261-275: the slice buffer is allocated. *)
Definition alloc_slice_buffer (w : World) (status : Status)
    (n_voxels_in_slice : Z) (volume_input : volume_input_struct)
  : volume_input_struct :=
  if decide (status = OK) then
    match file_data_type volume_input with
    | UNSIGNED_BYTE =>
        set_byte_slice_buffer volume_input
          (Some (fresh_bytes w n_voxels_in_slice))
    | UNSIGNED_SHORT =>
        set_short_slice_buffer volume_input
          (Some (fresh_shorts w n_voxels_in_slice))
    | _ => volume_input
    end
  else volume_input.

(** Lines 281-316: if the data must be converted, the entire image file is
    read simply to find the max and min values. *)
Definition find_voxel_range (file : Z) (abs_volume_filename : string)
    (volume_byte_offset : Z) (n_voxels_in_slice : Z)
    (status : Status) (volume : Volume) (volume_input : volume_input_struct)
  : io (Status * Volume * volume_input_struct) :=
  if bool_decide (status = OK /\ data_type volume <> file_data_type volume_input)
  then
    let* (status, volume_input) :=
      if negb (one_file_per_slice volume_input) then
        let* (status, f) := open_file abs_volume_filename in
        let volume_input := set_volume_file volume_input f in
        (* the stream positioned is [file], the header stream closed
           before, not [volume_file] *)
        let* status :=
          if decide (status = OK)
          then set_file_position file volume_byte_offset else ret status in
        ret (status, volume_input)
      else ret (status, volume_input) in
    let min_value := 0 in
    let max_value := 0 in
    let volume_input := set_slice_index volume_input 0 in
    let* size0 := lift (load (sizes_in_file volume_input) 0) in
    let* (volume_input, (min_value, max_value)) :=
      foreach (for_less 0 size0) (scan_slice n_voxels_in_slice)
              (volume_input, (min_value, max_value)) in
    let volume :=
      set_volume_voxel_range volume (Real_of_int min_value)
                             (Real_of_int max_value) in
    let* status :=
      if bool_decide (status = OK /\ one_file_per_slice volume_input = false)
      then close_file (volume_file volume_input) else ret status in
    ret (status, volume, volume_input)
  else ret (status, volume, volume_input).

(** Lines 318-327: the volume file is opened for the slices to come. *)
Definition open_volume_file (file : Z) (abs_volume_filename : string)
    (volume_byte_offset : Z) (status : Status)
    (volume_input : volume_input_struct)
  : io (Status * volume_input_struct) :=
  if bool_decide (status = OK /\ one_file_per_slice volume_input = false) then
    let* (status, f) := open_file abs_volume_filename in
    let volume_input := set_volume_file volume_input f in
    let* status :=
      if decide (status = OK)
      then set_file_position file volume_byte_offset else ret status in
    ret (status, volume_input)
  else ret (status, volume_input).

Definition initialize_free_format_input (filename : string)
    (volume : Volume) (volume_input : volume_input_struct)
  : io (Status * Volume * volume_input_struct) :=
  let* w := get_world in
  let file_separations := map (junk_real w) (seq 0 5) in
  let* (status, file, trans, volume_input, desired_data_type) :=
    input_header_start filename volume volume_input in
  let* volume := lift (default_spatial_axes volume) in
  (* the 3 lines, 1 for each axis *)
  let* (status, (volume_input, file_separations)) :=
    if decide (status = OK)
    then input_axes (for_less 0 N_DIMENSIONS) file volume
                    (volume_input, file_separations)
    else ret (status, (volume_input, file_separations)) in
  let* volume := lift (set_identity_axes volume) in
  let* (status, volume_input, abs_volume_filename, volume_byte_offset) :=
    input_header_files filename file status volume_input in
  let* volume :=
    lift (record_volume_info w status volume volume_input file_separations
                             trans desired_data_type) in
  let* size1 := lift (load (sizes_in_file volume_input) 1) in
  let* size2 := lift (load (sizes_in_file volume_input) 2) in
  let n_voxels_in_slice := size1 * size2 in
  let volume_input := alloc_slice_buffer w status n_voxels_in_slice volume_input in
  let* (status, volume, volume_input) :=
    find_voxel_range file abs_volume_filename volume_byte_offset
                     n_voxels_in_slice status volume volume_input in
  let* (status, volume_input) :=
    open_volume_file file abs_volume_filename volume_byte_offset status
                     volume_input in
  let volume_input := set_slice_index volume_input 0 in
  ret (status, volume, volume_input).

(** ** [delete_free_format_input]: frees the slice buffer and closes the
    image file.

    [FREE] is the release macro of volume_io: it releases the storage and
    resets the pointer ([None]); a pointer already reset is left alone. *)
Definition FREE {A} (ptr : option A) : option A := None.

Definition delete_free_format_input (volume_input : volume_input_struct)
  : io volume_input_struct :=
  let volume_input :=
    if decide (file_data_type volume_input = UNSIGNED_BYTE)
    then set_byte_slice_buffer volume_input
           (FREE (byte_slice_buffer volume_input))
    else set_short_slice_buffer volume_input
           (FREE (short_slice_buffer volume_input)) in
  if one_file_per_slice volume_input then
    let volume_input :=
      set_slice_filenames volume_input (FREE (slice_filenames volume_input)) in
    ret (set_slice_byte_offsets volume_input
           (FREE (slice_byte_offsets volume_input)))
  else
    let* _ := close_file (volume_file volume_input) in
    ret volume_input.

(** ** [input_more_free_format_file]: reads in one more slice. *)

(** Lines 500-512 and 529-536: the value stored for a raw sample. *)
Definition scale_value (value_translation value_scale : Real) (raw : Z)
  : option Z :=
  int_of_Real (Rdiv (Rsub (Real_of_int raw) value_translation) value_scale).

Definition byte_value (scaling_flag : bool)
    (value_translation value_scale : Real) (raw : Z) : option Z :=
  if scaling_flag then
    value ← scale_value value_translation value_scale raw;
    Some (if bool_decide (value < 0) then 0
          else if bool_decide (value > 255) then 255 else value)
  else Some raw.

Definition short_value (scaling_flag : bool)
    (value_translation value_scale : Real) (raw : Z) : option Z :=
  if scaling_flag then scale_value value_translation value_scale raw
  else Some raw.

(** One turn of the inner loop: [*inner_index] is [k], the sample under the
    buffer pointer is stored at [indices], both advance. *)
Definition store_sample (quantize : Z -> option Z) (buffer : list Z)
    (inner : Z) (k : Z) (st : list Z * Z * Volume)
  : option (list Z * Z * Volume) :=
  let '(indices, ptr, volume) := st in
  raw ← load buffer ptr;
  value ← quantize raw;
  x ← load indices X;
  y ← load indices Y;
  z ← load indices Z_;
  volume ← set_voxel volume x y z (Real_of_int value);
  indices ← store indices inner (k + 1);
  Some (indices, ptr + 1, volume).

(** One turn of the outer loop, over the samples of a row. *)
Definition store_row (quantize : Z -> option Z) (buffer : list Z)
    (outer inner : Z) (size2 : Z) (i : Z) (st : list Z * Z * Volume)
  : option (list Z * Z * Volume) :=
  let '(indices, ptr, volume) := st in
  indices ← store indices outer i;
  indices ← store indices inner 0;
  foldl (fun st k => st ≫= store_sample quantize buffer inner k)
        (Some (indices, ptr, volume)) (for_less 0 size2).

Definition store_slice (quantize : Z -> option Z) (buffer : list Z)
    (outer inner : Z) (size1 size2 : Z) (indices : list Z) (volume : Volume)
  : option Volume :=
  st ← foldl (fun st i => st ≫= store_row quantize buffer outer inner size2 i)
             (Some (indices, 0, volume)) (for_less 0 size1);
  Some st.2.

(** Lines 562-578: the extrema of the voxels of the volume. *)
Definition range_voxel (junk : Real) (volume : Volume) (x y z : Z)
    (st : Z * Z) : option (Z * Z) :=
  let (min_value, max_value) := st in
  value ← get_voxel junk volume x y z ≫= int_of_Real;
  Some (if bool_decide (value < min_value) then (value, max_value)
        else if bool_decide (value > max_value) then (min_value, value)
        else (min_value, max_value)).

Definition volume_range (junk : Real) (volume : Volume) : option (Z * Z) :=
  min_value ← get_voxel junk volume 0 0 0 ≫= int_of_Real;
  sx ← load (sizes volume) X;
  sy ← load (sizes volume) Y;
  sz ← load (sizes volume) Z_;
  foldl (fun st x =>
    foldl (fun st y =>
      foldl (fun st z => st ≫= range_voxel junk volume x y z)
            st (for_less 0 sz))
      st (for_less 0 sy))
    (Some (min_value, min_value)) (for_less 0 sx).

Definition bytes_as_ints (buffer : option (list byte)) : option (list Z) :=
  map byte_val <$> buffer.

(** Lines 467-550: while slices remain, the next one is read and its
    samples are stored in the volume. The result carries the volume, the
    input state, [original_min_voxel] and [original_max_voxel]. *)
Definition input_more_slice (volume : Volume)
    (volume_input : volume_input_struct)
  : io (Volume * volume_input_struct * Real * Real) :=
  let* w := get_world in
  let indices := map (junk_int w) (seq 0 5) in
  let original_min_voxel := junk_real w 0 in
  let original_max_voxel := junk_real w 1 in
  let* size0 := lift (load (sizes_in_file volume_input) 0) in
  if bool_decide (slice_index volume_input < size0) then
    let volume :=
      if volume_is_alloced volume then volume else alloc_volume_data volume in
    let* (status, volume_input) := input_slice volume_input in
    let scaling_flag :=
      bool_decide (data_type volume <> file_data_type volume_input) in
    let '(original_min_voxel, original_max_voxel) :=
      if scaling_flag then (voxel_min volume, voxel_max volume)
      else (original_min_voxel, original_max_voxel) in
    let value_translation := original_min_voxel in
    let value_scale :=
      Rdiv (Rsub original_max_voxel original_min_voxel)
           (Real_of_int (NUM_BYTE_VALUES - 1)) in
    let* inner := lift (load (axis_index_from_file volume_input) 2) in
    let* slice_axis := lift (load (axis_index_from_file volume_input) 0) in
    let* indices :=
      lift (store indices slice_axis (slice_index volume_input - 1)) in
    let* volume :=
      if decide (status = OK) then
        let* outer := lift (load (axis_index_from_file volume_input) 1) in
        let* size1 := lift (load (sizes_in_file volume_input) 1) in
        let* size2 := lift (load (sizes_in_file volume_input) 2) in
        match file_data_type volume_input with
        | UNSIGNED_BYTE =>
            let* buffer :=
              lift (bytes_as_ints (byte_slice_buffer volume_input)) in
            lift (store_slice
                    (byte_value scaling_flag value_translation value_scale)
                    buffer outer inner size1 size2 indices volume)
        | UNSIGNED_SHORT =>
            let* buffer := lift (short_slice_buffer volume_input) in
            lift (store_slice
                    (short_value scaling_flag value_translation value_scale)
                    buffer outer inner size1 size2 indices volume)
        | _ => ret volume
        end
      else ret volume in
    ret (volume, volume_input, original_min_voxel, original_max_voxel)
  else ret (volume, volume_input, original_min_voxel, original_max_voxel).

(** The results are [more_to_do] and [*fraction_done], with the volume and
    the input state as the call leaves them. *)
Definition input_more_free_format_file (volume : Volume)
    (volume_input : volume_input_struct)
  : io (bool * Real * Volume * volume_input_struct) :=
  let* w := get_world in
  let* (volume, volume_input, original_min_voxel, original_max_voxel) :=
    input_more_slice volume volume_input in
  let* slice_axis := lift (load (axis_index_from_file volume_input) 0) in
  let* total := lift (load (sizes volume) slice_axis) in
  let fraction_done :=
    Rdiv (Real_of_int (slice_index volume_input)) (Real_of_int total) in
  if decide (slice_index volume_input = total) then
    let* (min_value, max_value) := lift (volume_range (junk_real w 2) volume) in
    let volume :=
      set_volume_voxel_range volume (Real_of_int min_value)
                             (Real_of_int max_value) in
    let volume :=
      if decide (data_type volume <> file_data_type volume_input)
      then set_volume_real_range volume original_min_voxel original_max_voxel
      else volume in
    ret (false, fraction_done, volume, volume_input)
  else ret (true, fraction_done, volume, volume_input).

(** * input_mgh.c *)

Definition MGH_MAX_DIMS : Z := 4.
Definition MGH_N_SPATIAL : Z := N_DIMENSIONS.
Definition MGH_N_COMPONENTS : Z := 4.
Definition MGH_N_XFORM : Z := MGH_N_COMPONENTS * MGH_N_SPATIAL.
Definition MGH_HEADER_SIZE : Z := 284.
Definition MGH_EXTRA_SIZE : Z := 194.

Definition MGH_TYPE_UCHAR : Z := 0.
Definition MGH_TYPE_INT : Z := 1.
Definition MGH_TYPE_LONG : Z := 2.
Definition MGH_TYPE_FLOAT : Z := 3.
Definition MGH_TYPE_SHORT : Z := 4.
Definition MGH_TYPE_BITMAP : Z := 5.
Definition MGH_TYPE_TENSOR : Z := 6.

(** Information in the MGH/MGZ file header. *)
Record mgh_header := {
  version : Z;
  hdr_sizes : list Z;
  type : Z;
  dof : Z;
  goodRASflag : Z;
  spacing : list float;
  dircos : list (list float)
}.

(** [swapFloat]: the argument is given by its object representation, read
    as an unsigned integer of the host; the result is the float whose
    encoding is that integer in network order. *)
Definition swapFloat (big : bool) (f : Z) : float :=
  float_of_bits (ntohl big f).

(** [get_type_size] of volume_io. *)
Definition get_type_size (t : Data_types) : Z :=
  match t with
  | UNSIGNED_BYTE | SIGNED_BYTE => 1
  | UNSIGNED_SHORT | SIGNED_SHORT => 2
  | UNSIGNED_INT | SIGNED_INT => 4
  | FLOAT => 4
  | DOUBLE => 8
  | NO_DATA_TYPE | MAX_DATA_TYPE => 0
  end.

(** [znzread( ptr, size, n, fp ) != n]: the elements when all were read. *)
Definition znzread_all (fp : Z) (size n : Z) : io (option (list (list byte))) :=
  let* els := read_elements fp size n in
  ret (if bool_decide (Z.of_nat (length els) = n) then Some els else None).

(** ** [input_next_slice]: reads the next slice from the MGH volume and
    advances [slice_index] if successful. *)
Definition input_next_slice (in_ptr : volume_input_struct)
  : io (Status * volume_input_struct) :=
  let fp := volume_file in_ptr in
  let* size2 := lift (load (sizes_in_file in_ptr) 2) in
  if bool_decide (slice_index in_ptr >= size2) then ret (ERROR, in_ptr)
  else
    let n_bytes_per_voxel :=
      size_t_of_int (get_type_size (file_data_type in_ptr)) in
    let* size0 := lift (load (sizes_in_file in_ptr) 0) in
    let* size1 := lift (load (sizes_in_file in_ptr) 1) in
    (* the product is computed in [int], then converted *)
    let n_voxels_in_slice := size_t_of_int (int_mul size0 size1) in
    let* old := lift (byte_slice_buffer in_ptr) in
    if bool_decide (n_voxels_in_slice * n_bytes_per_voxel <= Z.of_nat (length old))
    then
      let* els := read_elements fp n_bytes_per_voxel n_voxels_in_slice in
      let in_ptr :=
        set_byte_slice_buffer in_ptr (Some (overwrite old (concat els))) in
      if bool_decide (Z.of_nat (length els) <> n_voxels_in_slice)
      then ret (ERROR, in_ptr)
      else ret (OK, set_slice_index in_ptr (slice_index in_ptr + 1))
    else undefined.

(** ** [mgh_header_to_linear_transform]

    The transform is a 4x4 matrix, [Transform_elem( t, i, j )] being entry
    [j] of row [i]. *)
Definition Transform : Type := list (list Real).

Definition make_identity_transform : Transform :=
  map (fun i => map (fun j => if decide (i = j) then Rone else Rzero)
                    (for_less 0 4))
      (for_less 0 4).

Definition Transform_elem (t : Transform) (i j : Z) : option Real :=
  row ← load t i; load row j.

Definition set_Transform_elem (t : Transform) (i j : Z) (x : Real)
  : option Transform :=
  row ← load t i; row ← store row j x; store t i row.

Definition load2 {A} (m : list (list A)) (i j : Z) : option A :=
  row ← load m i; load row j.

Definition store2 {A} (m : list (list A)) (i j : Z) (x : A)
  : option (list (list A)) :=
  row ← load m i; row ← store row j x; store m i row.

(** [mgh_xform[i][j] = dircos[j][i] * spacing[i]], a product of floats. *)
Definition xform_scaled (hdr : mgh_header) (mgh_xform : list (list Real))
    (ij : Z * Z) : option (list (list Real)) :=
  let (i, j) := ij in
  d ← load2 (dircos hdr) j i;
  s ← load (spacing hdr) i;
  store2 mgh_xform i j (Real_of_float (Fmul d s)).

(** The origin of row [i]: [temp] sums [dircos[j][i] * (sizes[j] / 2.0)]. *)
Definition xform_origin (hdr : mgh_header) (ignore_offsets : bool)
    (mgh_xform : list (list Real)) (i : Z) : option (list (list Real)) :=
  temp ← foldl (fun temp j =>
                  temp ← temp;
                  d ← load2 (dircos hdr) j i;
                  n ← load (hdr_sizes hdr) j;
                  Some (Radd temp (Rmul (Real_of_float d)
                                        (Rdiv (Real_of_int n) (Real_of_int 2)))))
               (Some Rzero) (for_less 0 MGH_N_SPATIAL);
  if ignore_offsets then
    store2 mgh_xform i (MGH_N_COMPONENTS - 1) (Ropp temp)
  else
    c ← load2 (dircos hdr) (MGH_N_COMPONENTS - 1) i;
    store2 mgh_xform i (MGH_N_COMPONENTS - 1) (Rsub (Real_of_float c) temp).

(** The columns are swapped into XYZ order. *)
Definition xform_column (in_ptr : volume_input_struct)
    (mgh_xform : list (list Real)) (mnc_xform : Transform) (ij : Z * Z)
  : option Transform :=
  let (i, j) := ij in
  volume_axis ←
    (if bool_decide (j < N_DIMENSIONS)
     then load (axis_index_from_file in_ptr) j else Some j);
  x ← load2 mgh_xform i j;
  set_Transform_elem mnc_xform i volume_axis x.

Definition pairs (a b : list Z) : list (Z * Z) :=
  i ← a; j ← b; [(i, j)].

Definition mgh_header_to_linear_transform (w : World) (hdr : mgh_header)
    (in_ptr : volume_input_struct) (ignore_offsets : bool)
  : option Transform :=
  let mnc_xform := make_identity_transform in
  let mgh_xform :=
    map (fun i => map (fun j => junk_real w (Z.to_nat (4 * i + j)))
                      (for_less 0 MGH_N_COMPONENTS))
        (for_less 0 MGH_N_SPATIAL) in
  mgh_xform ←
    foldl (fun m ij => m ≫= (fun m => xform_scaled hdr m ij)) (Some mgh_xform)
          (pairs (for_less 0 MGH_N_SPATIAL) (for_less 0 MGH_N_SPATIAL));
  mgh_xform ←
    foldl (fun m i => m ≫= (fun m => xform_origin hdr ignore_offsets m i))
          (Some mgh_xform) (for_less 0 MGH_N_SPATIAL);
  foldl (fun t ij => t ≫= (fun t => xform_column in_ptr mgh_xform t ij))
        (Some mnc_xform)
        (pairs (for_less 0 MGH_N_SPATIAL) (for_less 0 MGH_N_COMPONENTS)).

(** ** [mgh_header_from_file]: read an MGH header from an open file. *)

(** Lines 310-325: defaults when the flag is zero, for one value of [i]. *)
Definition default_geometry (sd : list float * list (list float)) (i : Z)
  : option (list float * list (list float)) :=
  let (spacing, dircos) := sd in
  spacing ← store spacing i (float_of_int 1);
  dircos ← foldl (fun d j => d ≫= (fun d => store2 d j i (S754_zero false)))
                 (Some dircos) (for_less 0 MGH_N_COMPONENTS);
  dircos ← store2 dircos 0 0 (SFopp (float_of_int 1));
  dircos ← store2 dircos 1 2 (SFopp (float_of_int 1));
  dircos ← store2 dircos 2 1 (float_of_int 1);
  Some (spacing, dircos).

(** Rows of [n] elements of a flat array. *)
Fixpoint rows {A} (k : nat) (n : nat) (l : list A) : list (list A) :=
  match k with
  | O => []
  | S k' => take n l :: rows k' n (drop n l)
  end.

Definition mgh_header_from_file (fp : Z) : io (option mgh_header) :=
  let* w := get_world in
  let big := big_endian w in
  let* version := znzread_all fp 4 1 in
  match version with None => ret None | Some version =>
  let* sizes := znzread_all fp 4 MGH_MAX_DIMS in
  match sizes with None => ret None | Some sizes =>
  let* type := znzread_all fp 4 1 in
  match type with None => ret None | Some type =>
  let* dof := znzread_all fp 4 1 in
  match dof with None => ret None | Some dof =>
  let* goodRASflag := znzread_all fp 2 1 in
  match goodRASflag with None => ret None | Some goodRASflag =>
  let* spacing := znzread_all fp 4 MGH_N_SPATIAL in
  match spacing with None => ret None | Some spacing =>
  let* dircos := znzread_all fp 4 MGH_N_XFORM in
  match dircos with None => ret None | Some dircos =>
  let* dummy := znzread_all fp 1 MGH_EXTRA_SIZE in
  match dummy with None => ret None | Some _ =>
  (* convert to the machine's byte ordering *)
  let int_field (bs : list (list byte)) : Z :=
    to_int (ntohl big (host_val big (concat bs))) in
  let version := int_field version in
  let sizes := map (fun b => to_int (ntohl big (host_val big b))) sizes in
  let type := int_field type in
  let dof := int_field dof in
  let goodRASflag := to_short (ntohs big (host_val big (concat goodRASflag))) in
  if decide (version <> 1) then ret None
  else if decide (goodRASflag <> 0) then
    ret (Some {| version := version; hdr_sizes := sizes; type := type;
                 dof := dof; goodRASflag := goodRASflag;
                 spacing := map (fun b => swapFloat big (host_val big b)) spacing;
                 dircos := rows 4 3 (map (fun b => swapFloat big (host_val big b))
                                         dircos) |})
  else
    (* flag is zero, so just use the defaults *)
    let raw (b : list byte) : float := float_of_bits (host_val big b) in
    let* (spacing, dircos) :=
      lift (foldl (fun sd i => sd ≫= (fun sd => default_geometry sd i))
                  (Some (map raw spacing, rows 4 3 (map raw dircos)))
                  (for_less 0 MGH_N_SPATIAL)) in
    ret (Some {| version := version; hdr_sizes := sizes; type := type;
                 dof := dof; goodRASflag := goodRASflag;
                 spacing := spacing; dircos := dircos |})
  end end end end end end end end.

(** ** Samples of the slice buffer *)

(** The sample under [data_ptr], as the conversions of lines 354-383 and
    677-698 produce it, and the pointer after it; an unsupported type leaves
    both as they are. [to_real] tells the type of [value]: [float] in the
    scan, [VIO_Real] in the loader. *)
Definition mgh_sample (big : bool) (t : Data_types) (to_real : bool)
    (buffer : list byte) (data_ptr : Z) (value : spec_float)
  : option (spec_float * Z) :=
  let of_int (i : Z) := if to_real then Real_of_int i else float_of_int i in
  let of_float (f : float) := if to_real then Real_of_float f else f in
  let object (n : Z) : option (list byte) :=
    if bool_decide (0 <= data_ptr /\ data_ptr + n <= Z.of_nat (length buffer))
    then Some (take (Z.to_nat n) (drop (Z.to_nat data_ptr) buffer))
    else None in
  match t with
  | UNSIGNED_BYTE =>
      bs ← object 1; Some (of_int (host_val big bs), data_ptr + 1)
  | SIGNED_SHORT =>
      bs ← object 2; Some (of_int (ntohs big (host_val big bs)), data_ptr + 2)
  | SIGNED_INT =>
      bs ← object 4; Some (of_int (ntohl big (host_val big bs)), data_ptr + 4)
  | FLOAT =>
      bs ← object 4;
      Some (of_float (swapFloat big (host_val big bs)), data_ptr + 4)
  | _ => Some (value, data_ptr)
  end.

(** ** [mgh_scan_for_voxel_range] *)

Definition scan_sample (big : bool) (t : Data_types) (buffer : list byte)
    (st : float * float * float * Z) : option (float * float * float * Z) :=
  let '(min_value, max_value, value, data_ptr) := st in
  '(value, data_ptr) ← mgh_sample big t false buffer data_ptr value;
  let min_value := if Rlt value min_value then value else min_value in
  let max_value := if Rgt value max_value then value else max_value in
  Some (min_value, max_value, value, data_ptr).

Definition mgh_scan_slice (n_voxels_in_slice : Z) (slice : Z)
    (st : volume_input_struct * (float * float * float))
  : io (volume_input_struct * (float * float * float)) :=
  let '(in_ptr, (min_value, max_value, value)) := st in
  let* w := get_world in
  let* (_, in_ptr) := input_next_slice in_ptr in
  let* buffer := lift (byte_slice_buffer in_ptr) in
  let* (min_value, max_value, value, _) :=
    lift (foldl (fun st _ =>
                   st ≫= scan_sample (big_endian w) (file_data_type in_ptr) buffer)
                (Some (min_value, max_value, value, 0))
                (for_less 0 n_voxels_in_slice)) in
  ret (in_ptr, (min_value, max_value, value)).

Definition mgh_scan_for_voxel_range (in_ptr : volume_input_struct)
    (n_voxels_in_slice : Z)
  : io (bool * volume_input_struct * float * float) :=
  let fp := volume_file in_ptr in
  let min_value := FLT_MAX in
  let max_value := SFopp FLT_MAX in
  let value := S754_zero false in
  let* data_offset := file_position fp in
  if bool_decide (data_offset < 0) then
    ret (false, in_ptr, min_value, max_value)
  else
    let* size2 := lift (load (sizes_in_file in_ptr) 2) in
    let* (in_ptr, (min_value, max_value, _)) :=
      foreach (for_less 0 size2) (mgh_scan_slice n_voxels_in_slice)
              (in_ptr, (min_value, max_value, value)) in
    let in_ptr := set_slice_index in_ptr 0 in
    let* _ := set_file_position fp data_offset in
    ret (true, in_ptr, min_value, max_value).

(** ** [initialize_mgh_format_input] *)

(** Lines 507-523: the spatial axis of a file axis, from the magnitudes of
    its direction cosines. *)
Definition spatial_axis_of (hdr : mgh_header) (axis : Z) : option Z :=
  dx ← load2 (dircos hdr) axis X;
  dy ← load2 (dircos hdr) axis Y;
  dz ← load2 (dircos hdr) axis Z_;
  let spatial_axis := X in
  let c_x := float_of_Real (fabs (Real_of_float dx)) in
  let c_y := float_of_Real (fabs (Real_of_float dy)) in
  let c_z := float_of_Real (fabs (Real_of_float dz)) in
  let spatial_axis := if Rgt c_y c_x && Rgt c_y c_z then Y else spatial_axis in
  let spatial_axis := if Rgt c_z c_x && Rgt c_z c_y then Z_ else spatial_axis in
  Some spatial_axis.

Definition set_spatial_axis (hdr : mgh_header) (in_ptr : volume_input_struct)
    (axis : Z) : option volume_input_struct :=
  spatial_axis ← spatial_axis_of hdr axis;
  a ← store (axis_index_from_file in_ptr) axis spatial_axis;
  Some (set_axis_index_from_file in_ptr a).

(** Lines 537-543, for one value of [axis]. *)
Definition set_axis_geometry (in_ptr : volume_input_struct)
    (mnc_dircos : Z -> list Real) (st : Volume * list Z) (axis : Z)
  : option (Volume * list Z) :=
  let (volume, sizes) := st in
  volume_axis ← load (spatial_axes volume) axis;
  file_axis ← load (axis_index_from_file in_ptr) volume_axis;
  n ← load (sizes_in_file in_ptr) volume_axis;
  sizes ← store sizes file_axis n;
  if bool_decide (volume_axis < N_DIMENSIONS) then
    d ← store (direction_cosines volume) volume_axis (mnc_dircos volume_axis);
    Some (with_direction_cosines volume d, sizes)
  else None.

Section Mgh.

(** [convert_transform_to_starts_and_steps] belongs to the transform library:
    from the transform and the spatial axes it gives the starts, the steps
    and, for each axis, the direction cosines. *)
Variable convert_transform_to_starts_and_steps :
  Transform -> list Z -> list Real * list Real * (Z -> list Real).

Definition initialize_mgh_format_input (filename : string)
    (volume : Volume) (in_ptr : volume_input_struct)
  : io (Status * Volume * volume_input_struct) :=
  let* w := get_world in
  let sizes := map (junk_int w) (seq 0 5) in
  let* (opened, fp) := open_file filename in
  if decide (opened = ERROR) then ret (ERROR, volume, in_ptr)
  else
  let* hdr := mgh_header_from_file fp in
  match hdr with
  | None => let* _ := close_file fp in ret (ERROR, volume, in_ptr)
  | Some hdr =>
  (* translate from MGH to VIO types *)
  let types : option (Data_types * nc_type * bool) :=
    if decide (type hdr = MGH_TYPE_UCHAR) then Some (UNSIGNED_BYTE, NC_BYTE, false)
    else if decide (type hdr = MGH_TYPE_INT) then Some (SIGNED_INT, NC_INT, true)
    else if decide (type hdr = MGH_TYPE_FLOAT) then Some (FLOAT, NC_FLOAT, true)
    else if decide (type hdr = MGH_TYPE_SHORT) then Some (SIGNED_SHORT, NC_SHORT, true)
    else None in
  match types with
  | None => let* _ := close_file fp in ret (ERROR, volume, in_ptr)
  | Some (t, file_nc_type, signed_flag) =>
  let in_ptr := set_file_data_type in_ptr t in
  (* decide how to store data in memory *)
  let '(desired_nc_type, signed_flag) :=
    if decide (data_type volume = NO_DATA_TYPE) then (file_nc_type, signed_flag)
    else (nc_data_type volume, is_signed volume) in
  let* volume := lift (default_spatial_axes volume) in
  (* the number of non-trivial dimensions in the file *)
  let* (in_ptr, n_dimensions) :=
    lift (foldl (fun st axis =>
                   '(in_ptr, n_dimensions) ← st;
                   n ← load (hdr_sizes hdr) axis;
                   s ← store (sizes_in_file in_ptr) axis n;
                   Some (set_sizes_in_file in_ptr s,
                         if bool_decide (n > 1) then n_dimensions + 1
                         else n_dimensions))
                (Some (in_ptr, 0)) (for_less 0 MGH_MAX_DIMS)) in
  let volume := with_n_dimensions volume n_dimensions in
  (* the correspondence between the file axes and the spatial axes *)
  let* in_ptr :=
    lift (foldl (fun p axis => p ≫= (fun p => set_spatial_axis hdr p axis))
                (Some in_ptr) (for_less 0 MGH_N_SPATIAL)) in
  let* mnc_native_xform :=
    lift (mgh_header_to_linear_transform w hdr in_ptr true) in
  let geometry :=
    convert_transform_to_starts_and_steps mnc_native_xform (spatial_axes volume) in
  let mnc_starts := geometry.1.1 in
  let mnc_steps := geometry.1.2 in
  let mnc_dircos := geometry.2 in
  let* (volume, sizes) :=
    lift (foldl (fun st axis => st ≫= (fun st => set_axis_geometry in_ptr mnc_dircos st axis))
                (Some (volume, sizes)) (for_less 0 N_DIMENSIONS)) in
  let volume := set_volume_separations volume mnc_steps in
  let volume := set_volume_starts volume mnc_starts in
  (* if we are a 4D image, we need to copy the size here *)
  let* size3 := lift (load (sizes_in_file in_ptr) 3) in
  let* sizes := lift (store sizes 3 size3) in
  let volume := set_volume_type volume desired_nc_type signed_flag in
  let volume := set_volume_sizes volume sizes in
  let n_bytes_per_voxel := get_type_size (file_data_type in_ptr) in
  let* size0 := lift (load (sizes_in_file in_ptr) 0) in
  let* size1 := lift (load (sizes_in_file in_ptr) 1) in
  let n_voxels_in_slice := int_mul size0 size1 in
  let in_ptr := set_min_value in_ptr (Real_of_float FLT_MAX) in
  let in_ptr := set_max_value in_ptr (Real_of_float (SFopp FLT_MAX)) in
  (* allocate the slice buffer *)
  let in_ptr :=
    set_byte_slice_buffer in_ptr
      (Some (fresh_bytes w (int_mul n_voxels_in_slice n_bytes_per_voxel))) in
  let in_ptr := set_volume_file in_ptr fp in
  let in_ptr := set_slice_index in_ptr 0 in
  (* if the data must be converted, read the entire image file simply to
     find the max and min values *)
  if decide (data_type volume <> file_data_type in_ptr) then
    let* (found, in_ptr, min_value, max_value) :=
      mgh_scan_for_voxel_range in_ptr n_voxels_in_slice in
    let '(min_value, max_value) :=
      if found then (min_value, max_value)
      else (float_of_Real (junk_real w 0), float_of_Real (junk_real w 1)) in
    ret (OK,
         set_volume_voxel_range volume (Real_of_float min_value)
                                (Real_of_float max_value),
         in_ptr)
  else ret (OK, volume, in_ptr)
  end end.

End Mgh.

(** ** [delete_mgh_format_input] *)
Definition delete_mgh_format_input (in_ptr : volume_input_struct)
  : io volume_input_struct :=
  let fp := volume_file in_ptr in
  let in_ptr := set_byte_slice_buffer in_ptr (FREE (byte_slice_buffer in_ptr)) in
  let* _ := close_file fp in
  ret in_ptr.

(** ** [input_more_mgh_format_file] *)

(** Lines 677-714: one sample is converted, scaled, recorded in the running
    extrema of the session and stored. *)
Definition mgh_store_sample (big : bool) (t : Data_types)
    (value_translation value_scale : Real) (buffer : list byte)
    (inner : Z) (k : Z)
    (st : list Z * Z * Real * volume_input_struct * Volume)
  : option (list Z * Z * Real * volume_input_struct * Volume) :=
  let '(indices, data_ptr, value, in_ptr, volume) := st in
  '(value, data_ptr) ← mgh_sample big t true buffer data_ptr value;
  let value := Rdiv (Rsub value value_translation) value_scale in
  let in_ptr :=
    if Rgt value (max_value in_ptr) then set_max_value in_ptr value else in_ptr in
  let in_ptr :=
    if Rlt value (min_value in_ptr) then set_min_value in_ptr value else in_ptr in
  x ← load indices X;
  y ← load indices Y;
  z ← load indices Z_;
  volume ← set_voxel volume x y z value;
  indices ← store indices inner (k + 1);
  Some (indices, data_ptr, value, in_ptr, volume).

Definition mgh_store_row (big : bool) (t : Data_types)
    (value_translation value_scale : Real) (buffer : list byte)
    (outer inner : Z) (size0 : Z) (i : Z)
    (st : list Z * Z * Real * volume_input_struct * Volume)
  : option (list Z * Z * Real * volume_input_struct * Volume) :=
  let '(indices, data_ptr, value, in_ptr, volume) := st in
  indices ← store indices outer i;
  indices ← store indices inner 0;
  foldl (fun st k =>
           st ≫= mgh_store_sample big t value_translation value_scale buffer inner k)
        (Some (indices, data_ptr, value, in_ptr, volume)) (for_less 0 size0).

(** Lines 627-718: while slices remain, the next one is read and its
    samples are stored. The result is [None] on the early return of line
    638, when the volume could not be allocated; else it carries the
    volume, the input state, [original_min_voxel] and [original_max_voxel]. *)
Definition input_more_mgh_slice (can_alloc : bool) (volume : Volume)
    (in_ptr : volume_input_struct)
  : io (option (Volume * volume_input_struct * Real * Real)) :=
  let* w := get_world in
  let value := Rzero in
  let indices := map (junk_int w) (seq 0 5) in
  let original_min_voxel := junk_real w 0 in
  let original_max_voxel := junk_real w 1 in
  let* size2 := lift (load (sizes_in_file in_ptr) 2) in
  if bool_decide (slice_index in_ptr < size2) then
    (* if the memory for the volume has not been allocated yet,
       initialize that memory now *)
    let volume :=
      if volume_is_alloced volume then volume
      else if can_alloc then alloc_volume_data volume else volume in
    if negb (volume_is_alloced volume) then ret None
    else
      let* (status, in_ptr) := input_next_slice in_ptr in
      let '(original_min_voxel, original_max_voxel, value_translation, value_scale) :=
        if decide (data_type volume <> file_data_type in_ptr) then
          (voxel_min volume, voxel_max volume, voxel_min volume,
           Rdiv (Rsub (voxel_max volume) (voxel_min volume))
                (Real_of_int (NUM_BYTE_VALUES - 1)))
        else (original_min_voxel, original_max_voxel, Rzero, Rone) in
      let* inner := lift (load (axis_index_from_file in_ptr) 0) in
      let* slice_axis := lift (load (axis_index_from_file in_ptr) 2) in
      let* indices := lift (store indices slice_axis (slice_index in_ptr - 1)) in
      let* (in_ptr, volume) :=
        if decide (status = OK) then
          let* buffer := lift (byte_slice_buffer in_ptr) in
          let* outer := lift (load (axis_index_from_file in_ptr) 1) in
          let* size0 := lift (load (sizes_in_file in_ptr) 0) in
          let* size1 := lift (load (sizes_in_file in_ptr) 1) in
          let* (_, _, _, in_ptr, volume) :=
            lift (foldl (fun st i =>
                           st ≫= mgh_store_row (big_endian w)
                                   (file_data_type in_ptr) value_translation
                                   value_scale buffer outer inner size0 i)
                        (Some (indices, 0, value, in_ptr, volume))
                        (for_less 0 size1)) in
          ret (in_ptr, volume)
        else ret (in_ptr, volume) in
      ret (Some (volume, in_ptr, original_min_voxel, original_max_voxel))
  else ret (Some (volume, in_ptr, original_min_voxel, original_max_voxel)).

(** The results are the value returned and [*fraction_done], which the
    early return leaves unassigned ([None]). [can_alloc] tells whether
    [alloc_volume_data] can obtain the storage. *)
Definition input_more_mgh_format_file (can_alloc : bool) (volume : Volume)
    (in_ptr : volume_input_struct)
  : io (bool * option Real * Volume * volume_input_struct) :=
  let* step := input_more_mgh_slice can_alloc volume in_ptr in
  match step with
  | None => ret (false, None, volume, in_ptr)
  | Some (volume, in_ptr, original_min_voxel, original_max_voxel) =>
      let* size2 := lift (load (sizes_in_file in_ptr) 2) in
      let fraction_done :=
        Rdiv (Real_of_int (slice_index in_ptr)) (Real_of_int size2) in
      (* see if we are all done *)
      if decide (slice_index in_ptr = size2) then
        let volume :=
          set_volume_voxel_range volume (min_value in_ptr) (max_value in_ptr) in
        let volume :=
          if decide (data_type volume <> file_data_type in_ptr)
          then set_volume_real_range volume original_min_voxel original_max_voxel
          else volume in
        ret (false, Some fraction_done, volume, in_ptr)
      else ret (true, Some fraction_done, volume, in_ptr)
  end.

(** * Concrete files and sessions

    The objects that the statements below are evaluated on. *)

Definition byte_of_Z (z : Z) : byte :=
  default x00 (Byte.of_N (Z.to_N (z mod 256))).

(** The [n] bytes of [z], most significant first. *)
Fixpoint be_bytes (n : nat) (z : Z) : list byte :=
  match n with
  | O => []
  | S n' => byte_of_Z (z / 256 ^ Z.of_nat n') :: be_bytes n' z
  end.

(** Binary32 encodings of 0.0, 1.0 and -1.0. *)
Definition bits_0 : Z := 0.
Definition bits_1 : Z := 1065353216.
Definition bits_m1 : Z := 3212836864.

(** An MGH file: the 284 bytes of the header, then the samples. *)
Definition mgh_file (dims : list Z) (type_code flag : Z)
    (spacing_bits dircos_bits : list Z) (samples : list byte) : list byte :=
  be_bytes 4 1 ++ concat (map (be_bytes 4) dims) ++ be_bytes 4 type_code ++
  be_bytes 4 0 ++ be_bytes 2 flag ++ concat (map (be_bytes 4) spacing_bits) ++
  concat (map (be_bytes 4) dircos_bits) ++ replicate 194 x00 ++ samples.

(** A world with the given files and no open stream; indeterminate values
    are zero. *)
Definition world_of (big : bool) (files : gmap string file_data) : World :=
  {| big_endian := big; disk := files; streams := ∅; next_FILE := 1;
     junk_int := fun _ => 0; junk_real := fun _ => Rzero;
     junk_byte := fun _ => x00 |}.

(** A volume as [create_volume] leaves it, of the given storage type
    ([NO_DATA_TYPE]: the type of the file is taken), and the input state
    before a driver fills it. *)
Definition new_volume (t : Data_types) (nc : nc_type) : Volume :=
  {| data_type := t; nc_data_type := nc; is_signed := false;
     spatial_axes := [0; 1; 2];
     direction_cosines := replicate 3 (replicate 3 Rzero);
     separations := replicate 5 Rone;
     translation_voxel := replicate 5 Rzero;
     translation_world := replicate 3 Rzero;
     starts := replicate 5 Rzero; sizes := replicate 5 0; n_dimensions := 3;
     voxel_min := Rzero; voxel_max := Rzero; real_min := Rzero;
     real_max := Rzero; data := None |}.

Definition new_input : volume_input_struct :=
  {| file_data_type := NO_DATA_TYPE; sizes_in_file := replicate 5 0;
     axis_index_from_file := replicate 5 0; one_file_per_slice := false;
     directory := ""; slice_filenames := None; slice_byte_offsets := None;
     volume_file := 0; byte_slice_buffer := None; short_slice_buffer := None;
     slice_index := 0; min_value := Rzero; max_value := Rzero |}.

(** A stand-in for the transform library: unit steps along the axes. *)
Definition unit_geometry (_ : Transform) (_ : list Z)
  : list Real * list Real * (Z -> list Real) :=
  (replicate 3 Rzero, replicate 3 Rone,
   fun a => map (fun j => if decide (a = j) then Rone else Rzero)
                (for_less 0 N_DIMENSIONS)).

(** The direction cosines of an axial volume: x, y, z along X, Y, Z. *)
Definition axial_dircos : list Z :=
  [bits_1; bits_0; bits_0;  bits_0; bits_1; bits_0;  bits_0; bits_0; bits_1;
   bits_0; bits_0; bits_0].

(** * Auxiliary definitions of the statements *)

(** The mantissa and the exponent of the binary64 value of a positive
    integer below 2^53. *)
Definition norm_m (p : positive) : positive :=
  Z.to_pos (Zpos p * 2 ^ (53 - Zpos (digits2_pos p))).

Definition norm_e (p : positive) : Z := Zpos (digits2_pos p) - 53.

(** The second half of [binary_round_aux]: renormalisation after the
    rounding of the mantissa. *)
Definition finish_round (s : bool) (M' e : Z) : spec_float :=
  let '(mrs, e2) := shr_fexp 53 1024 M' e loc_Exact in
  match shr_m mrs with
  | Z0 => S754_zero s
  | Zpos m => if e2 <=? 1024 - 53 then S754_finite s m e2 else S754_infinity s
  | Zneg _ => S754_nan
  end.

(** Whether a value is a number that is not infinite. *)
Definition is_finite (x : spec_float) : bool :=
  match x with
  | S754_zero _ | S754_finite _ _ _ => true
  | _ => false
  end.

(** The spatial axes are X, Y, Z and the direction cosines are those of the
    identity. *)
Definition identity_axes (v : Volume) : Prop :=
  load (spatial_axes v) X = Some 0 /\
  load (spatial_axes v) Y = Some 1 /\
  load (spatial_axes v) Z_ = Some 2 /\
  forall c j, 0 <= c < 3 -> 0 <= j < 3 ->
    load2 (direction_cosines v) c j = Some (if decide (c = j) then Rone else Rzero).

(** A free-format header in one-file-per-slice mode: one byte per voxel,
    no translation, file axes z, y, x of 2 x 2 voxels, two slice files. *)
Definition zyx_header : list token :=
  [Tint 1; Tint 0; Tint 0; Tint 0;
   Tint 0; Treal Rone; Tword "z";
   Tint 2; Treal Rone; Tword "y";
   Tint 2; Treal Rone; Tword "x";
   Tword "s0.raw"; Tword "s1.raw"].

Definition zyx_world : World :=
  world_of false
    {[ "scan.fre"%string := Ascii zyx_header;
       "./s0.raw"%string := Binary [x00; x01; x02; x03];
       "./s1.raw"%string := Binary [x04; x05; x06; x07] ]}.

(** A volume whose axes were set otherwise before the open. *)
Definition turned_volume : Volume :=
  with_direction_cosines
    (with_spatial_axes (new_volume NO_DATA_TYPE NC_UNSPECIFIED) [2; 1; 0])
    (replicate 3 [Rzero; Rone; Rone]).

(** [x <= y], false when an operand is NaN. *)
Definition Rle (x y : Real) : Prop := SFleb x y = true.

(** A free-format session of [total] slices: the number of slices in the
    file is the size of the volume along the slice axis, and the cursor
    lies within. *)
Definition free_session (total : Z) (v : Volume) (vi : volume_input_struct)
  : Prop :=
  load (sizes_in_file vi) 0 = Some total /\
  (exists a0, load (axis_index_from_file vi) 0 = Some a0 /\
              load (sizes v) a0 = Some total) /\
  0 <= slice_index vi <= total.

(** An MGH session of [total] slices. *)
Definition mgh_session (total : Z) (in_ptr : volume_input_struct) : Prop :=
  load (sizes_in_file in_ptr) 2 = Some total /\
  0 <= slice_index in_ptr <= total.

(** What the first [n] calls of the loader report: [more_to_do] and
    [*fraction_done], [None] when the call left it unassigned. The sequence
    stops at a call whose behaviour is undefined. *)
Fixpoint free_reports (n : nat) (v : Volume) (vi : volume_input_struct)
    (w : World) : list (bool * option Real) :=
  match n with
  | O => []
  | S n' =>
      match input_more_free_format_file v vi w with
      | Some ((more, f, v', vi'), w') =>
          (more, Some f) :: free_reports n' v' vi' w'
      | None => []
      end
  end.

Fixpoint mgh_reports (n : nat) (can_alloc : bool) (v : Volume)
    (in_ptr : volume_input_struct) (w : World) : list (bool * option Real) :=
  match n with
  | O => []
  | S n' =>
      match input_more_mgh_format_file can_alloc v in_ptr w with
      | Some ((more, f, v', in_ptr'), w') =>
          (more, f) :: mgh_reports n' can_alloc v' in_ptr' w'
      | None => []
      end
  end.

(** The two drivers, their sessions of [total] slices and their reports.
    [can_alloc] tells whether the storage of the volume of an MGH session
    can be obtained; the free-format loader does not test the allocation. *)
Inductive driver := free_format | mgh_format.

Definition session (d : driver) (total : Z) (v : Volume)
    (vi : volume_input_struct) : Prop :=
  match d with
  | free_format => free_session total v vi
  | mgh_format => mgh_session total vi
  end.

Definition reports (d : driver) (can_alloc : bool) (n : nat) (v : Volume)
    (vi : volume_input_struct) (w : World) : list (bool * option Real) :=
  match d with
  | free_format => free_reports n v vi w
  | mgh_format => mgh_reports n can_alloc v vi w
  end.

(** The volume has its storage, or the loader can obtain it. *)
Definition storage_available (d : driver) (can_alloc : bool) (v : Volume)
  : Prop :=
  match d with
  | free_format => True
  | mgh_format => can_alloc = true \/ volume_is_alloced v = true
  end.

Definition reported_le (x y : option Real) : Prop :=
  match x, y with
  | Some a, Some b => Rle a b
  | _, _ => False
  end.

(** Every call reports a fraction, the fractions never decrease, and a call
    that reports no more to do reports the fraction 1.0. *)
Definition steady_progress (l : list (bool * option Real)) : Prop :=
  Sorted reported_le (l.*2) /\
  Forall (fun r => is_Some r.2 /\ (r.1 = false -> r.2 = Some Rone)) l.

(** An MGH file of 2 x 2 x 0 voxels: no slice at all. *)
Definition empty_mgh_world : World :=
  world_of false
    {[ "empty.mgh"%string :=
         Binary (mgh_file [2; 2; 0; 1] MGH_TYPE_UCHAR 1
                          [bits_1; bits_1; bits_1] axial_dircos []) ]}.

(** The voxels stored in a volume. *)
Definition stored (v : Volume) : gmap (Z * Z * Z) Real := default ∅ (data v).

(** The voxels of [v'] are those of [v], but for cells that hold a value
    which is not a finite number. *)
Definition only_non_finite_added (v v' : Volume) : Prop :=
  forall cell r, stored v' !! cell = Some r ->
    stored v !! cell = Some r \/ is_finite r = false.

(** An MGH file of 2 x 1 x 1 voxels of one byte, both samples being 5. *)
Definition constant_mgh_world : World :=
  world_of false
    {[ "flat.mgh"%string :=
         Binary (mgh_file [2; 1; 1; 1] MGH_TYPE_UCHAR 1
                          [bits_1; bits_1; bits_1] axial_dircos [x05; x05]) ]}.

(** The voxels of [v'] are those of [v], but for cells that hold a value
    satisfying [P]. *)
Definition only_added (P : Real -> Prop) (v v' : Volume) : Prop :=
  forall cell r, stored v' !! cell = Some r -> stored v !! cell = Some r \/ P r.

(** The quotient that both loaders compute for a sample [x] of a volume
    stored in another type than the file. *)
Definition scaled (v : Volume) (x : Real) : Real :=
  Rdiv (Rsub x (voxel_min v))
       (Rdiv (Rsub (voxel_max v) (voxel_min v))
             (Real_of_int (NUM_BYTE_VALUES - 1))).

(** Rounding to the nearest integer, halves away from zero, and the value
    that the specification asks for: the rounded quotient, clamped to the
    range of a byte. *)
Definition Rround (x : Real) : option Z :=
  match x with
  | S754_zero _ => Some 0
  | S754_finite s m e =>
      Some (cond_Zopp s
              (match e with
               | Z0 => Zpos m
               | Zpos _ => Zpos m * 2 ^ e
               | Zneg _ => (2 * Zpos m + 2 ^ (- e)) / 2 ^ (- e + 1)
               end))
  | _ => None
  end.

Definition spec_quantized (v : Volume) (raw : Z) : option Z :=
  q ← Rround (scaled v (Real_of_int raw));
  Some (Z.max 0 (Z.min 255 q)).

(** A free-format source of unsigned shorts, one slice of 1 x 3 voxels with
    the samples 0, 3 and 510. *)
Definition shorts_header : list token :=
  [Tint 2; Tint 0; Tint 0; Tint 0;
   Tint 0; Treal Rone; Tword "x";
   Tint 1; Treal Rone; Tword "y";
   Tint 3; Treal Rone; Tword "z";
   Tword "s0.raw"].

Definition shorts_world : World :=
  world_of false
    {[ "shorts.fre"%string := Ascii shorts_header;
       "./s0.raw"%string := Binary [x00; x00; x03; x00; xfe; x01] ]}.

(** The axis of largest magnitude, the earlier axis winning a tie: Y is
    taken only when it exceeds X, Z only when it exceeds both. *)
Definition largest_component (c_x c_y c_z : float) : Z :=
  if Rgt c_z c_x && Rgt c_z c_y then Z_
  else if Rgt c_y c_x then Y
  else X.

(** An MGH file of 1 x 1 x 1 voxels whose first file axis runs half-way
    between Y and Z: its direction cosines are 0, 0.70710677, 0.70710677. *)
Definition bits_s : Z := 1060439283.

Definition oblique_dircos : list Z :=
  [bits_0; bits_s; bits_s;  bits_1; bits_0; bits_0;  bits_0; bits_0; bits_1;
   bits_0; bits_0; bits_0].

Definition oblique_world : World :=
  world_of false
    {[ "oblique.mgh"%string :=
         Binary (mgh_file [1; 1; 1; 1] MGH_TYPE_UCHAR 1
                          [bits_1; bits_1; bits_1] oblique_dircos [x07]) ]}.

(** The slice buffer of the file's sample type, the one that
    [delete_free_format_input] releases. *)
Definition slice_buffer_released (vi : volume_input_struct) : Prop :=
  if decide (file_data_type vi = UNSIGNED_BYTE)
  then byte_slice_buffer vi = None
  else short_slice_buffer vi = None.

(** An MGH file of 2 x 1 x 1 voxels of signed shorts, the samples being -2
    and 1 (big-endian, as the format has them). *)
Definition negative_mgh_world : World :=
  world_of false
    {[ "neg.mgh"%string :=
         Binary (mgh_file [2; 1; 1; 1] MGH_TYPE_SHORT 1
                          [bits_1; bits_1; bits_1] axial_dircos
                          [xff; xfe; x00; x01]) ]}.

(** The samples of an MGH file of signed shorts, in the byte order of the
    format. *)
Definition signed_shorts (bs : list byte) : list Z :=
  map (fun b => to_short (le_val (rev b))) (chunks 2 (length bs / 2) bs).

(** A free-format source of unsigned bytes, one slice of 1 x 3 voxels. *)
Definition bytes_header : list token :=
  [Tint 1; Tint 0; Tint 0; Tint 0;
   Tint 0; Treal Rone; Tword "x";
   Tint 1; Treal Rone; Tword "y";
   Tint 3; Treal Rone; Tword "z";
   Tword "b0.raw"].

Definition bytes_world : World :=
  world_of false
    {[ "bytes.fre"%string := Ascii bytes_header;
       "./b0.raw"%string := Binary [x01; x02; x03] ]}.

(** An MGH file of 2 x 1 x 1 voxels whose first two file axes both run
    along X. *)
Definition doubled_dircos : list Z :=
  [bits_1; bits_0; bits_0;  bits_1; bits_0; bits_0;  bits_0; bits_0; bits_1;
   bits_0; bits_0; bits_0].

Definition doubled_mgh_world : World :=
  world_of false
    {[ "doubled.mgh"%string :=
         Binary (mgh_file [2; 1; 1; 1] MGH_TYPE_UCHAR 1
                          [bits_1; bits_1; bits_1] doubled_dircos [x01; x02]) ]}.

(** A free-format header that names the axis x twice. *)
Definition doubled_header : list token :=
  [Tint 1; Tint 0; Tint 0; Tint 0;
   Tint 0; Treal Rone; Tword "x";
   Tint 1; Treal Rone; Tword "x";
   Tint 3; Treal Rone; Tword "z";
   Tword "b0.raw"].

Definition doubled_free_world : World :=
  world_of false
    {[ "doubled.fre"%string := Ascii doubled_header;
       "./b0.raw"%string := Binary [x01; x02; x03] ]}.

(** The state of a free-format session after [n] calls of the loader. *)
Fixpoint free_calls (n : nat) (v : Volume) (vi : volume_input_struct)
    (w : World) : option (Volume * volume_input_struct * World) :=
  match n with
  | O => Some (v, vi, w)
  | S n' =>
      match input_more_free_format_file v vi w with
      | Some ((_, _, v', vi'), w') => free_calls n' v' vi' w'
      | None => None
      end
  end.

(** A free-format source of unsigned bytes with one file per slice: five
    slices of 1 x 1 voxels, of which the file of the third is missing. *)
Definition five_slices_header : list token :=
  [Tint 1; Tint 0; Tint 0; Tint 0;
   Tint 0; Treal Rone; Tword "x";
   Tint 1; Treal Rone; Tword "y";
   Tint 1; Treal Rone; Tword "z";
   Tword "s0.raw"; Tword "s1.raw"; Tword "s2.raw"; Tword "s3.raw";
   Tword "s4.raw"].

Definition five_slices_world : World :=
  world_of false
    {[ "five.fre"%string := Ascii five_slices_header;
       "./s0.raw"%string := Binary [x0a];
       "./s1.raw"%string := Binary [x0b];
       "./s3.raw"%string := Binary [x0d];
       "./s4.raw"%string := Binary [x0e] ]}.

(** Free-format sources of unsigned bytes with one file per slice: one
    slice of 1 x 3 voxels, the axis of size 3 declared with the separation
    [sep]. The file axes are [first], y and [last]. *)
Definition flip_header (first last : string) (sep : Real) : list token :=
  [Tint 1; Tint 0; Tint 0; Tint 0;
   Tint 0; Treal Rone; Tword first;
   Tint 1; Treal Rone; Tword "y";
   Tint 3; Treal sep; Tword last;
   Tword "b0.raw"].

Definition flip_world (first last : string) (sep : Real) : World :=
  world_of false
    {[ "flip.fre"%string := Ascii (flip_header first last sep);
       "./b0.raw"%string := Binary [x01; x02; x03] ]}.

Definition open_flipped (first last : string) (sep : Real)
  : option (Status * Volume * volume_input_struct * World) :=
  initialize_free_format_input "flip.fre" (new_volume NO_DATA_TYPE NC_BYTE)
    new_input (flip_world first last sep).

(** The world [w] but for the stream [fp], which stands at [pos] in
    [bytes]. *)
Definition moved_to (w : World) (fp : Z) (bytes : list byte) (pos : Z) : World :=
  with_streams w (<[fp := ByteStream bytes pos]> (streams w)) (next_FILE w).

(** The [int], the [short] and the [float] whose bytes are found at [pos]
    in [bytes], most significant byte first. *)
Definition be_at (n : nat) (bytes : list byte) (pos : Z) : Z :=
  le_val (rev (take n (drop (Z.to_nat pos) bytes))).

Definition int_at (bytes : list byte) (pos : Z) : Z := to_int (be_at 4 bytes pos).
Definition short_at (bytes : list byte) (pos : Z) : Z := to_short (be_at 2 bytes pos).
Definition float_at (bytes : list byte) (pos : Z) : float :=
  float_of_bits (be_at 4 bytes pos).

(** The layout of the header of an MGH file that starts at [pos]: the
    version at 0, the four sizes at 4, the type at 20, the degrees of
    freedom at 24, the flag at 28, the three spacings at 30 and the twelve
    direction cosines at 42. *)
Definition header_fields (bytes : list byte) (pos : Z) (hdr : mgh_header)
  : Prop :=
  version hdr = int_at bytes pos /\
  hdr_sizes hdr = map (fun k => int_at bytes (pos + 4 + 4 * k)) (seqZ 0 4) /\
  type hdr = int_at bytes (pos + 20) /\
  dof hdr = int_at bytes (pos + 24) /\
  goodRASflag hdr = short_at bytes (pos + 28).

Definition header_geometry (bytes : list byte) (pos : Z) (hdr : mgh_header)
  : Prop :=
  spacing hdr = map (fun k => float_at bytes (pos + 30 + 4 * k)) (seqZ 0 3) /\
  dircos hdr =
    rows 4 3 (map (fun k => float_at bytes (pos + 42 + 4 * k)) (seqZ 0 12)).

(** The geometry taken when the flag of the header is zero: unit spacing
    and a coronal orientation. *)
Definition coronal_spacing : list float := replicate 3 (float_of_int 1).

Definition coronal_dircos : list (list float) :=
  [ [SFopp (float_of_int 1); S754_zero false; S754_zero false];
    [S754_zero false; S754_zero false; SFopp (float_of_int 1)];
    [S754_zero false; float_of_int 1; S754_zero false];
    [S754_zero false; S754_zero false; S754_zero false] ].

(** What a successful read of the header establishes. *)
Definition header_read (fp : Z) (w : World) (hdr : mgh_header) (w' : World)
  : Prop :=
  exists bytes pos,
    streams w !! fp = Some (ByteStream bytes pos) /\
    0 <= pos /\ pos + MGH_HEADER_SIZE <= Z.of_nat (length bytes) /\
    w' = moved_to w fp bytes (pos + MGH_HEADER_SIZE) /\
    version hdr = 1 /\
    header_fields bytes pos hdr /\
    (goodRASflag hdr <> 0 -> header_geometry bytes pos hdr) /\
    (goodRASflag hdr = 0 ->
     spacing hdr = coronal_spacing /\ dircos hdr = coronal_dircos).

(** The world after the named file has been opened. *)
Definition opened (filename : string) (w : World) : World :=
  match open_file filename w with
  | Some (_, w') => w'
  | None => w
  end.

(** An MGH file of 2 x 1 x 1 bytes whose flag is zero; the geometry that
    it carries is that of an axial volume. *)
Definition plain_mgh_world : World :=
  world_of false
    {[ "plain.mgh"%string :=
         Binary (mgh_file [2; 1; 1; 1] MGH_TYPE_UCHAR 0
                          [bits_1; bits_1; bits_1] axial_dircos [x05; x06]) ]}.

(** A read from [fp] leaves the other streams and the disk as they are. *)
Definition others_kept (fp : Z) (w w' : World) : Prop :=
  delete fp (streams w') = delete fp (streams w) /\ disk w' = disk w.

(** The type of the samples for a type code of the header; the codes of
    long, bitmap and tensor files and all others are not supported. *)
Definition mgh_file_type (code : Z) : option Data_types :=
  if decide (code = MGH_TYPE_UCHAR) then Some UNSIGNED_BYTE
  else if decide (code = MGH_TYPE_INT) then Some SIGNED_INT
  else if decide (code = MGH_TYPE_FLOAT) then Some FLOAT
  else if decide (code = MGH_TYPE_SHORT) then Some SIGNED_SHORT
  else None.

(** A computation that opens no stream. *)
Definition opens_none {A} (m : io A) : Prop :=
  forall w a w', m w = Some (a, w') -> next_FILE w' = next_FILE w.

(** The sample of type [t] whose bytes start at [data_ptr], the bytes taken
    most significant first: an unsigned integer of one, two or four bytes,
    or the float that four bytes encode. *)
Definition network_sample (t : Data_types) (to_real : bool)
    (buffer : list byte) (data_ptr : Z) : option spec_float :=
  let of_int (i : Z) := if to_real then Real_of_int i else float_of_int i in
  let of_float (f : float) := if to_real then Real_of_float f else f in
  match t with
  | UNSIGNED_BYTE => Some (of_int (be_at 1 buffer data_ptr))
  | SIGNED_SHORT => Some (of_int (be_at 2 buffer data_ptr))
  | SIGNED_INT => Some (of_int (be_at 4 buffer data_ptr))
  | FLOAT => Some (of_float (float_of_bits (be_at 4 buffer data_ptr)))
  | _ => None
  end.

(** The array [indices] while the sample of row [i] and column [k] is
    stored: [i] at the outer axis, [k] at the inner axis, and elsewhere what
    the array held when the loops began. *)
Definition indices_at (indices0 : list Z) (outer inner : Z) (i k : Z)
    (indices : list Z) : Prop :=
  length indices = length indices0 /\
  load indices outer = Some i /\ load indices inner = Some k /\
  forall j, j <> outer -> j <> inner -> load indices j = load indices0 j.

(** The voxel of the sample of row [i] and column [k] holds [r]. *)
Definition sample_stored (indices0 : list Z) (outer inner : Z) (v : Volume)
    (i k : Z) (r : Real) : Prop :=
  forall indices x y z,
    indices_at indices0 outer inner i k indices ->
    load indices X = Some x -> load indices Y = Some y ->
    load indices Z_ = Some z ->
    stored v !! (x, y, z) = Some r.

(** The samples of the slice buffer of a free-format session. *)
Definition slice_samples (vi : volume_input_struct) : option (list Z) :=
  match file_data_type vi with
  | UNSIGNED_BYTE => bytes_as_ints (byte_slice_buffer vi)
  | UNSIGNED_SHORT => short_slice_buffer vi
  | _ => None
  end.

(** The value that the free-format loader stores for the truncated
    quotient [q]: clamped for a file of bytes. *)
Definition free_stored_value (t : Data_types) (q : Z) : Z :=
  match t with
  | UNSIGNED_BYTE => Z.max 0 (Z.min 255 q)
  | _ => q
  end.

(** The sample at [ptr] of the buffer, quantized, is at the voxel of row [i]
    and column [k]. *)
Definition free_sample_stored (quantize : Z -> option Z) (buffer : list Z)
    (indices0 : list Z) (outer inner : Z) (v : Volume) (i k ptr : Z) : Prop :=
  exists raw value,
    load buffer ptr = Some raw /\ quantize raw = Some value /\
    sample_stored indices0 outer inner v i k (Real_of_int value).

(** The types of samples that the MGH loader converts. *)
Definition mgh_sample_type (t : Data_types) : bool :=
  match t with
  | UNSIGNED_BYTE | SIGNED_SHORT | SIGNED_INT | FLOAT => true
  | _ => false
  end.

(** The sample at [ptr] of the buffer, its bytes taken most significant
    first, lies within the buffer, and its quotient is at the voxel of row
    [i] and column [k]. *)
Definition mgh_sample_stored (t : Data_types) (tr sc : Real)
    (buffer : list byte) (indices0 : list Z) (outer inner : Z) (v : Volume)
    (i k ptr : Z) : Prop :=
  exists s,
    0 <= ptr /\ ptr + get_type_size t <= Z.of_nat (length buffer) /\
    network_sample t true buffer ptr = Some s /\
    sample_stored indices0 outer inner v i k (Rdiv (Rsub s tr) sc).

(** The part of the input state that the header fixes: what reading a slice
    leaves alone. *)
Definition same_header (vi vi' : volume_input_struct) : Prop :=
  file_data_type vi' = file_data_type vi /\
  sizes_in_file vi' = sizes_in_file vi /\
  axis_index_from_file vi' = axis_index_from_file vi /\
  one_file_per_slice vi' = one_file_per_slice vi /\
  directory vi' = directory vi /\
  slice_filenames vi' = slice_filenames vi /\
  slice_byte_offsets vi' = slice_byte_offsets vi.

(** An MGH file of 2 x 1 x 1 voxels whose type code is that of long
    samples, which the loader does not support. *)
Definition long_mgh_world : World :=
  world_of false
    {[ "long.mgh"%string :=
         Binary (mgh_file [2; 1; 1; 1] MGH_TYPE_LONG 1
                          [bits_1; bits_1; bits_1] axial_dircos
                          (replicate 16 x00)) ]}.

(** An MGH file whose header declares slices of 65536 x 65536 bytes: the
    number of voxels of a slice, computed in [int], wraps around to 0. *)
Definition wide_mgh_world : World :=
  world_of false
    {[ "wide.mgh"%string :=
         Binary (mgh_file [65536; 65536; 1; 1] MGH_TYPE_UCHAR 1
                          [bits_1; bits_1; bits_1] axial_dircos [x05]) ]}.

(** An MGH file whose header declares -1 slices. *)
Definition negative_slices_world : World :=
  world_of false
    {[ "neg.mgh"%string :=
         Binary (mgh_file [2; 1; -1; 1] MGH_TYPE_UCHAR 1
                          [bits_1; bits_1; bits_1] axial_dircos [x05; x05]) ]}.

(** The entries that [mgh_header_to_linear_transform] computes: the cosine
    of file axis [j] along world axis [i], scaled by the spacing that the
    code takes at [i], and the origin of world axis [i]. *)
Definition mgh_scaled_cosine (hdr : mgh_header) (i j : Z) : option Real :=
  d ← load2 (dircos hdr) j i;
  s ← load (spacing hdr) i;
  Some (Real_of_float (Fmul d s)).

Definition mgh_origin (hdr : mgh_header) (ignore_offsets : bool) (i : Z)
  : option Real :=
  temp ← foldl (fun temp j =>
                  temp ← temp;
                  d ← load2 (dircos hdr) j i;
                  n ← load (hdr_sizes hdr) j;
                  Some (Radd temp (Rmul (Real_of_float d)
                                        (Rdiv (Real_of_int n) (Real_of_int 2)))))
               (Some Rzero) (for_less 0 MGH_N_SPATIAL);
  if ignore_offsets then Some (Ropp temp)
  else c ← load2 (dircos hdr) (MGH_N_COMPONENTS - 1) i;
       Some (Rsub (Real_of_float c) temp).

(** * Properties *)

(** ** IEEE 754 arithmetic on integers

    The quotient of two [int]s, as [(Real) a / (Real) b] computes it, is
    followed through the rounding of [SpecFloat]: both operands are
    normalised to 53-bit mantissas, the quotient of the mantissas has 53 or
    54 bits and is rounded to nearest even. *)

Lemma digits2_pos_size p : digits2_pos p = Pos.size p.
Proof. induction p; simpl; congruence. Qed.

Lemma digits2_pos_bounds p :
  2 ^ (Zpos (digits2_pos p) - 1) <= Zpos p < 2 ^ Zpos (digits2_pos p).
Proof.
  rewrite digits2_pos_size.
  induction p as [p IH|p IH|].
  - cbn [Pos.size]. rewrite Pos2Z.inj_succ.
    replace (Z.succ (Zpos (Pos.size p)) - 1) with (Z.succ (Zpos (Pos.size p) - 1)) by lia.
    rewrite !Z.pow_succ_r by lia. lia.
  - cbn [Pos.size]. rewrite Pos2Z.inj_succ.
    replace (Z.succ (Zpos (Pos.size p)) - 1) with (Z.succ (Zpos (Pos.size p) - 1)) by lia.
    rewrite !Z.pow_succ_r by lia. lia.
  - cbn. lia.
Qed.

Lemma digits2_pos_unique p d :
  2 ^ (d - 1) <= Zpos p < 2 ^ d -> Zpos (digits2_pos p) = d.
Proof.
  intros [Hl Hu]. pose proof (digits2_pos_bounds p) as [Hl' Hu'].
  assert (0 < d).
  { destruct (Z_lt_le_dec 0 d); [done|].
    assert (2 ^ d <= 2 ^ 0) by (destruct (Z.eq_dec d 0); [subst; lia|rewrite Z.pow_neg_r by lia; lia]). lia. }
  destruct (Z_lt_le_dec (Zpos (digits2_pos p)) d) as [Hlt|Hge].
  - assert (2 ^ Zpos (digits2_pos p) <= 2 ^ (d - 1)) by (apply Z.pow_le_mono_r; lia). lia.
  - destruct (Z.eq_dec (Zpos (digits2_pos p)) d); [done|].
    assert (2 ^ d <= 2 ^ (Zpos (digits2_pos p) - 1)) by (apply Z.pow_le_mono_r; lia). lia.
Qed.

Lemma Pos_iter_xO p n : Zpos (Pos.iter xO p n) = Zpos p * 2 ^ Zpos n.
Proof.
  induction n as [|n IH] using Pos.peano_ind.
  - cbn. lia.
  - rewrite Pos.iter_succ, Pos2Z.inj_succ, Z.pow_succ_r by lia.
    rewrite Pos2Z.inj_xO, IH. lia.
Qed.

Lemma shr_fexp_nop m e l :
  Zdigits2 m = 53 -> -1074 <= e ->
  shr_fexp 53 1024 m e l = (shr_record_of_loc m l, e).
Proof.
  intros Hd He. unfold shr_fexp, fexp, emin. rewrite Hd.
  replace (Z.max (53 + e - 53) (3 - 1024 - 53) - e) with 0 by lia.
  reflexivity.
Qed.

Lemma binary_round_aux_exact s m e :
  Zpos (digits2_pos m) = 53 -> -1074 <= e <= 971 ->
  binary_round_aux 53 1024 s (Zpos m) e loc_Exact = S754_finite s m e.
Proof.
  intros Hd He. unfold binary_round_aux.
  rewrite shr_fexp_nop by (cbn; lia).
  cbn [shr_record_of_loc shr_m loc_of_shr_record round_nearest_even].
  rewrite shr_fexp_nop by (cbn; lia).
  cbn [shr_record_of_loc shr_m].
  destruct (Z.leb_spec e (1024 - 53)); [done | lia].
Qed.

Lemma norm_m_digits p :
  Zpos (digits2_pos p) <= 53 -> Zpos (digits2_pos (norm_m p)) = 53.
Proof.
  intros Hd. apply digits2_pos_unique. unfold norm_m.
  pose proof (digits2_pos_bounds p) as [Hl Hu].
  pose proof (Pos2Z.is_pos (digits2_pos p)) as Hp.
  set (d := Zpos (digits2_pos p)) in *.
  assert (0 < 2 ^ (53 - d)) by (apply Z.pow_pos_nonneg; lia).
  rewrite Z2Pos.id by lia.
  assert (E1 : 2 ^ (53 - 1) = 2 ^ (d - 1) * 2 ^ (53 - d))
    by (rewrite <- Z.pow_add_r by lia; f_equal; lia).
  assert (E2 : 2 ^ 53 = 2 ^ d * 2 ^ (53 - d))
    by (rewrite <- Z.pow_add_r by lia; f_equal; lia).
  rewrite E1, E2. nia.
Qed.

Lemma Real_of_int_pos p :
  Zpos (digits2_pos p) <= 53 ->
  Real_of_int (Zpos p) = S754_finite false (norm_m p) (norm_e p).
Proof.
  intros Hd. unfold Real_of_int, binary_normalize, binary_round.
  unfold fexp, emin. 
  replace (Z.max (Zpos (digits2_pos p) + 0 - 53) (3 - 1024 - 53)) with (norm_e p)
    by (unfold norm_e; lia).
  unfold shl_align. 
  destruct (norm_e p - 0) as [|q|q] eqn:Hq.
  - assert (Hm : norm_m p = p).
    { unfold norm_m, norm_e in *. replace (53 - Zpos (digits2_pos p)) with 0 by lia.
      rewrite Z.pow_0_r, Z.mul_1_r. done. }
    pose proof (norm_m_digits p Hd) as Hn. rewrite Hm in Hn.
    rewrite binary_round_aux_exact by lia. rewrite Hm. f_equal. unfold norm_e in *. lia.
  - unfold norm_e in Hq. lia.
  - assert (Hm : norm_m p = Pos.iter xO p q).
    { unfold norm_m, norm_e in *. apply Pos2Z.inj. rewrite Pos_iter_xO.
      replace (53 - Zpos (digits2_pos p)) with (Zpos q) by lia.
      rewrite Z2Pos.id; [done|]. 
      assert (0 < 2 ^ Zpos q) by (apply Z.pow_pos_nonneg; lia). lia. }
    rewrite <- Hm. apply binary_round_aux_exact.
    + by apply norm_m_digits.
    + unfold norm_e. pose proof (Pos2Z.is_pos (digits2_pos p)). lia.
Qed.

Lemma SFdiv_core_norm m1 e1 m2 e2 :
  Zpos (digits2_pos m1) = 53 -> Zpos (digits2_pos m2) = 53 ->
  -1021 <= e1 - e2 ->
  SFdiv_core_binary 53 1024 (Zpos m1) e1 (Zpos m2) e2 =
    (Zpos m1 * 2 ^ 53 / Zpos m2, e1 - e2 - 53,
     new_location (Zpos m2) (Zpos m1 * 2 ^ 53 mod Zpos m2)).
Proof.
  intros H1 H2 He. unfold SFdiv_core_binary. cbn [Zdigits2]. rewrite H1, H2.
  unfold fexp, emin.
  replace (Z.min (Z.max (53 + e1 - (53 + e2) - 53) (3 - 1024 - 53)) (e1 - e2))
    with (e1 - e2 - 53) by lia.
  replace (e1 - e2 - (e1 - e2 - 53)) with 53 by lia.
  rewrite Z.shiftl_mul_pow2 by lia.
  unfold Z.div, Z.modulo.
  destruct (Z.div_eucl (Zpos m1 * 2 ^ 53) (Zpos m2)) as [q r]. reflexivity.
Qed.

Lemma loc_of_shr_record_of_loc m l :
  loc_of_shr_record (shr_record_of_loc m l) = l.
Proof. by destruct l as [|[]]. Qed.

Lemma finish_round_spec s M' e :
  2 ^ 52 <= M' <= 2 ^ 53 -> -1074 <= e <= 969 ->
  exists M E, finish_round s M' e = S754_finite s M E /\
    Zpos (digits2_pos M) = 53 /\
    ((E = e /\ Zpos M = M') \/ (E = e + 1 /\ M' = 2 ^ 53 /\ Zpos M = 2 ^ 52)).
Proof.
  intros HM He. unfold finish_round.
  destruct (Z.eq_dec M' (2 ^ 53)) as [->|Hne].
  - exists (Z.to_pos (2 ^ 52)), (e + 1).
    unfold shr_fexp, fexp, emin.
    change (Zdigits2 (2 ^ 53)) with 54.
    replace (Z.max (54 + e - 53) (3 - 1024 - 53) - e) with 1 by lia.
    cbn [shr shr_record_of_loc]. 
    change (SpecFloat.iter_pos shr_1 1 {| shr_m := 2 ^ 53; shr_r := false; shr_s := false |})
      with {| shr_m := 2 ^ 52; shr_r := false; shr_s := false |}.
    cbn [shr_m]. change (2 ^ 52) with (Zpos (Z.to_pos (2 ^ 52))) at 1.
    cbv match. destruct (Z.leb_spec (e + 1) (1024 - 53)); [|lia].
    split; [done|]. split; [done|]. right. done.
  - destruct M' as [|m|m]; [lia| |lia].
    assert (Hd : Zpos (digits2_pos m) = 53) by (apply digits2_pos_unique; lia).
    rewrite shr_fexp_nop by (cbn; lia).
    cbn [shr_record_of_loc shr_m].
    destruct (Z.leb_spec e (1024 - 53)); [|lia].
    exists m, e. split; [done|]. split; [done|]. left. done.
Qed.

Lemma binary_round_aux_finish s Q e l :
  binary_round_aux 53 1024 s Q e l =
  let '(mrs, e1) := shr_fexp 53 1024 Q e l in
  finish_round s (round_nearest_even (shr_m mrs) (loc_of_shr_record mrs)) e1.
Proof. reflexivity. Qed.

Lemma round_nearest_even_bounds m l :
  m <= round_nearest_even m l <= m + 1.
Proof. destruct l as [|[]]; cbn; try destruct (Z.even m); lia. Qed.

Lemma binary_round_aux_bounds s Q e l :
  2 ^ 52 <= Q < 2 ^ 54 -> -1074 <= e <= 960 ->
  exists M E, binary_round_aux 53 1024 s Q e l = S754_finite s M E /\
    Zpos (digits2_pos M) = 53 /\ 0 <= E - e <= 2 /\
    Q - 1 <= Zpos M * 2 ^ (E - e) <= Q + 2.
Proof.
  intros HQ He. rewrite binary_round_aux_finish.
  destruct Q as [|q|q]; [lia| |lia].
  destruct (Z_lt_le_dec (Zpos q) (2 ^ 53)) as [Hlt|Hge].
  - assert (Hd : Zpos (digits2_pos q) = 53) by (apply digits2_pos_unique; lia).
    rewrite shr_fexp_nop by (cbn; lia).
    rewrite loc_of_shr_record_of_loc.
    replace (shr_m (shr_record_of_loc (Zpos q) l)) with (Zpos q) by (by destruct l as [|[]]).
    pose proof (round_nearest_even_bounds (Zpos q) l) as Hr.
    destruct (finish_round_spec s (round_nearest_even (Zpos q) l) e) as (M & E & -> & HdM & HE);
      [lia|lia|].
    exists M, E. split; [done|]. split; [done|].
    destruct HE as [[-> HM]|(-> & HM' & HM)].
    + replace (e - e) with 0 by lia. rewrite Z.pow_0_r. lia.
    + replace (e + 1 - e) with 1 by lia. rewrite Z.pow_1_r. lia.
  - assert (Hd : Zpos (digits2_pos q) = 54) by (apply digits2_pos_unique; lia).
    unfold shr_fexp at 1. unfold fexp, emin. cbn [Zdigits2]. rewrite Hd.
    replace (Z.max (54 + e - 53) (3 - 1024 - 53) - e) with 1 by lia.
    cbn [shr SpecFloat.iter_pos].
    set (mrs := shr_1 (shr_record_of_loc (Zpos q) l)).
    assert (Hm : 2 * shr_m mrs <= Zpos q <= 2 * shr_m mrs + 1).
    { subst mrs. destruct l as [|[]], q; cbn; lia. }
    pose proof (round_nearest_even_bounds (shr_m mrs) (loc_of_shr_record mrs)) as Hr.
    destruct (finish_round_spec s (round_nearest_even (shr_m mrs) (loc_of_shr_record mrs)) (e + 1))
      as (M & E & -> & HdM & HE); [lia|lia|].
    exists M, E. split; [done|]. split; [done|].
    destruct HE as [[-> HM]|(-> & HM' & HM)].
    + replace (e + 1 - e) with 1 by lia. rewrite Z.pow_1_r. lia.
    + replace (e + 1 + 1 - e) with 2 by lia. change (2 ^ 2) with 4. lia.
Qed.

Lemma norm_m_val p :
  Zpos (digits2_pos p) <= 53 ->
  Zpos (norm_m p) * 2 ^ Zpos (digits2_pos p) = Zpos p * 2 ^ 53.
Proof.
  intros Hd. unfold norm_m.
  assert (0 < 2 ^ (53 - Zpos (digits2_pos p))) by (apply Z.pow_pos_nonneg; lia).
  rewrite Z2Pos.id by lia. rewrite <- Z.mul_assoc, <- Z.pow_add_r by lia.
  do 2 f_equal. lia.
Qed.

Lemma digits2_pos_small p : Zpos p < 2 ^ 31 -> 1 <= Zpos (digits2_pos p) <= 31.
Proof.
  intros Hp. pose proof (digits2_pos_bounds p) as [Hl _].
  pose proof (Pos2Z.is_pos (digits2_pos p)).
  split; [lia|].
  destruct (Z_lt_le_dec 31 (Zpos (digits2_pos p))) as [Hgt|]; [|lia].
  assert (2 ^ 31 <= 2 ^ (Zpos (digits2_pos p) - 1)) by (apply Z.pow_le_mono_r; lia). lia.
Qed.

Lemma Rdiv_int_pos_spec k n :
  Zpos k < 2 ^ 31 -> Zpos n < 2 ^ 31 ->
  exists M a,
    Rdiv (Real_of_int (Zpos k)) (Real_of_int (Zpos n)) =
      S754_finite false M (Zpos (digits2_pos k) - Zpos (digits2_pos n) - 53 + a) /\
    Zpos (digits2_pos M) = 53 /\ 0 <= a <= 2 /\
    let Q := Zpos (norm_m k) * 2 ^ 53 / Zpos (norm_m n) in
    Q - 1 <= Zpos M * 2 ^ a <= Q + 2.
Proof.
  intros Hk Hn.
  pose proof (digits2_pos_small k Hk) as Hdk. pose proof (digits2_pos_small n Hn) as Hdn.
  rewrite !Real_of_int_pos by lia.
  pose proof (norm_m_digits k ltac:(lia)) as Hmk.
  pose proof (norm_m_digits n ltac:(lia)) as Hmn.
  unfold Rdiv, SFdiv. rewrite SFdiv_core_norm by (unfold norm_e; lia).
  cbn [xorb].
  pose proof (digits2_pos_bounds (norm_m k)) as Bk. rewrite Hmk in Bk.
  pose proof (digits2_pos_bounds (norm_m n)) as Bn. rewrite Hmn in Bn.
  set (mk := Zpos (norm_m k)) in *. set (mn := Zpos (norm_m n)) in *.
  assert (HQ : 2 ^ 52 <= mk * 2 ^ 53 / mn < 2 ^ 54).
  { split.
    - apply Z.div_le_lower_bound; [lia|]. 
      change (2 ^ (53 - 1)) with (2 ^ 52) in *. nia.
    - apply Z.div_lt_upper_bound; [lia|].
      change (2 ^ (53 - 1)) with (2 ^ 52) in *. nia. }
  destruct (binary_round_aux_bounds false (mk * 2 ^ 53 / mn) (norm_e k - norm_e n - 53)
              (new_location mn (mk * 2 ^ 53 mod mn)) HQ) as (M & E & -> & HdM & HE & HM).
  { unfold norm_e. lia. }
  exists M, (E - (norm_e k - norm_e n - 53)).
  split; [f_equal; unfold norm_e; lia|]. split; [done|]. split; [lia|]. exact HM.
Qed.

Lemma Rdiv_int_self n :
  1 <= n < 2 ^ 31 ->
  Rdiv (Real_of_int n) (Real_of_int n) = S754_finite false (Z.to_pos (2 ^ 52)) (-52).
Proof.
  intros Hn. destruct n as [|n|n]; [lia| |lia].
  pose proof (digits2_pos_small n ltac:(lia)) as Hdn.
  rewrite !Real_of_int_pos by lia.
  pose proof (norm_m_digits n ltac:(lia)) as Hmn.
  unfold Rdiv, SFdiv. rewrite SFdiv_core_norm by lia.
  replace (Zpos (norm_m n) * 2 ^ 53 / Zpos (norm_m n)) with (2 ^ 53)
    by (rewrite Z.mul_comm, Z.div_mul by lia; done).
  replace (Zpos (norm_m n) * 2 ^ 53 mod Zpos (norm_m n)) with 0
    by (rewrite Z.mul_comm, Z.mod_mul by lia; done).
  replace (new_location (Zpos (norm_m n)) 0) with loc_Exact
    by (unfold new_location, new_location_even, new_location_odd; by destruct (Z.even _)).
  replace (norm_e n - norm_e n - 53) with (-53) by lia.
  reflexivity.
Qed.

Lemma SFcompare_norm_lt M E M' E' :
  Zpos (digits2_pos M) = 53 -> Zpos (digits2_pos M') = 53 ->
  forall u u', 0 <= u -> 0 <= u' -> E' - E = u' - u ->
  Zpos M * 2 ^ u < Zpos M' * 2 ^ u' ->
  SFcompare (S754_finite false M E) (S754_finite false M' E') = Some Lt.
Proof.
  intros HdM HdM' u u' Hu Hu' HE Hlt. cbn [SFcompare].
  pose proof (digits2_pos_bounds M) as BM. rewrite HdM in BM.
  pose proof (digits2_pos_bounds M') as BM'. rewrite HdM' in BM'.
  change (2 ^ (53 - 1)) with (2 ^ 52) in *.
  destruct (Z.compare_spec E E') as [Heq|HltE|HgtE]; [|done|].
  - assert (u = u') as -> by lia.
    assert (0 < 2 ^ u') by (apply Z.pow_pos_nonneg; lia).
    assert (Zpos M < Zpos M') by nia.
    f_equal. rewrite Pos.compare_cont_spec.
    assert (Hc : (M ?= M')%positive = Lt) by (apply Pos.compare_lt_iff; lia).
    by rewrite Hc.
  - exfalso. assert (Hs : 2 ^ u = 2 ^ u' * 2 ^ (u - u'))
      by (rewrite <- Z.pow_add_r by lia; f_equal; lia).
    rewrite Hs in Hlt.
    assert (0 < 2 ^ u') by (apply Z.pow_pos_nonneg; lia).
    assert (2 ^ 1 <= 2 ^ (u - u')) by (apply Z.pow_le_mono_r; lia).
    change (2 ^ 1) with 2 in *. nia.
Qed.

Lemma Rdiv_int_lt k k' n :
  Zpos k < Zpos k' -> Zpos k' < 2 ^ 31 -> Zpos n < 2 ^ 31 ->
  SFcompare (Rdiv (Real_of_int (Zpos k)) (Real_of_int (Zpos n)))
            (Rdiv (Real_of_int (Zpos k')) (Real_of_int (Zpos n))) = Some Lt.
Proof.
  intros Hkk Hk' Hn.
  destruct (Rdiv_int_pos_spec k n) as (M & a & -> & HdM & Ha & HM); [lia|lia|].
  destruct (Rdiv_int_pos_spec k' n) as (M' & a' & -> & HdM' & Ha' & HM'); [lia|lia|].
  pose proof (digits2_pos_small k ltac:(lia)) as Hdk.
  pose proof (digits2_pos_small k' ltac:(lia)) as Hdk'.
  pose proof (digits2_pos_small n ltac:(lia)) as Hdn.
  pose proof (norm_m_val k ltac:(lia)) as Vk.
  pose proof (norm_m_val k' ltac:(lia)) as Vk'.
  pose proof (norm_m_digits n ltac:(lia)) as Hmn.
  pose proof (digits2_pos_bounds (norm_m n)) as Bn. rewrite Hmn in Bn.
  change (2 ^ (53 - 1)) with (2 ^ 52) in Bn.
  set (dk := Zpos (digits2_pos k)) in *. set (dk' := Zpos (digits2_pos k')) in *.
  set (mk := Zpos (norm_m k)) in *. set (mk' := Zpos (norm_m k')) in *.
  set (mn := Zpos (norm_m n)) in *.
  cbv zeta in HM, HM'.
  pose proof (Z.mul_div_le (mk * 2 ^ 53) mn ltac:(lia)) as Q1.
  pose proof (Z.mul_succ_div_gt (mk' * 2 ^ 53) mn ltac:(lia)) as Q2.
  set (Q := mk * 2 ^ 53 / mn) in *. set (Q' := mk' * 2 ^ 53 / mn) in *.
  apply (SFcompare_norm_lt M _ M' _ HdM HdM' (a + dk) (a' + dk')); [lia|lia|lia|].
  rewrite !Z.pow_add_r by lia.
  assert (Pk : 0 < 2 ^ dk <= 2 ^ 31)
    by (split; [apply Z.pow_pos_nonneg; lia|apply Z.pow_le_mono_r; lia]).
  assert (Pk' : 0 < 2 ^ dk' <= 2 ^ 31)
    by (split; [apply Z.pow_pos_nonneg; lia|apply Z.pow_le_mono_r; lia]).
  set (Pa := 2 ^ a) in *. set (Pa' := 2 ^ a') in *.
  set (Dk := 2 ^ dk) in *. set (Dk' := 2 ^ dk') in *.
  (* scale both sides by the denominator mantissa *)
  apply (Z.mul_lt_mono_pos_r mn); [lia|].
  assert (U : Zpos M * Pa * mn <= mk * 2 ^ 53 + 2 * mn) by nia.
  assert (L : mk' * 2 ^ 53 - 2 * mn < Zpos M' * Pa' * mn) by nia.
  assert (U2 : Zpos M * Pa * mn * Dk <= Zpos k * 2 ^ 53 * 2 ^ 53 + 2 * mn * Dk) by nia.
  assert (L2 : Zpos k' * 2 ^ 53 * 2 ^ 53 - 2 * mn * Dk' < Zpos M' * Pa' * mn * Dk') by nia.
  assert (G : 2 * mn * Dk + 2 * mn * Dk' < 2 ^ 53 * 2 ^ 53).
  { change (2 ^ 53) with 9007199254740992 in *. change (2 ^ 31) with 2147483648 in *. nia. }
  assert (S1 : Zpos k * 2 ^ 53 * 2 ^ 53 + 2 ^ 53 * 2 ^ 53 <= Zpos k' * 2 ^ 53 * 2 ^ 53) by nia.
  nia.
Qed.

Lemma SFcompare_refl_finite s m e :
  SFcompare (S754_finite s m e) (S754_finite s m e) = Some Eq.
Proof.
  cbn [SFcompare]. rewrite Z.compare_refl, Pos.compare_cont_refl.
  by destruct s.
Qed.

Lemma Real_of_int_0 : Real_of_int 0 = S754_zero false.
Proof. reflexivity. Qed.

(** [(Real) k / (Real) n] does not decrease when [k] grows. *)
Lemma Rdiv_int_le k k' n :
  0 <= k <= k' -> k' < 2 ^ 31 -> 0 < n < 2 ^ 31 ->
  SFleb (Rdiv (Real_of_int k) (Real_of_int n))
        (Rdiv (Real_of_int k') (Real_of_int n)) = true.
Proof.
  intros Hk Hk' Hn. unfold SFleb.
  destruct n as [|n|n]; [lia| |lia].
  destruct k' as [|k'|k']; [| |lia].
  - assert (k = 0) as -> by lia.
    rewrite Real_of_int_0.
    destruct (Rdiv_int_pos_spec n n) as (M & a & E & _); [lia|lia|].
    rewrite Real_of_int_pos by (pose proof (digits2_pos_small n); lia).
    reflexivity.
  - destruct k as [|k|k]; [| |lia].
    + rewrite Real_of_int_0.
      destruct (Rdiv_int_pos_spec k' n) as (M & a & -> & _); [lia|lia|].
      rewrite Real_of_int_pos by (pose proof (digits2_pos_small n); lia).
      reflexivity.
    + destruct (Z.eq_dec (Zpos k) (Zpos k')) as [[= ->]|Hne].
      * destruct (Rdiv_int_pos_spec k' n) as (M & a & -> & _); [lia|lia|].
        by rewrite SFcompare_refl_finite.
      * rewrite Rdiv_int_lt by lia. reflexivity.
Qed.

(** ** Division by a zero scale *)

Lemma shl_align_same m e : shl_align m e e = (m, e).
Proof. unfold shl_align. by rewrite Z.sub_diag. Qed.

Lemma Rsub_diag x : is_finite x = true -> Rsub x x = Rzero.
Proof.
  destruct x as [s|s| |s m e]; try done.
  - by destruct s.
  - intros _. unfold Rsub, SFsub. rewrite Z.min_id, shl_align_same.
    cbn [fst]. by rewrite Z.sub_diag.
Qed.

Lemma Rdiv_zero_r x s : is_finite (Rdiv x (S754_zero s)) = false.
Proof. by destruct x as [?|?| |? ? ?]. Qed.

(** ** Strict comparison *)

Lemma Pos_compare_cont_Eq_antisym m1 m2 :
  Pos.compare_cont Eq m2 m1 = CompOpp (Pos.compare_cont Eq m1 m2).
Proof. apply Pos.compare_antisym. Qed.

Lemma SFcompare_antisym x y c :
  SFcompare x y = Some c -> SFcompare y x = Some (CompOpp c).
Proof.
  destruct x as [sx|sx| |sx mx ex], y as [sy|sy| |sy my ey]; cbn [SFcompare];
    try discriminate; intros [= <-]; try (by destruct sx); try (by destruct sy);
    try (by destruct sx, sy).
  destruct sx, sy; try done;
    rewrite (Z.compare_antisym ex ey), (Pos_compare_cont_Eq_antisym mx my);
    destruct (ex ?= ey); cbn; try done;
    by destruct (Pos.compare_cont Eq mx my).
Qed.

Lemma Rgt_asym x y : Rgt x y = true -> Rgt y x = false.
Proof.
  unfold Rgt, SFltb. destruct (SFcompare y x) as [[]|] eqn:E; try done.
  intros _. by rewrite (SFcompare_antisym _ _ _ E).
Qed.

Lemma SFltb_trans x y z :
  SFltb x y = true -> SFltb y z = true -> SFltb x z = true.
Proof.
  unfold SFltb, SFcompare.
  destruct x as [[]|[]| |[] mx ex], y as [[]|[]| |[] my ey],
           z as [[]|[]| |[] mz ez]; try done.
  all: change (Pos.compare_cont Eq) with Pos.compare.
  all: destruct (Z.compare_spec ex ey), (Z.compare_spec ey ez),
         (Z.compare_spec ex ez); try done; try lia.
  all: destruct (Pos.compare_spec mx my), (Pos.compare_spec my mz),
         (Pos.compare_spec mx mz); try done; try lia.
Qed.

(** ** Inversion of [io] computations *)

Lemma bind_Some {A B} (m : io A) (k : A -> io B) w r :
  bind m k w = Some r -> exists a w1, m w = Some (a, w1) /\ k a w1 = Some r.
Proof.
  unfold bind. destruct (m w) as [[a w1]|]; [|done]. intros H. by exists a, w1.
Qed.

Lemma ret_Some {A} (a : A) w r : ret a w = Some r -> r = (a, w).
Proof. unfold ret. congruence. Qed.

Lemma lift_Some {A} (o : option A) w r :
  lift o w = Some r -> exists a, o = Some a /\ r = (a, w).
Proof. unfold lift. destruct o as [a|]; [|done]. intros [= <-]. by exists a. Qed.

Lemma get_world_Some w r : get_world w = Some r -> r = (w, w).
Proof. unfold get_world. congruence. Qed.

(** One step of inversion of a hypothesis [m w = Some r]. *)
Ltac io_step H :=
  lazymatch type of H with
  | bind get_world _ _ = Some _ =>
      let w := fresh "w" in let E := fresh "E" in
      apply bind_Some in H as (? & w & E & H);
      apply get_world_Some in E; injection E as -> ->
  | bind (lift _) _ _ = Some _ =>
      let a := fresh "a" in let E := fresh "E" in
      apply bind_Some in H as (a & ? & E & H);
      apply lift_Some in E as (? & E & [= -> ->])
  | bind _ _ _ = Some _ =>
      let a := fresh "a" in let w := fresh "w" in let E := fresh "E" in
      apply bind_Some in H as (a & w & E & H)
  | ret _ _ = Some _ => apply ret_Some in H
  | lift _ _ = Some _ =>
      let E := fresh "E" in apply lift_Some in H as (? & E & H)
  | undefined _ = Some _ => discriminate H
  end.

(** ** The axes of the volume after a free-format open *)

Lemma set_identity_axes_spec v v' :
  set_identity_axes v = Some v' -> identity_axes v'.
Proof.
  destruct v as [t nc sg ax dc sep tv tw st sz nd lo hi rlo rhi dat].
  unfold set_identity_axes.
  change (for_less 0 N_DIMENSIONS) with [0; 1; 2].
  cbn [foldl mbind option_bind].
  destruct ax as [|a0 [|a1 [|a2 ax]]];
    destruct dc as [|[|x0 [|y0 [|z0 r0]]] [|[|x1 [|y1 [|z1 r1]]] [|[|x2 [|y2 [|z2 r2]]] dc]]];
    try (intros H; vm_compute in H; discriminate H).
  intros H. vm_compute in H. injection H as <-.
  unfold identity_axes.
  repeat split.
  intros c j Hc Hj.
  assert (c = 0 \/ c = 1 \/ c = 2) as [->|[->| ->]] by lia;
  assert (j = 0 \/ j = 1 \/ j = 2) as [->|[->| ->]] by lia; reflexivity.
Qed.

Lemma record_volume_info_axes w status v vi fs tr d v' :
  record_volume_info w status v vi fs tr d = Some v' ->
  spatial_axes v' = spatial_axes v /\
  direction_cosines v' = direction_cosines v.
Proof.
  unfold record_volume_info. intros H.
  destruct (decide (status = OK)); simplify_option_eq; [|done].
  repeat case_match; simplify_eq. done.
Qed.


(** Inversion as far as the next choice of the computation. *)
Ltac io_inv H :=
  repeat first
    [ match type of H with
      | context [match ?a with pair _ _ => _ end] => is_var a; destruct a
      end
    | io_step H ].

Lemma find_voxel_range_axes file name offset n status v vi w status' v' vi' w' :
  find_voxel_range file name offset n status v vi w = Some ((status', v', vi'), w') ->
  spatial_axes v' = spatial_axes v /\
  direction_cosines v' = direction_cosines v.
Proof.
  unfold find_voxel_range. intros H.
  case_bool_decide; io_inv H; by simplify_eq.
Qed.

(** C10. After every free-format open that returns, successful or not, the
    spatial axes of the volume are X, Y, Z in this order and its direction
    cosines are the rows of the identity, whatever the axis letters of the
    header and whatever the volume held before. *)
Theorem C10_free_open_forces_identity_axes
    filename volume volume_input w status volume' volume_input' w' :
  initialize_free_format_input filename volume volume_input w =
    Some ((status, volume', volume_input'), w') ->
  identity_axes volume'.
Proof.
  unfold initialize_free_format_input. intros H.
  io_inv H. simplify_eq.
  repeat match goal with
  | H : set_identity_axes _ = Some _ |- _ => apply set_identity_axes_spec in H
  | H : record_volume_info _ _ _ _ _ _ _ = Some _ |- _ =>
      apply record_volume_info_axes in H as [? ?]
  | H : find_voxel_range _ _ _ _ _ _ _ _ = Some _ |- _ =>
      apply find_voxel_range_axes in H as [? ?]
  end.
  unfold identity_axes in *. by repeat match goal with H : _ = _ |- _ => rewrite H end.
Qed.

Lemma C10_free_open_forces_identity_axes_witness :
  exists volume' volume_input' w',
    initialize_free_format_input "scan.fre" turned_volume new_input zyx_world =
      Some ((OK, volume', volume_input'), w') /\
    identity_axes volume'.
Proof.
  eexists _, _, _. split; [vm_compute; reflexivity|].
  eapply (C10_free_open_forces_identity_axes
            "scan.fre" turned_volume new_input zyx_world OK).
  vm_compute; reflexivity.
Defined.

(** ** Progress of the loaders *)

(** ** Loops over optional states *)

Lemma foldl_bind_None {S} (g : Z -> S -> option S) l :
  foldl (fun st i => st ≫= g i) None l = None.
Proof. induction l as [|i l IH]; [done|]. exact IH. Qed.

Lemma foldl_bind_inv {S} (P : S -> Prop) (g : Z -> S -> option S) l s s' :
  (forall i s s', P s -> g i s = Some s' -> P s') ->
  P s -> foldl (fun st i => st ≫= g i) (Some s) l = Some s' -> P s'.
Proof.
  intros Hg. revert s. induction l as [|i l IH]; intros s Hs H.
  - by injection H as <-.
  - cbn in H. destruct (g i s) as [s1|] eqn:E.
    + eapply IH; [|exact H]. by eapply Hg.
    + by rewrite foldl_bind_None in H.
Qed.

Lemma foreach_inv {S} (P : S -> Prop) (body : Z -> S -> io S) l s w s' w' :
  (forall i s w s' w', P s -> body i s w = Some (s', w') -> P s') ->
  P s -> foreach l body s w = Some (s', w') -> P s'.
Proof.
  intros Hb. revert s w. induction l as [|i l IH]; intros s w Hs H.
  - apply ret_Some in H. by injection H as <- <-.
  - cbn in H. io_step H. eapply IH; [|exact H]. by eapply Hb.
Qed.

(** ** The cursor of a free-format session *)

Lemma input_slice_frame vi w status vi' w' :
  input_slice vi w = Some ((status, vi'), w') ->
  sizes_in_file vi' = sizes_in_file vi /\
  axis_index_from_file vi' = axis_index_from_file vi /\
  file_data_type vi' = file_data_type vi /\
  exists size0, load (sizes_in_file vi) 0 = Some size0 /\
    slice_index vi' =
      if bool_decide (slice_index vi < size0) then slice_index vi + 1
      else slice_index vi.
Proof.
  unfold input_slice. intros H. io_step H.
  case_bool_decide as Hlt.
  - io_step H. destruct a as [status1 file].
    io_step H. destruct a as [status2 vi2].
    io_inv H. simplify_eq.
    assert (Hf : sizes_in_file vi2 = sizes_in_file vi /\
                 axis_index_from_file vi2 = axis_index_from_file vi /\
                 file_data_type vi2 = file_data_type vi /\
                 slice_index vi2 = slice_index vi).
    { destruct (decide (status1 = OK)).
      - io_inv E1. destruct (file_data_type vi) eqn:Et; io_inv E1; simplify_eq; by cbn.
      - io_inv E1. by simplify_eq. }
    destruct Hf as (Hs & Ha & Ht & Hi). cbn.
    repeat split; try done. eexists. split; [done|].
    rewrite bool_decide_true by done. by rewrite Hi.
  - io_step H. simplify_eq. repeat split; try done.
    eexists. split; [done|]. by rewrite bool_decide_false.
Qed.

Lemma set_voxel_sizes v x y z r v' :
  set_voxel v x y z r = Some v' -> sizes v' = sizes v.
Proof.
  unfold set_voxel. destruct (data v); [|done].
  destruct (in_volume v x y z); [|done]. by intros [= <-].
Qed.

Lemma store_sample_sizes q buffer inner k st st' :
  store_sample q buffer inner k st = Some st' -> sizes st'.2 = sizes st.2.
Proof.
  destruct st as [[indices ptr] v]. unfold store_sample. intros H.
  simplify_option_eq. eauto using set_voxel_sizes.
Qed.

Lemma store_row_sizes q buffer outer inner size2 i st st' :
  store_row q buffer outer inner size2 i st = Some st' ->
  sizes st'.2 = sizes st.2.
Proof.
  destruct st as [[indices ptr] v]. unfold store_row. intros H.
  simplify_option_eq.
  match goal with
  | H : foldl _ (Some ?s) _ = Some _ |- _ =>
      change (sizes v) with (sizes s.2);
      revert H; apply (foldl_bind_inv (fun st => sizes st.2 = sizes s.2))
  end; [|done].
  intros k s s' Hs Hk. rewrite <- Hs. by eapply store_sample_sizes.
Qed.

Lemma store_slice_sizes q buffer outer inner size1 size2 indices v v' :
  store_slice q buffer outer inner size1 size2 indices v = Some v' ->
  sizes v' = sizes v.
Proof.
  unfold store_slice. intros H. simplify_option_eq.
  match goal with
  | H : foldl _ (Some ?s) _ = Some ?s' |- _ =>
      change (sizes s'.2 = sizes s.2);
      revert H; apply (foldl_bind_inv (fun st => sizes st.2 = sizes s.2))
  end; [|done].
  intros k s s' Hs Hk. rewrite <- Hs. by eapply store_row_sizes.
Qed.

Lemma input_more_slice_frame v vi w v' vi' lo hi w' :
  input_more_slice v vi w = Some ((v', vi', lo, hi), w') ->
  sizes v' = sizes v /\
  sizes_in_file vi' = sizes_in_file vi /\
  axis_index_from_file vi' = axis_index_from_file vi /\
  exists size0, load (sizes_in_file vi) 0 = Some size0 /\
    slice_index vi' =
      if bool_decide (slice_index vi < size0) then slice_index vi + 1
      else slice_index vi.
Proof.
  unfold input_more_slice. intros H. io_step H. io_step H.
  case_bool_decide as Hlt.
  - io_step H. destruct a as [status vi1].
    match goal with
    | H1 : input_slice _ _ = Some _ |- _ =>
        apply input_slice_frame in H1 as (Hs & Ha & Ht & size0 & Hsz & Hi)
    end.
    match goal with
    | H1 : load (sizes_in_file vi) 0 = Some ?x |- _ =>
        assert (x = size0) as -> by congruence
    end.
    rewrite bool_decide_true in Hi by done.
    set (v1 := if volume_is_alloced v then v else alloc_volume_data v) in *.
    assert (Hv1 : sizes v1 = sizes v)
      by (subst v1; by destruct (volume_is_alloced v)).
    clearbody v1.
    assert (Hv' : sizes v' = sizes v1 /\ vi' = vi1).
    { destruct (bool_decide (data_type v1 <> file_data_type vi1));
        cbv beta iota zeta in H; io_inv H; simplify_eq; (split; [|done]).
      all: match goal with
           | H1 : (if decide (?st = OK) then _ else _) _ = Some _ |- _ =>
               rename H1 into Hst; destruct (decide (st = OK));
               [|io_inv Hst; by simplify_eq]
           end.
      all: io_inv Hst; destruct (file_data_type vi1); io_inv Hst; simplify_eq;
             try done.
      all: by eapply store_slice_sizes. }
    destruct Hv' as [Hv' ->]. rewrite Hv', Hv1. repeat split; try done.
    eexists. split; [done|]. by rewrite bool_decide_true.
  - io_step H. simplify_eq. repeat split; try done.
    eexists. split; [done|]. by rewrite bool_decide_false.
Qed.

Lemma input_more_free_step total v vi w more f v' vi' w' :
  free_session total v vi ->
  input_more_free_format_file v vi w = Some ((more, f, v', vi'), w') ->
  free_session total v' vi' /\
  slice_index vi <= slice_index vi' /\
  f = Rdiv (Real_of_int (slice_index vi')) (Real_of_int total) /\
  (more = false -> slice_index vi' = total).
Proof.
  intros (Hn & (a0 & Ha0 & Hv) & Hk). unfold input_more_free_format_file.
  intros H. io_step H. io_step H. destruct a as [[[v1 vi1] lo] hi].
  match goal with
  | H1 : input_more_slice _ _ _ = Some _ |- _ =>
      apply input_more_slice_frame in H1 as (Hs & Hsf & Haf & size0 & Hsz & Hi)
  end.
  assert (size0 = total) as -> by congruence.
  do 2 io_step H.
  match goal with
  | H1 : load (axis_index_from_file vi1) 0 = Some ?x |- _ =>
      assert (x = a0) as -> by congruence
  end.
  match goal with
  | H1 : load (sizes v1) a0 = Some ?x |- _ =>
      assert (x = total) as -> by congruence
  end.
  assert (Hk' : slice_index vi <= slice_index vi1 <= total)
    by (case_bool_decide; lia).
  assert (Hsess : forall v2, sizes v2 = sizes v1 -> free_session total v2 vi1).
  { intros v2 Hv2. split; [congruence|]. split; [|lia].
    exists a0. split; congruence. }
  destruct (decide (slice_index vi1 = total)) as [Hend|Hmore].
  - io_inv H. simplify_eq. split; [|repeat split; [lia|done..]].
    apply Hsess. by destruct (decide (_ <> _)).
  - io_inv H. simplify_eq. split; [by apply Hsess|].
    repeat split; [lia|done..].
Qed.

Lemma Rone_eq : Rone = S754_finite false (Z.to_pos (2 ^ 52)) (-52).
Proof. reflexivity. Qed.

Lemma free_reports_progress n : forall total v vi w,
  1 <= total < 2 ^ 31 -> free_session total v vi ->
  steady_progress (free_reports n v vi w) /\
  Forall (fun r => exists j, slice_index vi <= j <= total /\
                     r.2 = Some (Rdiv (Real_of_int j) (Real_of_int total)))
         (free_reports n v vi w).
Proof.
  induction n as [|n IH]; intros total v vi w Ht Hs.
  - repeat split; constructor.
  - cbn [free_reports].
    destruct (input_more_free_format_file v vi w)
      as [[[[[more f] v'] vi'] w']|] eqn:E; [|repeat split; constructor].
    destruct (input_more_free_step _ _ _ _ _ _ _ _ _ Hs E) as (Hs' & Hk & -> & Hend).
    destruct (IH total v' vi' w' Ht Hs') as ((Hsorted & Hfinal) & Hlow).
    pose proof Hs as (_ & _ & Hk0). pose proof Hs' as (_ & _ & Hk1).
    repeat split.
    + cbn [fmap list_fmap]. constructor; [done|].
      destruct (free_reports n v' vi' w') as [|r l]; constructor.
      inversion Hlow as [|? ? (j & Hj & Hr)]; subst. cbn [snd]. rewrite Hr.
      apply Rdiv_int_le; lia.
    + constructor; [|done]. cbn [fst snd]. split; [done|]. intros ->.
      rewrite Hend by done. rewrite Rone_eq. f_equal. apply Rdiv_int_self. lia.
    + constructor.
      * exists (slice_index vi'). split; [lia|done].
      * eapply Forall_impl; [exact Hlow|]. cbn [fst snd]. intros r (j & Hj & Hr).
        exists j. split; [lia|done].
Qed.

(** ** The cursor of an MGH session *)

Lemma input_next_slice_frame in_ptr w status in_ptr' w' :
  input_next_slice in_ptr w = Some ((status, in_ptr'), w') ->
  sizes_in_file in_ptr' = sizes_in_file in_ptr /\
  axis_index_from_file in_ptr' = axis_index_from_file in_ptr /\
  file_data_type in_ptr' = file_data_type in_ptr /\
  exists size2, load (sizes_in_file in_ptr) 2 = Some size2 /\
    (slice_index in_ptr' = slice_index in_ptr \/
     (slice_index in_ptr < size2 /\ slice_index in_ptr' = slice_index in_ptr + 1)).
Proof.
  unfold input_next_slice. intros H. io_step H.
  case_bool_decide as Hge.
  - io_step H. simplify_eq. repeat split; try done. eauto.
  - io_inv H. case_bool_decide; [|by io_step H]. io_inv H.
    case_bool_decide; io_step H; simplify_eq; repeat split; try done;
      eexists; (split; [done|]); cbn; [by left|right; lia].
Qed.

Lemma mgh_store_sample_frame big t tr sc buffer inner k st st' :
  mgh_store_sample big t tr sc buffer inner k st = Some st' ->
  sizes_in_file st'.1.2 = sizes_in_file st.1.2 /\
  slice_index st'.1.2 = slice_index st.1.2.
Proof.
  destruct st as [[[[indices ptr] value] in_ptr] v]. unfold mgh_store_sample.
  intros H. destruct (mgh_sample _ _ _ _ _ _) as [[s z]|]; [|done].
  cbn [mbind option_bind] in H.
  set (val := Rdiv (Rsub s tr) sc) in *.
  set (p1 := if Rgt val (max_value in_ptr) then _ else _) in *.
  set (p2 := if Rlt val (min_value p1) then _ else _) in *.
  assert (Hp : sizes_in_file p2 = sizes_in_file in_ptr /\
               slice_index p2 = slice_index in_ptr).
  { subst p2 p1. destruct (Rgt _ _); [destruct (Rlt _ _)|destruct (Rlt _ _)]; done. }
  clearbody p2. simplify_option_eq. done.
Qed.

Lemma mgh_store_row_frame big t tr sc buffer outer inner size0 i st st' :
  mgh_store_row big t tr sc buffer outer inner size0 i st = Some st' ->
  sizes_in_file st'.1.2 = sizes_in_file st.1.2 /\
  slice_index st'.1.2 = slice_index st.1.2.
Proof.
  destruct st as [[[[indices ptr] value] in_ptr] v]. unfold mgh_store_row.
  intros H. simplify_option_eq.
  match goal with
  | H : foldl _ (Some ?s) _ = Some ?s' |- _ =>
      revert H;
      apply (foldl_bind_inv
               (fun st => sizes_in_file st.1.2 = sizes_in_file in_ptr /\
                          slice_index st.1.2 = slice_index in_ptr))
  end; [|done].
  intros k s s' [Hs Hi] Hk. rewrite <- Hs, <- Hi. by eapply mgh_store_sample_frame.
Qed.

Lemma input_more_mgh_slice_frame v in_ptr w v' in_ptr' lo hi w' :
  input_more_mgh_slice true v in_ptr w = Some (Some (v', in_ptr', lo, hi), w') ->
  sizes_in_file in_ptr' = sizes_in_file in_ptr /\
  exists size2, load (sizes_in_file in_ptr) 2 = Some size2 /\
    (slice_index in_ptr' = slice_index in_ptr \/
     (slice_index in_ptr < size2 /\ slice_index in_ptr' = slice_index in_ptr + 1)).
Proof.
  unfold input_more_mgh_slice. intros H. io_step H. io_step H.
  case_bool_decide as Hlt.
  - set (v1 := if volume_is_alloced v then v else alloc_volume_data v) in *.
    destruct (negb (volume_is_alloced v1)); [by io_step H|].
    io_step H. destruct a as [status p1].
    match goal with
    | H1 : input_next_slice _ _ = Some _ |- _ =>
        apply input_next_slice_frame in H1 as (Hs & Ha & Ht & size2 & Hsz & Hi)
    end.
    assert (Hp : sizes_in_file in_ptr' = sizes_in_file p1 /\
                 slice_index in_ptr' = slice_index p1).
    { destruct (decide (data_type v1 <> file_data_type p1));
        cbv beta iota zeta in H; io_inv H; simplify_eq.
      all: match goal with
           | H1 : (if decide (?st = OK) then _ else _) _ = Some _ |- _ =>
               rename H1 into Hst; destruct (decide (st = OK));
               [|io_inv Hst; by simplify_eq]
           end.
      all: io_inv Hst; simplify_eq.
      all: match goal with
           | H : foldl _ (Some ?s) _ = Some ?s' |- _ =>
               revert H;
               apply (foldl_bind_inv
                        (fun st => sizes_in_file st.1.2 = sizes_in_file p1 /\
                                   slice_index st.1.2 = slice_index p1))
           end; [|done].
      all: intros k s s' [Hs1 Hi1] Hk; rewrite <- Hs1, <- Hi1;
             by eapply mgh_store_row_frame. }
    destruct Hp as [Hp1 Hp2]. rewrite Hp1, Hp2. split; [done|]. eauto.
  - io_step H. simplify_eq. split; [done|]. eauto.
Qed.

Lemma input_more_mgh_slice_alloc v in_ptr w w' :
  input_more_mgh_slice true v in_ptr w <> Some (None, w').
Proof.
  unfold input_more_mgh_slice. intros H. io_step H. io_step H.
  case_bool_decide.
  - destruct (volume_is_alloced v) eqn:Ha.
    + rewrite Ha in H. cbn [negb] in H. io_inv H.
      repeat case_match; io_inv H; simplify_eq.
    + cbn [negb volume_is_alloced alloc_volume_data with_data data] in H.
      io_inv H. repeat case_match; io_inv H; simplify_eq.
  - io_step H. simplify_eq.
Qed.

Lemma input_more_mgh_step total v p w more f v' p' w' :
  mgh_session total p ->
  input_more_mgh_format_file true v p w = Some ((more, f, v', p'), w') ->
  mgh_session total p' /\
  slice_index p <= slice_index p' /\
  f = Some (Rdiv (Real_of_int (slice_index p')) (Real_of_int total)) /\
  (more = false -> slice_index p' = total).
Proof.
  intros (Hn & Hk). unfold input_more_mgh_format_file.
  intros H. io_step H. destruct a as [[[[v1 p1] lo] hi]|];
    [|by eapply input_more_mgh_slice_alloc in E].
  apply input_more_mgh_slice_frame in E as (Hs & size2 & Hsz & Hi).
  assert (size2 = total) as -> by congruence.
  io_step H.
  match goal with
  | H1 : load (sizes_in_file p1) 2 = Some ?x |- _ =>
      assert (x = total) as -> by congruence
  end.
  assert (Hsess : mgh_session total p1) by (split; [congruence|lia]).
  destruct (decide (slice_index p1 = total)); io_step H; simplify_eq;
    repeat split; try done; lia.
Qed.

Lemma mgh_reports_progress n : forall total v p w,
  1 <= total < 2 ^ 31 -> mgh_session total p ->
  steady_progress (mgh_reports n true v p w) /\
  Forall (fun r => exists j, slice_index p <= j <= total /\
                     r.2 = Some (Rdiv (Real_of_int j) (Real_of_int total)))
         (mgh_reports n true v p w).
Proof.
  induction n as [|n IH]; intros total v p w Ht Hs.
  - repeat split; constructor.
  - cbn [mgh_reports].
    destruct (input_more_mgh_format_file true v p w)
      as [[[[[more f] v'] p'] w']|] eqn:E; [|repeat split; constructor].
    destruct (input_more_mgh_step _ _ _ _ _ _ _ _ _ Hs E) as (Hs' & Hk & -> & Hend).
    destruct (IH total v' p' w' Ht Hs') as ((Hsorted & Hfinal) & Hlow).
    pose proof Hs as (_ & Hk0). pose proof Hs' as (_ & Hk1).
    repeat split.
    + cbn [fmap list_fmap]. constructor; [done|].
      destruct (mgh_reports n true v' p' w') as [|r l]; constructor.
      inversion Hlow as [|? ? (j & Hj & Hr)]; subst. cbn [snd]. rewrite Hr.
      apply Rdiv_int_le; lia.
    + constructor; [|done]. cbn [fst snd]. split; [done|]. intros ->.
      rewrite Hend by done. rewrite Rone_eq. f_equal. apply Rdiv_int_self. lia.
    + constructor.
      * exists (slice_index p'). split; [lia|done].
      * eapply Forall_impl; [exact Hlow|]. cbn [fst snd]. intros r (j & Hj & Hr).
        exists j. split; [lia|done].
Qed.

(** A volume whose storage is allocated keeps it. *)
Lemma set_voxel_alloced v x y z r v' :
  set_voxel v x y z r = Some v' -> volume_is_alloced v' = true.
Proof.
  unfold set_voxel. destruct (data v); [|done].
  destruct (in_volume v x y z); [|done]. by intros [= <-].
Qed.

Lemma mgh_store_row_alloced big t tr sc buffer outer inner size0 i st st' :
  mgh_store_row big t tr sc buffer outer inner size0 i st = Some st' ->
  volume_is_alloced st.2 = true -> volume_is_alloced st'.2 = true.
Proof.
  destruct st as [[[[indices ptr] value] in_ptr] v]. unfold mgh_store_row.
  intros H. simplify_option_eq. intros Hv.
  match goal with
  | H : foldl _ (Some ?s0) _ = Some ?s' |- _ =>
      revert H; apply (foldl_bind_inv (fun st => volume_is_alloced st.2 = true))
  end; [|done].
  intros k [[[[ind1 ptr1] val1] p1] v1] s2 Hs Hk. unfold mgh_store_sample in Hk.
  destruct (mgh_sample _ _ _ _ _ _) as [[x z]|]; [|done].
  cbn [mbind option_bind] in Hk. simplify_option_eq.
  eauto using set_voxel_alloced.
Qed.

Lemma input_more_mgh_slice_alloced c v in_ptr w v' in_ptr' lo hi w' :
  volume_is_alloced v = true ->
  input_more_mgh_slice c v in_ptr w = Some (Some (v', in_ptr', lo, hi), w') ->
  volume_is_alloced v' = true.
Proof.
  intros Hv. unfold input_more_mgh_slice. intros H.
  io_step H. io_step H.
  case_bool_decide as Hlt; [|io_step H; by simplify_eq].
  rewrite Hv in H. cbv iota in H. rewrite Hv in H.
  change (negb true) with false in H. cbv iota in H.
  io_step H. destruct a as [status p1].
  destruct (decide (data_type v <> file_data_type p1));
    cbv beta iota zeta in H; io_inv H; simplify_eq.
  all: match goal with
       | H1 : (if decide (?st = OK) then _ else _) _ = Some _ |- _ =>
           rename H1 into Hs; destruct (decide (st = OK));
           [|io_inv Hs; by simplify_eq]
       end.
  all: io_inv Hs; simplify_eq.
  all: match goal with
       | H : foldl _ (Some ?s0) _ = Some ?s' |- _ =>
           change (volume_is_alloced s'.2 = true); revert H;
           apply (foldl_bind_inv
               (fun st : list Z * Z * Real * volume_input_struct * Volume =>
                  volume_is_alloced st.2 = true));
           [|done]
       end.
  all: intros k s1 s2 Hs1 Hk; by eapply mgh_store_row_alloced.
Qed.

Lemma input_more_mgh_alloced c v p w more f v' p' w' :
  volume_is_alloced v = true ->
  input_more_mgh_format_file c v p w = Some ((more, f, v', p'), w') ->
  volume_is_alloced v' = true.
Proof.
  intros Hv. unfold input_more_mgh_format_file. intros H. io_step H.
  destruct a as [[[[v1 p1] lo] hi]|]; [|io_step H; by simplify_eq].
  apply (input_more_mgh_slice_alloced _ _ _ _ _ _ _ _ _ Hv) in E.
  io_step H.
  destruct (decide (slice_index p1 = _)); io_step H; simplify_eq; [|done].
  by destruct (decide _).
Qed.

(** The loader asks for storage only when the volume has none. *)
Lemma input_more_mgh_any_alloc c v p w :
  volume_is_alloced v = true ->
  input_more_mgh_format_file c v p w = input_more_mgh_format_file true v p w.
Proof.
  intros Hv. unfold input_more_mgh_format_file, input_more_mgh_slice.
  by rewrite Hv.
Qed.

Lemma mgh_reports_any_alloc n : forall c v p w,
  volume_is_alloced v = true ->
  mgh_reports n c v p w = mgh_reports n true v p w.
Proof.
  induction n as [|n IH]; intros c v p w Hv; [done|]. cbn [mgh_reports].
  rewrite (input_more_mgh_any_alloc c) by done.
  destruct (input_more_mgh_format_file true v p w)
    as [[[[[more f] v'] p'] w']|] eqn:E; [|done].
  f_equal. apply IH. by eapply input_more_mgh_alloced.
Qed.

(** Lines 632-639: when the volume has no storage and none can be
    allocated, the loader returns [FALSE] and assigns nothing. *)
Lemma mgh_reports_no_storage n : forall total v p w,
  mgh_session total p -> slice_index p < total ->
  volume_is_alloced v = false ->
  mgh_reports n false v p w = replicate n (false, None).
Proof.
  induction n as [|n IH]; intros total v p w Hs Hlt Hv; [done|].
  cbn [mgh_reports replicate].
  assert (E : input_more_mgh_format_file false v p w =
              Some ((false, None, v, p), w)).
  { destruct Hs as [Hn _].
    unfold input_more_mgh_format_file, input_more_mgh_slice, bind, get_world,
      lift, ret.
    rewrite Hn. rewrite bool_decide_true by done.
    rewrite Hv. cbv iota. by rewrite Hv. }
  rewrite E. f_equal. by eapply IH.
Qed.

(** C7, amended. In both drivers, over any number of successive calls on a
    session of at least one slice whose volume has its storage or can
    obtain it, [fraction_done] never decreases from one call to the next,
    and a call that returns no more to do reports exactly 1.0. When the
    volume of an MGH session with slices left has no storage and none can
    be allocated, every call returns no more to do and leaves
    [fraction_done] unassigned. *)
Theorem C7_fraction_done_progress (d : driver) (can_alloc : bool) (n : nat)
    (total : Z) (v : Volume) (vi : volume_input_struct) (w : World) :
  1 <= total < 2 ^ 31 -> session d total v vi ->
  (storage_available d can_alloc v ->
   steady_progress (reports d can_alloc n v vi w)) /\
  (d = mgh_format -> can_alloc = false -> volume_is_alloced v = false ->
   slice_index vi < total ->
   reports d can_alloc n v vi w = replicate n (false, None)).
Proof.
  intros Ht Hs. split.
  - destruct d; intros Ha.
    + by apply (free_reports_progress n total v vi w).
    + cbn [reports]. destruct Ha as [->|Ha].
      * by apply (mgh_reports_progress n total v vi w).
      * rewrite mgh_reports_any_alloc by done.
        by apply (mgh_reports_progress n total v vi w).
  - intros -> -> Hv Hlt. by apply (mgh_reports_no_storage n total).
Qed.

Lemma C7_fraction_done_progress_witness :
  exists v vi w,
    initialize_free_format_input "scan.fre" turned_volume new_input zyx_world =
      Some ((OK, v, vi), w) /\
    1 <= 2 < 2 ^ 31 /\ session free_format 2 v vi /\
    storage_available free_format true v /\
    steady_progress (reports free_format true 3 v vi w).
Proof.
  eexists _, _, _. split; [vm_compute; reflexivity|].
  assert (Ht : 1 <= 2 < 2 ^ 31) by lia.
  split; [exact Ht|].
  match goal with
  | |- session free_format 2 ?v ?vi /\ _ =>
      assert (Hs : session free_format 2 v vi)
  end.
  { split; [reflexivity|]. split; [by exists 0|]. by vm_compute. }
  split; [exact Hs|]. split; [exact I|].
  exact (proj1 (C7_fraction_done_progress free_format true 3 2 _ _ _ Ht Hs) I).
Defined.

(** C7 as stated fails on a session without slices: the first call of the
    MGH loader returns no more to do and reports 0.0 / 0.0. *)
Lemma C7_counterexample_no_slice :
  exists v p w,
    initialize_mgh_format_input unit_geometry "empty.mgh"
        (new_volume NO_DATA_TYPE NC_UNSPECIFIED) new_input empty_mgh_world =
      Some ((OK, v, p), w) /\
    reports mgh_format true 1 v p w = [(false, Some S754_nan)] /\
    ~ steady_progress (reports mgh_format true 1 v p w).
Proof.
  eexists _, _, _. split; [vm_compute; reflexivity|].
  split; [vm_compute; reflexivity|].
  intros [_ H]. vm_compute in H. inversion H as [|? ? [_ H1] _]; subst.
  specialize (H1 eq_refl). discriminate H1.
Qed.

(** ** A degenerate voxel range *)

Lemma zero_scale lo :
  is_finite lo = true ->
  Rdiv (Rsub lo lo) (Real_of_int (NUM_BYTE_VALUES - 1)) = S754_zero false.
Proof. intros Hlo. by rewrite Rsub_diag. Qed.

Lemma scale_value_zero_scale tr raw s :
  scale_value tr (S754_zero s) raw = None.
Proof.
  unfold scale_value, int_of_Real.
  pose proof (Rdiv_zero_r (Rsub (Real_of_int raw) tr) s) as H.
  by destruct (Rdiv _ _).
Qed.

Lemma set_voxel_stored v x y z r v' :
  set_voxel v x y z r = Some v' -> stored v' = <[(x, y, z) := r]> (stored v).
Proof.
  unfold set_voxel, stored. destruct (data v) as [cells|]; [|done].
  destruct (in_volume v x y z); [|done]. by intros [= <-].
Qed.

Lemma only_non_finite_added_refl v : only_non_finite_added v v.
Proof. intros cell r H. by left. Qed.

(** The free-format loader: no sample can be stored. *)
Lemma store_sample_undefined quantize buffer inner k st :
  (forall raw, quantize raw = None) ->
  store_sample quantize buffer inner k st = None.
Proof.
  intros Hq. destruct st as [[indices ptr] v]. unfold store_sample.
  destruct (load buffer ptr) as [raw|]; [|done]. cbn. by rewrite Hq.
Qed.

Lemma store_row_undefined quantize buffer outer inner size2 i st st' :
  (forall raw, quantize raw = None) ->
  store_row quantize buffer outer inner size2 i st = Some st' -> st'.2 = st.2.
Proof.
  intros Hq. destruct st as [[indices ptr] v]. unfold store_row. intros H.
  simplify_option_eq.
  match goal with
  | H : foldl _ (Some ?s) ?ks = Some _ |- _ => destruct ks as [|k ks']
  end.
  - cbn in H. by simplify_eq.
  - cbn [foldl mbind option_bind] in H.
    rewrite store_sample_undefined in H by done.
    by rewrite foldl_bind_None in H.
Qed.

Lemma store_slice_undefined quantize buffer outer inner size1 size2 indices v v' :
  (forall raw, quantize raw = None) ->
  store_slice quantize buffer outer inner size1 size2 indices v = Some v' ->
  v' = v.
Proof.
  intros Hq. unfold store_slice. intros H. simplify_option_eq.
  match goal with
  | H : foldl _ (Some ?s) _ = Some ?s' |- _ =>
      change (s'.2 = s.2);
      revert H; apply (foldl_bind_inv (fun st => st.2 = s.2))
  end; [|done].
  intros k s s' Hs Hk. rewrite <- Hs. by eapply store_row_undefined.
Qed.

Lemma input_more_slice_zero_scale v vi w v' vi' lo hi w' :
  data_type v <> file_data_type vi ->
  is_finite (voxel_min v) = true -> voxel_max v = voxel_min v ->
  input_more_slice v vi w = Some ((v', vi', lo, hi), w') ->
  stored v' = stored v.
Proof.
  intros Ht Hfin Heq. unfold input_more_slice. intros H. io_step H. io_step H.
  case_bool_decide as Hlt; [|io_step H; by simplify_eq].
  io_step H. destruct a as [status vi1].
  match goal with
  | H1 : input_slice _ _ = Some _ |- _ =>
      apply input_slice_frame in H1 as (_ & _ & Hft & _)
  end.
  set (v1 := if volume_is_alloced v then v else alloc_volume_data v) in *.
  assert (Hv1 : stored v1 = stored v /\ data_type v1 = data_type v /\
                voxel_min v1 = voxel_min v /\ voxel_max v1 = voxel_min v).
  { subst v1. unfold stored, volume_is_alloced.
    destruct (data v) eqn:Hd; cbn; rewrite ?Hd; auto. }
  destruct Hv1 as (Hst & Hdt & Hlo & Hhi). clearbody v1.
  rewrite bool_decide_true in H by congruence.
  cbv beta iota zeta in H. rewrite Hlo, Hhi, zero_scale in H by done.
  io_inv H. simplify_eq. rewrite <- Hst. f_equal.
  match goal with
  | H1 : (if decide (?st = OK) then _ else _) _ = Some _ |- _ =>
      rename H1 into Hs; destruct (decide (st = OK));
      [|io_inv Hs; by simplify_eq]
  end.
  io_inv Hs. destruct (file_data_type vi1); io_inv Hs; simplify_eq; try done.
  all: eapply store_slice_undefined; [|done]; intros raw; cbn;
         by rewrite scale_value_zero_scale.
Qed.

(** The MGH loader: what is stored is a quotient by zero. *)
Lemma mgh_store_sample_zero_scale big t tr s buffer inner k v0 st st' :
  mgh_store_sample big t tr (S754_zero s) buffer inner k st = Some st' ->
  only_non_finite_added v0 st.2 -> only_non_finite_added v0 st'.2.
Proof.
  destruct st as [[[[indices ptr] value] in_ptr] v]. unfold mgh_store_sample.
  intros H Hv. destruct (mgh_sample _ _ _ _ _ _) as [[x z]|]; [|done].
  cbn [mbind option_bind] in H. simplify_option_eq.
  match goal with
  | H1 : set_voxel _ _ _ _ _ = Some _ |- _ => apply set_voxel_stored in H1 as Hset
  end.
  intros cell r Hr. cbn [snd] in *. rewrite Hset in Hr.
  apply lookup_insert_Some in Hr as [[_ <-]|[_ Hr]].
  - right. apply Rdiv_zero_r.
  - by apply Hv.
Qed.

Lemma mgh_store_row_zero_scale big t tr s buffer outer inner size0 i v0 st st' :
  mgh_store_row big t tr (S754_zero s) buffer outer inner size0 i st = Some st' ->
  only_non_finite_added v0 st.2 -> only_non_finite_added v0 st'.2.
Proof.
  destruct st as [[[[indices ptr] value] in_ptr] v]. unfold mgh_store_row.
  intros H Hv. simplify_option_eq.
  match goal with
  | H : foldl _ (Some ?s0) _ = Some ?s' |- _ =>
      revert H;
      apply (foldl_bind_inv (fun st => only_non_finite_added v0 st.2))
  end; [|done].
  intros k s1 s2 Hs Hk. by eapply mgh_store_sample_zero_scale.
Qed.

Lemma input_more_mgh_slice_zero_scale c v in_ptr w v' in_ptr' lo hi w' :
  data_type v <> file_data_type in_ptr ->
  is_finite (voxel_min v) = true -> voxel_max v = voxel_min v ->
  input_more_mgh_slice c v in_ptr w = Some (Some (v', in_ptr', lo, hi), w') ->
  only_non_finite_added v v'.
Proof.
  intros Ht Hfin Heq. unfold input_more_mgh_slice. intros H.
  io_step H. io_step H.
  case_bool_decide as Hlt;
    [|io_step H; simplify_eq; apply only_non_finite_added_refl].
  set (v1 := if volume_is_alloced v then v else _) in *.
  assert (Hv1 : stored v1 = stored v /\ data_type v1 = data_type v /\
                voxel_min v1 = voxel_min v /\ voxel_max v1 = voxel_min v).
  { subst v1. unfold stored, volume_is_alloced.
    destruct (data v) eqn:Hd; [by rewrite Hd|].
    destruct c; cbn; rewrite ?Hd; auto. }
  destruct Hv1 as (Hst & Hdt & Hlo & Hhi). clearbody v1.
  destruct (negb (volume_is_alloced v1)); [by io_step H|].
  io_step H. destruct a as [status p1].
  match goal with
  | H1 : input_next_slice _ _ = Some _ |- _ =>
      apply input_next_slice_frame in H1 as (_ & _ & Hft & _)
  end.
  destruct (decide (data_type v1 <> file_data_type p1)) as [_|Hn];
    [|exfalso; apply Hn; congruence].
  cbv beta iota zeta in H. rewrite Hlo, Hhi, zero_scale in H by done.
  io_inv H. simplify_eq.
  assert (Hbase : only_non_finite_added v v1).
  { intros cell r. rewrite Hst. by left. }
  match goal with
  | H1 : (if decide (?st = OK) then _ else _) _ = Some _ |- _ =>
      rename H1 into Hs; destruct (decide (st = OK));
      [|io_inv Hs; by simplify_eq]
  end.
  io_inv Hs. simplify_eq.
  match goal with
  | H : foldl _ (Some ?s0) _ = Some ?s' |- _ =>
      change (only_non_finite_added v s'.2);
      revert H;
      apply (foldl_bind_inv (fun st => only_non_finite_added v st.2))
  end; [|done].
  intros k s1 s2 Hs1 Hk. by eapply mgh_store_row_zero_scale.
Qed.




(** ** The values stored for a volume of another type than the file *)

Lemma only_added_refl P v : only_added P v v.
Proof. intros cell r H. by left. Qed.

Lemma only_added_set_voxel (P : Real -> Prop) v0 v x y z r v' :
  only_added P v0 v -> P r -> set_voxel v x y z r = Some v' ->
  only_added P v0 v'.
Proof.
  intros Hv Hr Hset. apply set_voxel_stored in Hset.
  intros cell r' H. rewrite Hset in H.
  apply lookup_insert_Some in H as [[_ <-]|[_ H]]; [by right|by apply Hv].
Qed.

Lemma store_sample_only_added (P : Real -> Prop) quantize buffer inner k v0 st st' :
  (forall raw value, quantize raw = Some value -> P (Real_of_int value)) ->
  store_sample quantize buffer inner k st = Some st' ->
  only_added P v0 st.2 -> only_added P v0 st'.2.
Proof.
  intros Hq. destruct st as [[indices ptr] v]. unfold store_sample.
  intros H Hv. simplify_option_eq. eauto using only_added_set_voxel.
Qed.

Lemma store_slice_only_added (P : Real -> Prop) quantize buffer outer inner
    size1 size2 indices v v' :
  (forall raw value, quantize raw = Some value -> P (Real_of_int value)) ->
  store_slice quantize buffer outer inner size1 size2 indices v = Some v' ->
  only_added P v v'.
Proof.
  intros Hq. unfold store_slice. intros H. simplify_option_eq.
  match goal with
  | H : foldl _ (Some ?s) _ = Some ?s' |- _ =>
      change (only_added P s.2 s'.2);
      revert H; apply (foldl_bind_inv (fun st => only_added P v st.2))
  end; [|apply only_added_refl].
  intros i [[ind ptr] v1] st1 Hs Hi. unfold store_row in Hi.
  simplify_option_eq.
  match goal with
  | H : foldl _ (Some ?s) _ = Some ?s' |- _ =>
      revert H; apply (foldl_bind_inv (fun st => only_added P v st.2))
  end; [|done].
  intros k s1 s2 Hs1 Hk. by eapply store_sample_only_added.
Qed.

Lemma byte_value_spec v raw value :
  byte_value true (voxel_min v)
    (Rdiv (Rsub (voxel_max v) (voxel_min v)) (Real_of_int (NUM_BYTE_VALUES - 1)))
    raw = Some value ->
  exists q, Rtrunc (scaled v (Real_of_int raw)) = Some q /\
            value = Z.max 0 (Z.min 255 q).
Proof.
  unfold byte_value, scale_value, int_of_Real. fold (scaled v (Real_of_int raw)).
  intros H. destruct (Rtrunc _) as [q|]; [|done]. cbn in H.
  case_bool_decide; [|done]. cbn in H. injection H as <-.
  exists q. split; [done|]. repeat case_bool_decide; lia.
Qed.

Lemma short_value_spec v raw value :
  short_value true (voxel_min v)
    (Rdiv (Rsub (voxel_max v) (voxel_min v)) (Real_of_int (NUM_BYTE_VALUES - 1)))
    raw = Some value ->
  Rtrunc (scaled v (Real_of_int raw)) = Some value.
Proof.
  unfold short_value, scale_value, int_of_Real. fold (scaled v (Real_of_int raw)).
  intros H. destruct (Rtrunc _) as [q|]; [|done].
  case_bool_decide; [|done]. by injection H as <-.
Qed.

(** What a call of the free-format loader adds to the volume, given what the
    conversion of a sample yields. *)
Lemma input_more_slice_only_added (P : Real -> Prop) v vi w v' vi' lo hi w' :
  data_type v <> file_data_type vi ->
  (forall raw value,
     match file_data_type vi with
     | UNSIGNED_BYTE =>
         byte_value true (voxel_min v)
           (Rdiv (Rsub (voxel_max v) (voxel_min v))
                 (Real_of_int (NUM_BYTE_VALUES - 1))) raw = Some value
     | _ =>
         short_value true (voxel_min v)
           (Rdiv (Rsub (voxel_max v) (voxel_min v))
                 (Real_of_int (NUM_BYTE_VALUES - 1))) raw = Some value
     end -> P (Real_of_int value)) ->
  input_more_slice v vi w = Some ((v', vi', lo, hi), w') ->
  only_added P v v'.
Proof.
  intros Ht HP. unfold input_more_slice. intros H. io_step H. io_step H.
  case_bool_decide as Hlt;
    [|io_step H; simplify_eq; apply only_added_refl].
  io_step H. destruct a as [status vi1].
  match goal with
  | H1 : input_slice _ _ = Some _ |- _ =>
      apply input_slice_frame in H1 as (_ & _ & Hft & _)
  end.
  set (v1 := if volume_is_alloced v then v else alloc_volume_data v) in *.
  assert (Hv1 : stored v1 = stored v /\ data_type v1 = data_type v /\
                voxel_min v1 = voxel_min v /\ voxel_max v1 = voxel_max v).
  { subst v1. unfold stored, volume_is_alloced.
    destruct (data v) eqn:Hd; cbn; rewrite ?Hd; auto. }
  destruct Hv1 as (Hst & Hdt & Hlo & Hhi). clearbody v1.
  rewrite bool_decide_true in H by congruence.
  cbv beta iota zeta in H. rewrite Hlo, Hhi in H.
  io_inv H. simplify_eq.
  assert (Hbase : forall vx, only_added P v1 vx -> only_added P v vx).
  { intros vx Hvx cell r Hr. rewrite <- Hst. by apply Hvx. }
  apply Hbase.
  match goal with
  | H1 : (if decide (?st = OK) then _ else _) _ = Some _ |- _ =>
      rename H1 into Hs; destruct (decide (st = OK));
      [|io_inv Hs; simplify_eq; apply only_added_refl]
  end.
  io_inv Hs. rewrite Hft in *.
  destruct (file_data_type vi); io_inv Hs; simplify_eq;
    try apply only_added_refl.
  all: by eapply store_slice_only_added.
Qed.

(** ** The spatial axis of a file axis *)

(** What lines 507-523 compute: Y or Z when its magnitude exceeds both
    others, X in every other case. *)
Lemma spatial_axis_of_spec hdr axis a :
  spatial_axis_of hdr axis = Some a ->
  exists dx dy dz,
    load2 (dircos hdr) axis X = Some dx /\
    load2 (dircos hdr) axis Y = Some dy /\
    load2 (dircos hdr) axis Z_ = Some dz /\
    let c_x := float_of_Real (fabs (Real_of_float dx)) in
    let c_y := float_of_Real (fabs (Real_of_float dy)) in
    let c_z := float_of_Real (fabs (Real_of_float dz)) in
    a = if Rgt c_z c_x && Rgt c_z c_y then Z_
        else if Rgt c_y c_x && Rgt c_y c_z then Y else X.
Proof.
  unfold spatial_axis_of. intros H. simplify_option_eq.
  eexists _, _, _. do 3 (split; [done|]). cbv zeta.
  repeat match goal with |- context [Rgt ?a ?b] =>
    let E := fresh "E" in destruct (Rgt a b) eqn:E end;
  try reflexivity.
  all: match goal with
       | H1 : Rgt ?a ?b = true, H2 : Rgt ?b ?a = true |- _ =>
           apply Rgt_asym in H1; congruence
       end.
Qed.

(** The axis assigned is the one of largest magnitude, with the earlier
    axis winning a tie, unless Y exceeds X and neither of Y and Z exceeds
    the other. *)
Lemma spatial_axis_of_largest hdr axis a :
  spatial_axis_of hdr axis = Some a ->
  exists dx dy dz,
    load2 (dircos hdr) axis X = Some dx /\
    load2 (dircos hdr) axis Y = Some dy /\
    load2 (dircos hdr) axis Z_ = Some dz /\
    let c_x := float_of_Real (fabs (Real_of_float dx)) in
    let c_y := float_of_Real (fabs (Real_of_float dy)) in
    let c_z := float_of_Real (fabs (Real_of_float dz)) in
    (Rgt c_y c_x = false \/ Rgt c_y c_z = true \/ Rgt c_z c_y = true ->
     a = largest_component c_x c_y c_z).
Proof.
  intros H. apply spatial_axis_of_spec in H as (dx & dy & dz & Hx & Hy & Hz & H).
  exists dx, dy, dz. do 3 (split; [done|]). cbv zeta in *. subst a.
  unfold largest_component. intros Hc.
  destruct (Rgt _ _ && Rgt _ _) eqn:Ez; [done|].
  destruct (Rgt (float_of_Real (fabs (Real_of_float dy)))
                (float_of_Real (fabs (Real_of_float dx)))) eqn:Eyx; [|done].
  cbn [andb].
  destruct (Rgt (float_of_Real (fabs (Real_of_float dy)))
                (float_of_Real (fabs (Real_of_float dz)))) eqn:Eyz; [done|].
  destruct Hc as [Hc|[Hc|Hc]]; try discriminate.
  (* Z exceeds Y, Y exceeds X, but Z does not exceed X and Y *)
  rewrite Hc, andb_true_r in Ez.
  exfalso. revert Ez Eyx Hc. unfold Rgt.
  generalize (float_of_Real (fabs (Real_of_float dx))) as cx.
  generalize (float_of_Real (fabs (Real_of_float dy))) as cy.
  generalize (float_of_Real (fabs (Real_of_float dz))) as cz.
  intros cz cy cx Hzx Hyx Hzy.
  rewrite (SFltb_trans cx cy cz) in Hzx; done.
Qed.

(** C6 at a tie of Y and Z. The first file axis of the source has the
    direction cosines 0, s, s: its largest components are those along Y and
    Z, and the order of priority gives Y. The open succeeds and assigns it
    X, the axis of the smallest component. *)
Theorem C6_tie_of_y_and_z_yields_x :
  exists v p w hdr_row,
    initialize_mgh_format_input unit_geometry "oblique.mgh"
        (new_volume NO_DATA_TYPE NC_BYTE) new_input oblique_world =
      Some ((OK, v, p), w) /\
    hdr_row = map float_of_bits [bits_0; bits_s; bits_s] /\
    (exists c_x c_y c_z,
       map (fun d => float_of_Real (fabs (Real_of_float d))) hdr_row =
         [c_x; c_y; c_z] /\
       Rgt c_y c_x = true /\ Rgt c_z c_x = true /\
       largest_component c_x c_y c_z = Y) /\
    load (axis_index_from_file p) 0 = Some X.
Proof.
  eexists _, _, _, _. split; [vm_compute; reflexivity|].
  split; [reflexivity|]. split; [|by vm_compute].
  eexists _, _, _. split; [vm_compute; reflexivity|].
  split; [by vm_compute|]. split; by vm_compute.
Qed.

(** ** Closing a session *)

Lemma close_file_open f s w :
  streams w !! f = Some s ->
  exists w', close_file f w = Some (OK, w') /\ streams w' !! f = None.
Proof.
  intros H. unfold close_file. rewrite H. eexists. split; [done|].
  cbn. apply lookup_delete_eq.
Qed.

Lemma close_file_closed f w : streams w !! f = None -> close_file f w = None.
Proof. intros H. unfold close_file. by rewrite H. Qed.

(** C9, amended. Closing a session releases the slice buffer and closes
    the image file. There is no record of a session being closed: the
    stale handle stays in the session, and a second close of a session
    that held an open file closes that handle again, which is undefined.
    Only a free-format session with one file per slice, which holds no
    open file and releases its tables of file names and offsets instead,
    is left unchanged by a second close. *)
Theorem C9_close_releases_without_closed_flag
    (vi : volume_input_struct) (w : World) :
  (is_Some (streams w !! volume_file vi) ->
   exists vi' w',
     delete_mgh_format_input vi w = Some (vi', w') /\
     byte_slice_buffer vi' = None /\
     streams w' !! volume_file vi = None /\
     volume_file vi' = volume_file vi /\
     delete_mgh_format_input vi' w' = None) /\
  (is_Some (streams w !! volume_file vi) -> one_file_per_slice vi = false ->
   exists vi' w',
     delete_free_format_input vi w = Some (vi', w') /\
     slice_buffer_released vi' /\
     streams w' !! volume_file vi = None /\
     volume_file vi' = volume_file vi /\
     delete_free_format_input vi' w' = None) /\
  (one_file_per_slice vi = true ->
   exists vi',
     delete_free_format_input vi w = Some (vi', w) /\
     slice_buffer_released vi' /\
     slice_filenames vi' = None /\ slice_byte_offsets vi' = None /\
     delete_free_format_input vi' w = Some (vi', w)).
Proof.
  split; [|split].
  - intros [s Hs]. destruct (close_file_open _ _ _ Hs) as (w' & Hc & Hw').
    unfold delete_mgh_format_input, bind. cbn. rewrite Hc. cbn.
    eexists _, _. split; [reflexivity|]. cbn.
    do 3 (split; [done|]). by rewrite (close_file_closed _ _ Hw').
  - intros [s Hs] Hone.
    destruct (close_file_open _ _ _ Hs) as (w' & Hc & Hw').
    apply close_file_closed in Hw' as Hc'.
    destruct vi; cbn in *; subst.
    unfold delete_free_format_input, slice_buffer_released, bind.
    case_decide; cbn in *; rewrite Hc; cbn;
      (eexists _, _; split; [reflexivity|]); cbn;
      repeat case_decide; try congruence; cbn; by rewrite Hc'.
  - intros Hone. destruct vi; cbn in *; subst.
    unfold delete_free_format_input, slice_buffer_released, ret.
    case_decide; cbn in *;
      (eexists; split; [reflexivity|]); cbn;
      repeat case_decide; try congruence; done.
Qed.

Lemma C9_close_releases_without_closed_flag_witness :
  exists v p w,
    initialize_mgh_format_input unit_geometry "flat.mgh"
        (new_volume UNSIGNED_SHORT NC_SHORT) new_input constant_mgh_world =
      Some ((OK, v, p), w) /\
    is_Some (streams w !! volume_file p) /\
    exists p' w',
      delete_mgh_format_input p w = Some (p', w') /\
      byte_slice_buffer p' = None /\
      streams w' !! volume_file p = None /\
      volume_file p' = volume_file p /\
      delete_mgh_format_input p' w' = None.
Proof.
  eexists _, _, _. split; [vm_compute; reflexivity|].
  match goal with
  | |- ?h1 /\ _ => assert (H1 : h1) by (vm_compute; eauto)
  end.
  split; [exact H1|].
  exact (proj1 (C9_close_releases_without_closed_flag _ _) H1).
Defined.

(** C9 as stated fails on an MGH session: the first close succeeds, the
    second is not a no-op, it closes the handle that the first has closed. *)
Lemma C9_counterexample_second_close :
  exists v p w p' w',
    initialize_mgh_format_input unit_geometry "flat.mgh"
        (new_volume UNSIGNED_SHORT NC_SHORT) new_input constant_mgh_world =
      Some ((OK, v, p), w) /\
    delete_mgh_format_input p w = Some (p', w') /\
    streams w' !! volume_file p' = None /\
    delete_mgh_format_input p' w' <> Some (p', w').
Proof.
  eexists _, _, _, _, _. split; [vm_compute; reflexivity|].
  split; [vm_compute; reflexivity|]. split; by vm_compute.
Qed.

(** ** The scan for the voxel range *)

(** C1 on an MGH file of the signed shorts -2 and 1, read into a volume of
    bytes. The open succeeds and writes no voxel, but the range that it
    commits is 1..65534, not -2..1: [ntohs] yields an unsigned value, which
    is converted to [float] as it is. On a free-format file of bytes read
    into a volume of shorts the scan reads [short_slice_buffer], which was
    not allocated for a file of bytes: the open has no defined result. *)
Theorem C1_scan_misreads_samples :
  (exists v p w,
     initialize_mgh_format_input unit_geometry "neg.mgh"
         (new_volume UNSIGNED_BYTE NC_BYTE) new_input negative_mgh_world =
       Some ((OK, v, p), w) /\
     file_data_type p = SIGNED_SHORT /\
     data_type v <> file_data_type p /\
     signed_shorts [xff; xfe; x00; x01] = [-2; 1] /\
     voxel_min v = Real_of_int 1 /\ voxel_max v = Real_of_int 65534 /\
     data v = None) /\
  initialize_free_format_input "bytes.fre"
      (new_volume SIGNED_SHORT NC_SHORT) new_input bytes_world = None.
Proof.
  split; [|by vm_compute].
  eexists _, _, _. split; [vm_compute; reflexivity|].
  split; [by vm_compute|]. split; [by vm_compute|].
  split; [by vm_compute|]. split; [by vm_compute|]. split; by vm_compute.
Qed.

(** ** Two file axes along one spatial axis *)

(** C2 on an MGH file whose first two file axes both have the direction
    cosines 1, 0, 0. The open succeeds and maps both to X; no test of the
    axes being distinct is made. The free-format open makes that test
    (lines 173-183) and fails on a header that names x twice. *)
Theorem C2_mgh_open_accepts_doubled_axis :
  (exists v p w,
     initialize_mgh_format_input unit_geometry "doubled.mgh"
         (new_volume NO_DATA_TYPE NC_BYTE) new_input doubled_mgh_world =
       Some ((OK, v, p), w) /\
     take 3 (axis_index_from_file p) = [X; X; Z_]) /\
  (exists v vi w,
     initialize_free_format_input "doubled.fre"
         (new_volume NO_DATA_TYPE NC_BYTE) new_input doubled_free_world =
       Some ((ERROR, v, vi), w) /\
     take 3 (axis_index_from_file vi) = [X; X; Z_]).
Proof.
  split; (eexists _, _, _; split; [vm_compute; reflexivity|by vm_compute]).
Qed.

(** ** A missing slice file *)

(** C5 on five slice files of which the third is missing. The first two
    calls store the slices 0 and 1. In the third call [input_slice] fails,
    but the cursor is advanced to 3 all the same, the call reports that
    there is more to do, and no voxel of slice 2 is written; the fourth
    call stores the fourth file as slice 3. *)
Theorem C5_missing_slice_is_skipped :
  exists v vi w v2 vi2 w2 f v3 vi3 w3 vi_err w_err v4 vi4 w4,
    initialize_free_format_input "five.fre"
        (new_volume NO_DATA_TYPE NC_BYTE) new_input five_slices_world =
      Some ((OK, v, vi), w) /\
    free_calls 2 v vi w = Some (v2, vi2, w2) /\
    slice_index vi2 = 2 /\
    stored v2 !! (0, 0, 0) = Some (Real_of_int 10) /\
    stored v2 !! (1, 0, 0) = Some (Real_of_int 11) /\
    input_slice vi2 w2 = Some ((ERROR, vi_err), w_err) /\
    input_more_free_format_file v2 vi2 w2 = Some ((true, f, v3, vi3), w3) /\
    slice_index vi3 = 3 /\
    stored v3 !! (2, 0, 0) = None /\
    free_calls 1 v3 vi3 w3 = Some (v4, vi4, w4) /\
    slice_index vi4 = 4 /\
    stored v4 !! (2, 0, 0) = None /\
    stored v4 !! (3, 0, 0) = Some (Real_of_int 13).
Proof.
  eexists _, _, _, _, _, _, _, _, _, _, _, _, _, _, _.
  split; [vm_compute; reflexivity|]. split; [vm_compute; reflexivity|].
  split; [by vm_compute|]. split; [by vm_compute|]. split; [by vm_compute|].
  split; [vm_compute; reflexivity|]. split; [vm_compute; reflexivity|].
  split; [by vm_compute|]. split; [by vm_compute|].
  split; [vm_compute; reflexivity|]. split; [by vm_compute|].
  split; by vm_compute.
Qed.

(** ** Flipped axes *)

(** C8 on a header whose axes are z, y, x. The x axis has 3 voxels and the
    separation -2: the origin along X should lie 4 further than with the
    separation 2. The open yields the same translation for both headers:
    the test of line 244 reads [volume_separations[0]] in the first turn of
    the loop, where the separation of x is written in the third. With the
    axes x, y, z the offset is applied. *)
Theorem C8_flip_missed_when_axes_permuted :
  (exists v vi w v' vi' w',
     open_flipped "z" "x" (Real_of_int 2) = Some ((OK, v, vi), w) /\
     open_flipped "z" "x" (Real_of_int (-2)) = Some ((OK, v', vi'), w') /\
     load (sizes v') X = Some 3 /\
     load (separations v') X = Some (Real_of_int (-2)) /\
     load (translation_world v) X = Some Rzero /\
     load (translation_world v') X = Some Rzero) /\
  (exists v vi w v' vi' w',
     open_flipped "x" "z" (Real_of_int 2) = Some ((OK, v, vi), w) /\
     open_flipped "x" "z" (Real_of_int (-2)) = Some ((OK, v', vi'), w') /\
     load (sizes v') Z_ = Some 3 /\
     load (separations v') Z_ = Some (Real_of_int (-2)) /\
     load (translation_world v) Z_ = Some Rzero /\
     load (translation_world v') Z_ = Some (Real_of_int 4)).
Proof.
  split;
    (eexists _, _, _, _, _, _; split; [vm_compute; reflexivity|];
     split; [vm_compute; reflexivity|]; split; [by vm_compute|];
     split; [by vm_compute|]; split; by vm_compute).
Qed.

(** * Further properties of the two loaders *)

(** ** Byte order of the MGH samples *)

Lemma byte_val_bounds b : 0 <= byte_val b < 256.
Proof. by destruct b. Qed.

Lemma bswap_16_le_val a b : bswap_16 (le_val [a; b]) = le_val [b; a].
Proof.
  unfold bswap_16, le_val. cbn [foldr].
  pose proof (byte_val_bounds a). pose proof (byte_val_bounds b).
  rewrite Z.mul_0_r, !Z.add_0_r.
  replace ((byte_val a + 256 * byte_val b) mod 256) with (byte_val a)
    by (apply Z.mod_unique_pos with (byte_val b); lia).
  replace ((byte_val a + 256 * byte_val b) / 256) with (byte_val b)
    by (apply Z.div_unique_pos with (byte_val a); lia).
  rewrite Z.mod_small by lia. lia.
Qed.

Lemma bswap_32_le_val a b c d :
  bswap_32 (le_val [a; b; c; d]) = le_val [d; c; b; a].
Proof.
  unfold bswap_32, le_val. cbn [foldr].
  pose proof (byte_val_bounds a). pose proof (byte_val_bounds b).
  pose proof (byte_val_bounds c). pose proof (byte_val_bounds d).
  rewrite Z.mul_0_r, !Z.add_0_r.
  set (x := byte_val a + 256 * (byte_val b + 256 * (byte_val c + 256 * byte_val d))).
  assert (E0 : x mod 256 = byte_val a).
  { symmetry. apply Z.mod_unique_pos
      with (byte_val b + 256 * (byte_val c + 256 * byte_val d)); lia. }
  assert (E1 : (x / 2 ^ 8) mod 256 = byte_val b).
  { replace (x / 2 ^ 8) with (byte_val b + 256 * (byte_val c + 256 * byte_val d))
      by (apply Z.div_unique_pos with (byte_val a); lia).
    symmetry. apply Z.mod_unique_pos with (byte_val c + 256 * byte_val d); lia. }
  assert (E2 : (x / 2 ^ 16) mod 256 = byte_val c).
  { replace (x / 2 ^ 16) with (byte_val c + 256 * byte_val d)
      by (apply Z.div_unique_pos
            with (byte_val a + 256 * byte_val b); lia).
    symmetry. apply Z.mod_unique_pos with (byte_val d); lia. }
  assert (E3 : (x / 2 ^ 24) mod 256 = byte_val d).
  { replace (x / 2 ^ 24) with (byte_val d)
      by (apply Z.div_unique_pos
            with (byte_val a + 256 * (byte_val b + 256 * byte_val c)); lia).
    apply Z.mod_small; lia. }
  rewrite E0, E1, E2, E3. lia.
Qed.

(** On either host, [ntohs] and [ntohl] of an object read from the file give
    the value of its bytes taken most significant first. *)
Lemma ntohs_host_val big bs :
  length bs = 2%nat -> ntohs big (host_val big bs) = le_val (rev bs).
Proof.
  destruct bs as [|a [|b [|? ?]]]; try done. intros _.
  destruct big; [done|]. apply bswap_16_le_val.
Qed.

Lemma ntohl_host_val big bs :
  length bs = 4%nat -> ntohl big (host_val big bs) = le_val (rev bs).
Proof.
  destruct bs as [|a [|b [|c [|d [|? ?]]]]]; try done. intros _.
  destruct big; [done|]. apply bswap_32_le_val.
Qed.

Lemma host_val_byte big bs :
  length bs = 1%nat -> host_val big bs = le_val (rev bs).
Proof. destruct bs as [|a [|? ?]]; try done. by destruct big. Qed.

(** The object of [n] bytes under the data pointer. *)
Lemma object_length (buffer : list byte) data_ptr n :
  0 <= n -> 0 <= data_ptr -> data_ptr + n <= Z.of_nat (length buffer) ->
  length (take (Z.to_nat n) (drop (Z.to_nat data_ptr) buffer)) = Z.to_nat n.
Proof. intros. rewrite length_take, length_drop. lia. Qed.

(** The conversions of lines 354-383 and 677-698 on either host. *)
Lemma mgh_sample_network (big : bool) (t : Data_types)
    (to_real : bool) (buffer : list byte) (data_ptr : Z)
    (value x : spec_float) :
  0 <= data_ptr ->
  data_ptr + get_type_size t <= Z.of_nat (length buffer) ->
  network_sample t to_real buffer data_ptr = Some x ->
  mgh_sample big t to_real buffer data_ptr value =
    Some (x, data_ptr + get_type_size t).
Proof.
  intros Hp Hb Hx. unfold network_sample in Hx.
  destruct t;
    lazymatch type of Hx with
    | None = _ => discriminate Hx
    | Some _ = _ => apply (inj Some) in Hx; subst x
    end;
    cbn [get_type_size] in Hb |- *; unfold mgh_sample, be_at;
    rewrite bool_decide_true by lia; cbn [mbind option_bind].
  - rewrite host_val_byte; [reflexivity|]. apply object_length; lia.
  - rewrite ntohs_host_val; [reflexivity|]. apply object_length; lia.
  - rewrite ntohl_host_val; [reflexivity|]. apply object_length; lia.
  - unfold swapFloat.
    rewrite ntohl_host_val; [reflexivity|]. apply object_length; lia.
Qed.

(** X1. A sample of one of the four types of an MGH file that lies within
    the slice buffer is decoded, on a big-endian and on a little-endian
    host alike, to the value of its bytes taken most significant first:
    the unsigned integer of its one, two or four bytes, or the float that
    its four bytes encode; the data pointer moves past the sample. *)
Theorem mgh_sample_most_significant_first (big : bool) (t : Data_types)
    (to_real : bool) (buffer : list byte) (data_ptr : Z)
    (value x : spec_float) :
  0 <= data_ptr ->
  data_ptr + get_type_size t <= Z.of_nat (length buffer) ->
  network_sample t to_real buffer data_ptr = Some x ->
  mgh_sample big t to_real buffer data_ptr value =
    Some (x, data_ptr + get_type_size t).
Proof. apply mgh_sample_network. Qed.

Lemma mgh_sample_most_significant_first_witness :
  0 <= 1 /\
  1 + get_type_size SIGNED_SHORT <= Z.of_nat (length [x00; x01; x02; x03]) /\
  network_sample SIGNED_SHORT true [x00; x01; x02; x03] 1 =
    Some (Real_of_int 258) /\
  mgh_sample false SIGNED_SHORT true [x00; x01; x02; x03] 1 Rzero =
    Some (Real_of_int 258, 1 + get_type_size SIGNED_SHORT).
Proof.
  assert (H0 : 0 <= 1) by lia.
  assert (H1 : 1 + get_type_size SIGNED_SHORT <=
               Z.of_nat (length [x00; x01; x02; x03])) by (by vm_compute).
  assert (H2 : network_sample SIGNED_SHORT true [x00; x01; x02; x03] 1 =
               Some (Real_of_int 258)) by (vm_compute; reflexivity).
  do 3 (split; [assumption|]).
  exact (mgh_sample_most_significant_first false _ _ _ _ Rzero _ H0 H1 H2).
Defined.

(** ** The value stored for each sample *)

Lemma load_store {A} (a : list A) i x a' :
  store a i x = Some a' ->
  load a' i = Some x /\ (forall j, j <> i -> load a' j = load a j) /\
  length a' = length a.
Proof.
  unfold store, load. case_bool_decide as Hi; [|done].
  destruct (a !! Z.to_nat i) as [y|] eqn:Hy; [|done]. intros [= <-].
  apply lookup_lt_Some in Hy. split; [by apply list_lookup_insert_eq|].
  split; [|apply length_insert].
  intros j Hj. case_bool_decide; [|done].
  apply list_lookup_insert_ne. lia.
Qed.

(** A loop over [0 .. n-1] whose body keeps an invariant indexed by the
    number of turns done. *)
Lemma foldl_for_less_from {St} (P : Z -> St -> Prop) (g : Z -> St -> option St)
    (n : nat) : forall m s s',
  (forall i s s', m <= i < m + Z.of_nat n -> P i s -> g i s = Some s' ->
                  P (i + 1) s') ->
  P m s ->
  foldl (fun st i => st ≫= g i) (Some s) (seqZ m (Z.of_nat n)) = Some s' ->
  P (m + Z.of_nat n) s'.
Proof.
  induction n as [|n IH]; intros m s s' Hg Hs H.
  - cbn in H. injection H as <-. by rewrite Z.add_0_r.
  - rewrite Nat2Z.inj_succ, seqZ_cons in H by lia. cbn [foldl] in H.
    cbn [mbind option_bind] in H.
    destruct (g m s) as [s1|] eqn:E; [|by rewrite foldl_bind_None in H].
    replace (Z.pred (Z.succ (Z.of_nat n))) with (Z.of_nat n) in H by lia.
    replace (m + Z.of_nat (S n)) with (Z.succ m + Z.of_nat n) by lia.
    eapply IH; [| |exact H].
    + intros i s2 s3 Hi. apply Hg. lia.
    + replace (Z.succ m) with (m + 1) by lia. eapply Hg; [lia|done..].
Qed.

Lemma foldl_for_less {St} (P : Z -> St -> Prop) (g : Z -> St -> option St)
    (n : Z) s s' :
  (forall i s s', 0 <= i < n -> P i s -> g i s = Some s' -> P (i + 1) s') ->
  P 0 s ->
  foldl (fun st i => st ≫= g i) (Some s) (for_less 0 n) = Some s' ->
  P (Z.max 0 n) s'.
Proof.
  intros Hg Hs H. unfold for_less in H. rewrite Z.sub_0_r in H.
  destruct (decide (0 <= n)) as [Hn|Hn].
  - rewrite Z.max_r by done. rewrite <- (Z2Nat.id n) in H by done.
    replace n with (0 + Z.of_nat (Z.to_nat n)) at 1 by lia.
    eapply foldl_for_less_from; [|exact Hs|exact H].
    intros i s1 s2 Hi. apply Hg. lia.
  - rewrite Z.max_l by lia. unfold seqZ in H.
    replace (Z.to_nat n) with 0%nat in H by lia. cbn in H. by injection H as <-.
Qed.

Section Cells.
Variables (indices0 : list Z) (outer inner : Z).
Hypothesis Houter : 0 <= outer < N_DIMENSIONS.
Hypothesis Hinner : 0 <= inner < N_DIMENSIONS.
Hypothesis Hdistinct : outer <> inner.

(** Two samples of a slice have different voxels. *)
Lemma indices_at_inj i k i' k' indices indices' :
  indices_at indices0 outer inner i k indices ->
  indices_at indices0 outer inner i' k' indices' ->
  load indices X = load indices' X ->
  load indices Y = load indices' Y ->
  load indices Z_ = load indices' Z_ ->
  i = i' /\ k = k'.
Proof.
  intros (_ & Ho & Hi & _) (_ & Ho' & Hi' & _) HX HY HZ.
  unfold N_DIMENSIONS, X, Y, Z_ in *.
  assert (Hall : forall j, 0 <= j < 3 -> load indices j = load indices' j).
  { intros j Hj. assert (j = 0 \/ j = 1 \/ j = 2) as [-> | [-> | ->]] by lia;
      done. }
  pose proof (Hall outer Houter) as H1. pose proof (Hall inner Hinner) as H2.
  rewrite Ho, Ho' in H1. rewrite Hi, Hi' in H2. by simplify_eq.
Qed.

(** Storing the sample of row [i] and column [k]. *)
Lemma sample_stored_set_voxel v indices i k x y z r v' :
  indices_at indices0 outer inner i k indices ->
  load indices X = Some x -> load indices Y = Some y ->
  load indices Z_ = Some z ->
  set_voxel v x y z r = Some v' ->
  sample_stored indices0 outer inner v' i k r /\
  forall i' k' r', (i', k') <> (i, k) ->
    sample_stored indices0 outer inner v i' k' r' ->
    sample_stored indices0 outer inner v' i' k' r'.
Proof.
  intros Hat HX HY HZ Hset. apply set_voxel_stored in Hset. split.
  - intros indices' x' y' z' Hat' HX' HY' HZ'. rewrite Hset.
    assert (Hsame : forall j, 0 <= j < 3 -> load indices' j = load indices j).
    { intros j Hj. destruct Hat as (_ & Ho & Hi & Hr).
      destruct Hat' as (_ & Ho' & Hi' & Hr').
      destruct (decide (j = outer)) as [->|?]; [congruence|].
      destruct (decide (j = inner)) as [->|?]; [congruence|].
      by rewrite Hr, Hr'. }
    unfold X, Y, Z_ in *.
    rewrite Hsame in HX', HY', HZ' by lia. simplify_eq.
    apply lookup_insert_eq.
  - intros i' k' r' Hne Hprev indices' x' y' z' Hat' HX' HY' HZ'.
    rewrite Hset, lookup_insert_ne; [by eapply Hprev|].
    intros [= -> -> ->]. apply Hne.
    destruct (indices_at_inj i' k' i k indices' indices Hat' Hat) as [-> ->];
      [congruence..|done].
Qed.

Lemma indices_at_store indices idx i k k' :
  indices_at indices0 outer inner i k indices ->
  store indices inner k' = Some idx ->
  indices_at indices0 outer inner i k' idx.
Proof.
  intros (Hl & Ho & Hi & Hr) Hs.
  apply load_store in Hs as (Hk & Hother & Hlen).
  split; [congruence|]. split; [by rewrite Hother|]. split; [done|].
  intros j Hjo Hji. rewrite Hother by done. by apply Hr.
Qed.

(** The start of a row: [indices[outer] = i], then [*inner_index = 0]. *)
Lemma indices_at_row indices idx1 idx2 i :
  length indices = length indices0 ->
  (forall j, j <> outer -> j <> inner -> load indices j = load indices0 j) ->
  store indices outer i = Some idx1 ->
  store idx1 inner 0 = Some idx2 ->
  indices_at indices0 outer inner i 0 idx2.
Proof.
  intros Hl Hr H1 H2.
  apply load_store in H1 as (Hi & Ho1 & Hl1).
  apply load_store in H2 as (Hk & Ho2 & Hl2).
  split; [congruence|]. split; [by rewrite Ho2|]. split; [done|].
  intros j Hjo Hji. rewrite Ho2, Ho1 by done. by apply Hr.
Qed.

End Cells.

Section FreeSlice.
Variables (quantize : Z -> option Z) (buffer : list Z).
Variables (indices0 : list Z) (outer inner : Z) (size2 : Z).
Hypothesis Houter : 0 <= outer < N_DIMENSIONS.
Hypothesis Hinner : 0 <= inner < N_DIMENSIONS.
Hypothesis Hdistinct : outer <> inner.

Lemma store_row_cells i indices ptr v st' :
  length indices = length indices0 ->
  (forall j, j <> outer -> j <> inner -> load indices j = load indices0 j) ->
  store_row quantize buffer outer inner size2 i (indices, ptr, v) = Some st' ->
  st'.1.2 = ptr + Z.max 0 size2 /\
  length st'.1.1 = length indices0 /\
  (forall j, j <> outer -> j <> inner -> load st'.1.1 j = load indices0 j) /\
  (forall k, 0 <= k < size2 ->
     free_sample_stored quantize buffer indices0 outer inner st'.2 i k
       (ptr + k)) /\
  (forall i' k' r', i' <> i ->
     sample_stored indices0 outer inner v i' k' r' ->
     sample_stored indices0 outer inner st'.2 i' k' r').
Proof.
  intros Hl Hr H. unfold store_row in H.
  destruct (store indices outer i) as [idx1|] eqn:E1; [|done].
  cbn [mbind option_bind] in H.
  destruct (store idx1 inner 0) as [idx2|] eqn:E2; [|done].
  cbn [mbind option_bind] in H.
  pose proof (indices_at_row indices0 outer inner Hdistinct _ _ _ i
                Hl Hr E1 E2) as Hat.
  apply (foldl_for_less
           (fun k (st : list Z * Z * Volume) =>
              indices_at indices0 outer inner i k st.1.1 /\
              st.1.2 = ptr + k /\
              (forall k', 0 <= k' < k ->
                 free_sample_stored quantize buffer indices0 outer inner
                   st.2 i k' (ptr + k')) /\
              (forall i' k' r', i' <> i ->
                 sample_stored indices0 outer inner v i' k' r' ->
                 sample_stored indices0 outer inner st.2 i' k' r'))) in H.
  - destruct st' as [[idx' ptr'] v']. cbn [fst snd] in *.
    destruct H as (Hat' & -> & Hrow & Hprev).
    split; [done|]. destruct Hat' as (Hl' & _ & _ & Hr').
    do 2 (split; [done|]). split; [|done].
    intros k Hk. apply Hrow. lia.
  - clear H. intros k [[idx ptr1] v1] [[idx' ptr'] v'] Hk.
    cbn [fst snd]. intros (Hat1 & -> & Hrow & Hprev) Hs.
    unfold store_sample in Hs.
    destruct (load buffer (ptr + k)) as [raw|] eqn:Eraw; [|done].
    cbn [mbind option_bind] in Hs.
    destruct (quantize raw) as [value|] eqn:Eq; [|done].
    cbn [mbind option_bind] in Hs.
    destruct (load idx X) as [x|] eqn:EX; [|done].
    cbn [mbind option_bind] in Hs.
    destruct (load idx Y) as [y|] eqn:EY; [|done].
    cbn [mbind option_bind] in Hs.
    destruct (load idx Z_) as [z|] eqn:EZ; [|done].
    cbn [mbind option_bind] in Hs.
    destruct (set_voxel v1 x y z (Real_of_int value)) as [v2|] eqn:Eset;
      [|done].
    cbn [mbind option_bind] in Hs.
    destruct (store idx inner (k + 1)) as [idx3|] eqn:Est; [|done].
    cbn [mbind option_bind] in Hs. injection Hs as <- <- <-.
    destruct (sample_stored_set_voxel indices0 outer inner Houter Hinner
                _ _ _ _ _ _ _ _ _ Hat1 EX EY EZ Eset)
      as [Hnew Hkeep].
    split; [by eapply indices_at_store|]. split; [lia|]. split.
    + intros k' Hk'. destruct (decide (k' = k)) as [->|Hne].
      * by exists raw, value.
      * destruct (Hrow k') as (raw' & value' & ? & ? & Hst); [lia|].
        exists raw', value'. do 2 (split; [done|]).
        apply Hkeep; [congruence|done].
    + intros i' k' r' Hi' Hst. apply Hkeep; [congruence|]. by apply Hprev.
  - cbn [fst snd]. split; [done|]. split; [lia|]. split; [intros; lia|done].
Qed.

Lemma store_slice_cells size1 indices v v' :
  length indices = length indices0 ->
  (forall j, j <> outer -> j <> inner -> load indices j = load indices0 j) ->
  store_slice quantize buffer outer inner size1 size2 indices v = Some v' ->
  forall i k, 0 <= i < size1 -> 0 <= k < size2 ->
    free_sample_stored quantize buffer indices0 outer inner v' i k
      (i * size2 + k).
Proof.
  intros Hl Hr H i k Hi Hk. unfold store_slice in H.
  destruct (foldl _ _ _) as [st|] eqn:E; [|done].
  cbn [mbind option_bind] in H. injection H as <-.
  apply (foldl_for_less
           (fun i (st : list Z * Z * Volume) =>
              st.1.2 = i * size2 /\
              length st.1.1 = length indices0 /\
              (forall j, j <> outer -> j <> inner ->
                 load st.1.1 j = load indices0 j) /\
              (forall i' k', 0 <= i' < i -> 0 <= k' < size2 ->
                 free_sample_stored quantize buffer indices0 outer inner
                   st.2 i' k' (i' * size2 + k')))) in E.
  - destruct E as (_ & _ & _ & Hall). apply Hall; lia.
  - clear E. intros i1 [[idx ptr] v1] st2 Hi1. cbn [fst snd].
    intros (-> & Hl1 & Hr1 & Hall) Hrow.
    apply store_row_cells in Hrow as (Hp & Hl2 & Hr2 & Hnew & Hkeep);
      [|done..].
    split; [rewrite Hp; lia|]. do 2 (split; [done|]).
    intros i' k' Hi' Hk'. destruct (decide (i' = i1)) as [->|Hne].
    + by apply Hnew.
    + destruct (Hall i' k') as (raw & value & ? & ? & Hst); [lia|done|].
      exists raw, value. do 2 (split; [done|]). by apply Hkeep.
  - cbn [fst snd]. split; [lia|]. do 2 (split; [done|]). intros; lia.
Qed.

End FreeSlice.

(** The first three file axes go to the three axes of the volume. *)
Lemma axes_permutation (axes : list Z) :
  take 3 axes ≡ₚ [0; 1; 2] ->
  exists a0 a1 a2,
    load axes 0 = Some a0 /\ load axes 1 = Some a1 /\ load axes 2 = Some a2 /\
    a0 <> a1 /\ a0 <> a2 /\ a1 <> a2 /\
    0 <= a0 < 3 /\ 0 <= a1 < 3 /\ 0 <= a2 < 3.
Proof.
  intros Hp.
  destruct axes as [|a0 [|a1 [|a2 rest]]];
    try (apply Permutation_length in Hp; done).
  cbn [take] in Hp.
  assert (Hnodup : NoDup [a0; a1; a2]).
  { rewrite Hp. by apply (bool_decide_unpack _). }
  assert (Hin : forall a, a ∈ [a0; a1; a2] -> 0 <= a < 3).
  { intros a. rewrite Hp. intros Hin.
    repeat (apply elem_of_cons in Hin as [->|Hin]); [lia..|by inversion Hin]. }
  apply NoDup_cons in Hnodup as [N0 Hnodup].
  apply NoDup_cons in Hnodup as [N1 _].
  exists a0, a1, a2. do 3 (split; [done|]).
  split; [intros ->; apply N0; by left|].
  split; [intros ->; apply N0; right; by left|].
  split; [intros ->; apply N1; by left|].
  split; [apply Hin; by left|].
  split; [apply Hin; right; by left|apply Hin; right; right; by left].
Qed.

(** The array [indices] at a sample, for the voxel [(x, y, z)] whose
    coordinates along the axes [a_slice], [a_outer] and [a_inner] are
    [slice], [i] and [k]. *)
Lemma indices_at_voxel (indices : list Z) a_slice a_outer a_inner
    slice i k x y z :
  (3 <= length indices)%nat ->
  a_slice <> a_outer -> a_slice <> a_inner -> a_outer <> a_inner ->
  0 <= a_slice < 3 -> 0 <= a_outer < 3 -> 0 <= a_inner < 3 ->
  load indices a_slice = Some slice ->
  load [x; y; z] a_slice = Some slice ->
  load [x; y; z] a_outer = Some i ->
  load [x; y; z] a_inner = Some k ->
  exists idx,
    indices_at indices a_outer a_inner i k idx /\
    load idx X = Some x /\ load idx Y = Some y /\ load idx Z_ = Some z.
Proof.
  intros Hlen N1 N2 N3 R0 R1 R2 Hs Hx0 Hx1 Hx2.
  destruct (store indices a_outer i) as [idx1|] eqn:E1; cycle 1.
  { exfalso. unfold store in E1. rewrite bool_decide_true in E1 by lia.
    destruct (lookup_lt_is_Some_2 indices (Z.to_nat a_outer)) as [? Hl];
      [lia|]. by rewrite Hl in E1. }
  pose proof E1 as (L1 & O1 & Len1)%load_store.
  destruct (store idx1 a_inner k) as [idx2|] eqn:E2; cycle 1.
  { exfalso. unfold store in E2. rewrite bool_decide_true in E2 by lia.
    destruct (lookup_lt_is_Some_2 idx1 (Z.to_nat a_inner)) as [? Hl];
      [lia|]. by rewrite Hl in E2. }
  pose proof E2 as (L2 & O2 & Len2)%load_store.
  assert (Hat : indices_at indices a_outer a_inner i k idx2).
  { split; [congruence|]. split; [by rewrite O2|]. split; [done|].
    intros j ? ?. by rewrite O2, O1. }
  exists idx2. split; [done|].
  assert (Hall : forall j, 0 <= j < 3 -> load idx2 j = load [x; y; z] j).
  { intros j Hj. destruct Hat as (_ & Ho & Hi & Hr).
    destruct (decide (j = a_inner)) as [->|?]; [congruence|].
    destruct (decide (j = a_outer)) as [->|?]; [congruence|].
    assert (j = a_slice) as -> by lia. rewrite Hr by done. congruence. }
  unfold X, Y, Z_. rewrite !Hall by lia. done.
Qed.

(** A slice that is read is read before its samples are stored: the status
    of [input_slice] is that of the read within the loader. *)
Lemma input_slice_OK_more vi w vi1 w1 :
  input_slice vi w = Some ((OK, vi1), w1) ->
  exists size0, load (sizes_in_file vi) 0 = Some size0 /\
                slice_index vi < size0 /\
                slice_index vi1 = slice_index vi + 1.
Proof.
  intros H. pose proof H as (_ & _ & _ & size0 & Hs & Hi)%input_slice_frame.
  exists size0. split; [done|].
  unfold input_slice in H. io_step H. simplify_eq.
  case_bool_decide as Hlt; [done|apply ret_Some in H; by simplify_eq].
Qed.

(** What a call of the free-format loader that reads its slice stores:
    each sample of the slice buffer, quantized, at the voxel whose
    coordinates along the volume axes of the three file axes are the slice,
    the row and the column of the sample. *)
Lemma input_more_slice_cells v vi w vi1 w1 v' vi' lo hi w' a0 a1 a2
    size1 size2 buffer :
  data_type v <> file_data_type vi ->
  input_slice vi w = Some ((OK, vi1), w1) ->
  input_more_slice v vi w = Some ((v', vi', lo, hi), w') ->
  take 3 (axis_index_from_file vi) ≡ₚ [0; 1; 2] ->
  load (axis_index_from_file vi) 0 = Some a0 ->
  load (axis_index_from_file vi) 1 = Some a1 ->
  load (axis_index_from_file vi) 2 = Some a2 ->
  load (sizes_in_file vi) 1 = Some size1 ->
  load (sizes_in_file vi) 2 = Some size2 ->
  slice_samples vi' = Some buffer ->
  forall i k x y z,
    0 <= i < size1 -> 0 <= k < size2 ->
    load [x; y; z] a0 = Some (slice_index vi) ->
    load [x; y; z] a1 = Some i ->
    load [x; y; z] a2 = Some k ->
    exists raw q,
      load buffer (i * size2 + k) = Some raw /\
      Rtrunc (scaled v (Real_of_int raw)) = Some q /\
      stored v' !! (x, y, z) =
        Some (Real_of_int (free_stored_value (file_data_type vi) q)).
Proof.
  intros Ht Hread H Hperm Ha0 Ha1 Ha2 Hs1 Hs2 Hbuf i k x y z Hi Hk Hx0 Hx1 Hx2.
  destruct (axes_permutation _ Hperm)
    as (b0 & b1 & b2 & Hb0 & Hb1 & Hb2 & N01 & N02 & N12 & R0 & R1 & R2).
  rewrite Ha0 in Hb0. rewrite Ha1 in Hb1. rewrite Ha2 in Hb2.
  injection Hb0 as <-. injection Hb1 as <-. injection Hb2 as <-.
  destruct (input_slice_OK_more _ _ _ _ Hread) as (size0 & Hs0 & Hlt & Hidx).
  pose proof Hread as (Hsz & Hax & Hft & _)%input_slice_frame.
  unfold input_more_slice in H. io_step H. io_step H. simplify_eq.
  rewrite bool_decide_true in H by done.
  apply bind_Some in H as ([status vi2] & w2 & Eread & H).
  set (v1 := if volume_is_alloced v then v else alloc_volume_data v) in *.
  assert (Hv1 : data_type v1 = data_type v /\
                voxel_min v1 = voxel_min v /\ voxel_max v1 = voxel_max v).
  { subst v1. by destruct (volume_is_alloced v). }
  destruct Hv1 as (Hdt & Hlo & Hhi). clearbody v1.
  rewrite Hread in Eread. injection Eread as <- <- <-.
  rewrite bool_decide_true in H by congruence.
  cbv beta iota zeta in H. rewrite Hlo, Hhi in H.
  rewrite Hax, Hsz in H. io_step H. io_step H. io_step H. simplify_eq.
  rewrite decide_True in H by done.
  io_inv H. simplify_eq.
  match goal with
  | Hst : store _ ?s (slice_index vi1 - 1) = Some ?idx,
    Hin : load [x; y; z] ?c = Some k |- _ =>
      rename Hst into Hstore; rename idx into indices;
      rename s into b0; rename c into b2
  end.
  pose proof Hstore as (Lslice & _ & Hlen)%load_store.
  rewrite length_map, length_seq in Hlen.
  replace (slice_index vi1 - 1) with (slice_index vi) in Lslice by lia.
  destruct (indices_at_voxel indices b0 a1 b2 (slice_index vi) i k x y z)
    as (idx & Hat & HX & HY & HZ); try done; [lia|].
  unfold slice_samples in Hbuf. rewrite Hft in *.
  match goal with
  | Hm : bind _ _ _ = Some _ |- _ => rename Hm into Hstored
  end.
  io_step Hstored. io_step Hstored. io_step Hstored. simplify_eq.
  destruct (file_data_type vi) eqn:Etype; try done; io_inv Hstored;
    simplify_eq.
  - match goal with
    | Hst : store_slice _ _ _ _ _ _ _ _ = Some _ |- _ =>
        eapply (store_slice_cells _ _ indices) in Hst
          as (raw & value & Hraw & Hq & Hcell); [|done..|exact Hi|exact Hk]
    end.
    apply byte_value_spec in Hq as (q & Hq & ->).
    exists raw, q. do 2 (split; [done|]). by eapply Hcell.
  - match goal with
    | Hst : store_slice _ _ _ _ _ _ _ _ = Some _ |- _ =>
        eapply (store_slice_cells _ _ indices) in Hst
          as (raw & value & Hraw & Hq & Hcell); [|done..|exact Hi|exact Hk]
    end.
    apply short_value_spec in Hq.
    exists raw, value. do 2 (split; [done|]). by eapply Hcell.
Qed.

Lemma mgh_sample_inv big t to_real buffer ptr value s ptr' :
  mgh_sample_type t = true ->
  mgh_sample big t to_real buffer ptr value = Some (s, ptr') ->
  0 <= ptr /\ ptr + get_type_size t <= Z.of_nat (length buffer) /\
  network_sample t to_real buffer ptr = Some s /\
  ptr' = ptr + get_type_size t.
Proof.
  intros Ht H.
  assert (Hb : 0 <= ptr /\ ptr + get_type_size t <= Z.of_nat (length buffer)).
  { unfold mgh_sample in H.
    destruct t; try discriminate Ht; cbn [get_type_size];
      case_bool_decide; done. }
  destruct Hb as [Hp Hb]. do 2 (split; [done|]).
  assert (Hx : exists x, network_sample t to_real buffer ptr = Some x)
    by (destruct t; try discriminate Ht; by eexists).
  destruct Hx as [x Hx].
  rewrite (mgh_sample_network big t to_real buffer ptr value x Hp Hb Hx) in H.
  by simplify_eq.
Qed.

Section MghSlice.
Variables (big : bool) (t : Data_types) (tr sc : Real) (buffer : list byte).
Variables (indices0 : list Z) (outer inner : Z) (size0 : Z).
Hypothesis Htype : mgh_sample_type t = true.
Hypothesis Houter : 0 <= outer < N_DIMENSIONS.
Hypothesis Hinner : 0 <= inner < N_DIMENSIONS.
Hypothesis Hdistinct : outer <> inner.

Lemma mgh_store_row_cells i indices ptr value in_ptr v st' :
  length indices = length indices0 ->
  (forall j, j <> outer -> j <> inner -> load indices j = load indices0 j) ->
  mgh_store_row big t tr sc buffer outer inner size0 i
    (indices, ptr, value, in_ptr, v) = Some st' ->
  st'.1.1.1.2 = ptr + Z.max 0 size0 * get_type_size t /\
  length st'.1.1.1.1 = length indices0 /\
  (forall j, j <> outer -> j <> inner ->
     load st'.1.1.1.1 j = load indices0 j) /\
  (forall k, 0 <= k < size0 ->
     mgh_sample_stored t tr sc buffer indices0 outer inner st'.2 i k
       (ptr + k * get_type_size t)) /\
  (forall i' k' r', i' <> i ->
     sample_stored indices0 outer inner v i' k' r' ->
     sample_stored indices0 outer inner st'.2 i' k' r').
Proof.
  intros Hl Hr H. unfold mgh_store_row in H.
  destruct (store indices outer i) as [idx1|] eqn:E1; [|done].
  cbn [mbind option_bind] in H.
  destruct (store idx1 inner 0) as [idx2|] eqn:E2; [|done].
  cbn [mbind option_bind] in H.
  pose proof (indices_at_row indices0 outer inner Hdistinct _ _ _ i
                Hl Hr E1 E2) as Hat.
  apply (foldl_for_less
           (fun k (st : list Z * Z * Real * volume_input_struct * Volume) =>
              indices_at indices0 outer inner i k st.1.1.1.1 /\
              st.1.1.1.2 = ptr + k * get_type_size t /\
              (forall k', 0 <= k' < k ->
                 mgh_sample_stored t tr sc buffer indices0 outer inner st.2
                   i k' (ptr + k' * get_type_size t)) /\
              (forall i' k' r', i' <> i ->
                 sample_stored indices0 outer inner v i' k' r' ->
                 sample_stored indices0 outer inner st.2 i' k' r'))) in H.
  - destruct st' as [[[[idx' ptr'] value'] p'] v']. cbn [fst snd] in *.
    destruct H as (Hat' & -> & Hrow & Hprev).
    split; [done|]. destruct Hat' as (Hl' & _ & _ & Hr').
    do 2 (split; [done|]). split; [|done].
    intros k Hk. apply Hrow. lia.
  - clear H. intros k [[[[idx ptr1] val1] p1] v1] [[[[idx' ptr'] val'] p'] v'] Hk.
    cbn [fst snd]. intros (Hat1 & -> & Hrow & Hprev) Hs.
    unfold mgh_store_sample in Hs.
    destruct (mgh_sample _ _ _ _ _ _) as [[s ptr2]|] eqn:Es; [|done].
    cbn [mbind option_bind] in Hs.
    apply (mgh_sample_inv _ _ _ _ _ _ _ _ Htype) in Es
      as (Hp & Hb & Hnet & ->).
    set (r := Rdiv (Rsub s tr) sc) in *.
    set (q1 := if Rgt r (max_value p1) then _ else _) in *.
    set (q2 := if Rlt r (min_value q1) then _ else _) in *. clearbody q2.
    destruct (load idx X) as [x|] eqn:EX; [|done].
    cbn [mbind option_bind] in Hs.
    destruct (load idx Y) as [y|] eqn:EY; [|done].
    cbn [mbind option_bind] in Hs.
    destruct (load idx Z_) as [z|] eqn:EZ; [|done].
    cbn [mbind option_bind] in Hs.
    destruct (set_voxel v1 x y z r) as [v2|] eqn:Eset; [|done].
    cbn [mbind option_bind] in Hs.
    destruct (store idx inner (k + 1)) as [idx3|] eqn:Est; [|done].
    cbn [mbind option_bind] in Hs. injection Hs as <- <- <- <- <-.
    destruct (sample_stored_set_voxel indices0 outer inner Houter Hinner
                _ _ _ _ _ _ _ _ _ Hat1 EX EY EZ Eset)
      as [Hnew Hkeep].
    split; [by eapply indices_at_store|]. split; [lia|]. split.
    + intros k' Hk'. destruct (decide (k' = k)) as [->|Hne].
      * by exists s.
      * destruct (Hrow k') as (s' & ? & ? & ? & Hst); [lia|].
        exists s'. do 3 (split; [done|]).
        apply Hkeep; [congruence|done].
    + intros i' k' r' Hi' Hst. apply Hkeep; [congruence|]. by apply Hprev.
  - cbn [fst snd]. split; [done|]. split; [lia|]. split; [intros; lia|done].
Qed.

Lemma mgh_store_rows_cells size1 indices value in_ptr v st' :
  length indices = length indices0 ->
  (forall j, j <> outer -> j <> inner -> load indices j = load indices0 j) ->
  foldl (fun st i =>
           st ≫= mgh_store_row big t tr sc buffer outer inner size0 i)
        (Some (indices, 0, value, in_ptr, v)) (for_less 0 size1) = Some st' ->
  forall i k, 0 <= i < size1 -> 0 <= k < size0 ->
    mgh_sample_stored t tr sc buffer indices0 outer inner st'.2 i k
      ((i * size0 + k) * get_type_size t).
Proof.
  intros Hl Hr E i k Hi Hk.
  apply (foldl_for_less
           (fun i (st : list Z * Z * Real * volume_input_struct * Volume) =>
              st.1.1.1.2 = i * size0 * get_type_size t /\
              length st.1.1.1.1 = length indices0 /\
              (forall j, j <> outer -> j <> inner ->
                 load st.1.1.1.1 j = load indices0 j) /\
              (forall i' k', 0 <= i' < i -> 0 <= k' < size0 ->
                 mgh_sample_stored t tr sc buffer indices0 outer inner st.2
                   i' k' ((i' * size0 + k') * get_type_size t)))) in E.
  - destruct E as (_ & _ & _ & Hall). apply Hall; lia.
  - clear E. intros i1 [[[[idx ptr] val] p1] v1] st2 Hi1. cbn [fst snd].
    intros (-> & Hl1 & Hr1 & Hall) Hrow.
    apply mgh_store_row_cells in Hrow as (Hp & Hl2 & Hr2 & Hnew & Hkeep);
      [|done..].
    split; [rewrite Hp; lia|]. do 2 (split; [done|]).
    intros i' k' Hi' Hk'. destruct (decide (i' = i1)) as [->|Hne].
    + replace ((i1 * size0 + k') * get_type_size t)
        with (i1 * size0 * get_type_size t + k' * get_type_size t) by lia.
      by apply Hnew.
    + destruct (Hall i' k') as (s & ? & ? & ? & Hst); [lia|done|].
      exists s. do 3 (split; [done|]). by apply Hkeep.
  - cbn [fst snd]. split; [lia|]. do 2 (split; [done|]). intros; lia.
Qed.

End MghSlice.

Lemma input_next_slice_OK_more in_ptr w p1 w1 :
  input_next_slice in_ptr w = Some ((OK, p1), w1) ->
  exists size2, load (sizes_in_file in_ptr) 2 = Some size2 /\
                slice_index in_ptr < size2 /\
                slice_index p1 = slice_index in_ptr + 1.
Proof.
  unfold input_next_slice. intros H. io_step H.
  case_bool_decide as Hge; [io_step H; by simplify_eq|].
  io_inv H. case_bool_decide; [|by io_step H]. io_inv H.
  case_bool_decide; io_step H; simplify_eq.
  eexists. split; [done|]. cbn. lia.
Qed.

(** What a call of the MGH loader that reads its slice stores: the quotient
    of each sample of the slice buffer, at the voxel whose coordinates along
    the volume axes of the three file axes are the column, the row and the
    slice of the sample. *)
Lemma input_more_mgh_slice_cells c v vi w p1 w1 v' vi' lo hi w' a0 a1 a2
    size0 size1 buffer :
  data_type v <> file_data_type vi ->
  mgh_sample_type (file_data_type vi) = true ->
  input_next_slice vi w = Some ((OK, p1), w1) ->
  input_more_mgh_slice c v vi w = Some (Some (v', vi', lo, hi), w') ->
  take 3 (axis_index_from_file vi) ≡ₚ [0; 1; 2] ->
  load (axis_index_from_file vi) 0 = Some a0 ->
  load (axis_index_from_file vi) 1 = Some a1 ->
  load (axis_index_from_file vi) 2 = Some a2 ->
  load (sizes_in_file vi) 0 = Some size0 ->
  load (sizes_in_file vi) 1 = Some size1 ->
  byte_slice_buffer p1 = Some buffer ->
  forall i k x y z,
    0 <= i < size1 -> 0 <= k < size0 ->
    load [x; y; z] a2 = Some (slice_index vi) ->
    load [x; y; z] a1 = Some i ->
    load [x; y; z] a0 = Some k ->
    exists s,
      network_sample (file_data_type vi) true buffer
        ((i * size0 + k) * get_type_size (file_data_type vi)) = Some s /\
      stored v' !! (x, y, z) = Some (scaled v s).
Proof.
  intros Ht Htype Hread H Hperm Ha0 Ha1 Ha2 Hs0 Hs1 Hbuf i k x y z Hi Hk
    Hx2 Hx1 Hx0.
  destruct (axes_permutation _ Hperm)
    as (b0 & b1 & b2 & Hb0 & Hb1 & Hb2 & N01 & N02 & N12 & R0 & R1 & R2).
  rewrite Ha0 in Hb0. rewrite Ha1 in Hb1. rewrite Ha2 in Hb2.
  injection Hb0 as <-. injection Hb1 as <-. injection Hb2 as <-.
  destruct (input_next_slice_OK_more _ _ _ _ Hread)
    as (size2 & Hs2 & Hlt & Hidx).
  pose proof Hread as (Hsz & Hax & Hft & _)%input_next_slice_frame.
  unfold input_more_mgh_slice in H. io_step H. io_step H. simplify_eq.
  rewrite bool_decide_true in H by done.
  set (v1 := if volume_is_alloced v then v else _) in *.
  assert (Hv1 : data_type v1 = data_type v /\
                voxel_min v1 = voxel_min v /\ voxel_max v1 = voxel_max v).
  { subst v1. destruct (volume_is_alloced v); [done|]. by destruct c. }
  destruct Hv1 as (Hdt & Hlo & Hhi). clearbody v1.
  destruct (negb (volume_is_alloced v1)); [by io_step H|].
  apply bind_Some in H as ([status p2] & w2 & Eread & H).
  rewrite Hread in Eread. injection Eread as <- <- <-.
  destruct (decide (data_type v1 <> file_data_type p1)) as [_|Hn];
    [|exfalso; apply Hn; congruence].
  cbv beta iota zeta in H. rewrite Hlo, Hhi in H.
  rewrite Hax, Hsz, Hft in H. io_step H. io_step H. io_step H. simplify_eq.
  rewrite decide_True in H by done.
  match goal with
  | Hst : store _ ?s (slice_index p1 - 1) = Some ?idx,
    Hin : load [x; y; z] ?c = Some k |- _ =>
      rename Hst into Hstore; rename idx into indices;
      rename s into b2; rename c into b0
  end.
  pose proof Hstore as (Lslice & _ & Hlen)%load_store.
  rewrite length_map, length_seq in Hlen.
  replace (slice_index p1 - 1) with (slice_index vi) in Lslice by lia.
  destruct (indices_at_voxel indices b2 a1 b0 (slice_index vi) i k x y z)
    as (idx & Hat & HX & HY & HZ); try done; [lia|].
  io_inv H. simplify_eq.
  match goal with
  | Hm : bind _ _ _ = Some _ |- _ => rename Hm into Hstored
  end.
  io_inv Hstored. simplify_eq.
  match goal with
  | Hst : foldl _ (Some _) _ = Some ?st |- _ =>
      eapply (mgh_store_rows_cells _ _ _ _ _ indices) in Hst
        as (s & _ & _ & Hnet & Hcell); [|done..|exact Hi|exact Hk]
  end.
  exists s. split; [done|]. by eapply Hcell.
Qed.




(** ** Reading from a stream of bytes *)

Lemma chunks_full size n bs :
  length (chunks size n bs) = n ->
  (size * n <= length bs)%nat /\
  concat (chunks size n bs) = take (size * n) bs /\
  Forall (fun el => length el = size) (chunks size n bs).
Proof.
  revert bs. induction n as [|n IH]; intros bs; cbn [chunks].
  - intros _. rewrite Nat.mul_0_r, take_0. split; [lia|]. by split.
  - case_bool_decide as Hs; [|done]. cbn [length]. intros [= Hn].
    destruct (IH _ Hn) as (Hle & Hc & Hf). rewrite length_drop in Hle.
    split; [lia|]. split.
    + cbn [concat]. rewrite Hc.
      replace (size * S n)%nat with (size + size * n)%nat by lia.
      by rewrite take_take_drop.
    + constructor; [|done]. rewrite length_take. lia.
Qed.

(** A read of [n] elements that is complete: the stream held them, the
    elements are the next [size * n] bytes, and the position moves past
    them. Nothing else changes. *)
Lemma znzread_all_Some fp size n w els w' :
  0 < n ->
  znzread_all fp size n w = Some (Some els, w') ->
  exists bytes pos,
    streams w !! fp = Some (ByteStream bytes pos) /\
    0 <= pos /\ 0 < size /\
    pos + size * n <= Z.of_nat (length bytes) /\
    Z.of_nat (length els) = n /\
    Forall (fun el => length el = Z.to_nat size) els /\
    concat els = take (Z.to_nat (size * n)) (drop (Z.to_nat pos) bytes) /\
    w' = with_streams w (<[fp := ByteStream bytes (pos + size * n)]> (streams w))
                      (next_FILE w).
Proof.
  intros Hn. unfold znzread_all, bind, read_elements, ret.
  destruct (streams w !! fp) as [[rest|bytes pos]|] eqn:Hfp; [| |done].
  - cbn. case_bool_decide; [|done]. cbn in *. lia.
  - case_bool_decide as Hb; [|done]. destruct Hb as (_ & Hsize & Hpos).
    set (els0 := chunks _ _ _). case_bool_decide as Hl; [|done].
    intros [= <- <-]. exists bytes, pos.
    assert (Hl' : length els0 = Z.to_nat n) by lia.
    destruct (chunks_full _ _ _ Hl') as (Hle & Hc & Hf).
    rewrite length_drop in Hle. fold els0 in Hc, Hf.
    do 3 (split; [done|]). split; [nia|]. split; [done|]. split; [done|].
    split; [rewrite Hc; f_equal; nia|]. rewrite Hl. done.
Qed.

Lemma moved_to_streams w fp bytes pos :
  streams (moved_to w fp bytes pos) !! fp = Some (ByteStream bytes pos).
Proof. cbn. apply lookup_insert_eq. Qed.

Lemma moved_to_twice w fp bytes pos bytes' pos' :
  moved_to (moved_to w fp bytes pos) fp bytes' pos' = moved_to w fp bytes' pos'.
Proof. unfold moved_to, with_streams. cbn. by rewrite insert_insert_eq. Qed.

(** A complete read from a stream that stands at [pos]. *)
Lemma znzread_all_moved fp size n w bytes pos els w' :
  0 < n ->
  streams w !! fp = Some (ByteStream bytes pos) ->
  znzread_all fp size n w = Some (Some els, w') ->
  0 <= pos /\ 0 < size /\
  pos + size * n <= Z.of_nat (length bytes) /\
  Z.of_nat (length els) = n /\
  Forall (fun el => length el = Z.to_nat size) els /\
  concat els = take (Z.to_nat (size * n)) (drop (Z.to_nat pos) bytes) /\
  w' = moved_to w fp bytes (pos + size * n).
Proof.
  intros Hn Hfp H.
  apply znzread_all_Some in H as (b & p & Hfp' & H); [|done].
  rewrite Hfp in Hfp'. by injection Hfp' as <- <-.
Qed.

Lemma els_lookup size (els : list (list byte)) :
  Forall (fun el => length el = size) els ->
  forall k el, els !! k = Some el ->
    el = take size (drop (k * size) (concat els)).
Proof.
  induction 1 as [|el0 els Hel0 _ IH]; intros k el; [done|].
  destruct k as [|k]; cbn [lookup list_lookup concat].
  - intros [= <-]. by rewrite Nat.mul_0_l, drop_0, take_app_length'.
  - intros Hk. rewrite (IH _ _ Hk).
    replace (S k * size)%nat with (length el0 + k * size)%nat by lia.
    by rewrite drop_app_add.
Qed.

Lemma take_drop_take {A} (l : list A) n m k :
  (m + n <= k)%nat -> take n (drop m (take k l)) = take n (drop m l).
Proof.
  intros H. apply list_eq. intros i.
  destruct (decide (i < n)%nat) as [Hi|Hi].
  - rewrite !lookup_take_lt, !lookup_drop, lookup_take_lt by lia. done.
  - by rewrite !lookup_take_ge by lia.
Qed.

(** The elements of a complete read, one by one. *)
Lemma els_at size n (els : list (list byte)) bytes pos :
  0 <= pos -> (0 < size)%nat ->
  Forall (fun el => length el = size) els ->
  length els = n ->
  concat els = take (size * n) (drop (Z.to_nat pos) bytes) ->
  els = map (fun k => take size (drop (Z.to_nat (pos + Z.of_nat size * k)) bytes))
            (seqZ 0 (Z.of_nat n)).
Proof.
  intros Hpos Hsize Hf Hn Hc. apply list_eq. intros i.
  rewrite list_lookup_fmap.
  destruct (decide (i < n)%nat) as [Hi|Hi].
  - rewrite lookup_seqZ_lt by lia. cbn [fmap option_fmap option_map].
    destruct (lookup_lt_is_Some_2 els i ltac:(lia)) as [el Hel].
    rewrite Hel. f_equal. rewrite (els_lookup _ _ Hf _ _ Hel), Hc.
    rewrite take_drop_take by nia. rewrite drop_drop. do 2 f_equal. lia.
  - rewrite lookup_seqZ_ge by lia. cbn. apply lookup_ge_None. lia.
Qed.

(** The 32-bit fields of a complete read, on either host. *)
Lemma ntohl_els big n (els : list (list byte)) bytes pos :
  0 <= pos -> 0 <= n -> pos + 4 * n <= Z.of_nat (length bytes) ->
  Forall (fun el => length el = Z.to_nat 4) els ->
  Z.of_nat (length els) = n ->
  concat els = take (Z.to_nat (4 * n)) (drop (Z.to_nat pos) bytes) ->
  map (fun b => ntohl big (host_val big b)) els =
  map (fun k => be_at 4 bytes (pos + 4 * k)) (seqZ 0 n).
Proof.
  intros Hpos Hn Hle Hf Hl Hc.
  rewrite (els_at 4 (Z.to_nat n) els bytes pos); [|done|lia|done|lia|].
  2: { rewrite Hc. f_equal. lia. }
  rewrite <- list_fmap_compose, Z2Nat.id by lia.
  apply list_fmap_ext. intros i k Hk. apply lookup_seqZ in Hk as [-> Hi].
  cbn [compose]. unfold be_at. rewrite ntohl_host_val.
  - repeat (f_equal; try lia).
  - rewrite length_take, length_drop. lia.
Qed.

Lemma ntohl_el big (els : list (list byte)) bytes pos :
  0 <= pos -> pos + 4 <= Z.of_nat (length bytes) ->
  concat els = take (Z.to_nat (4 * 1)) (drop (Z.to_nat pos) bytes) ->
  ntohl big (host_val big (concat els)) = be_at 4 bytes pos.
Proof.
  intros Hpos Hle ->. unfold be_at. rewrite ntohl_host_val; [done|].
  rewrite length_take, length_drop. lia.
Qed.

Lemma ntohs_el big (els : list (list byte)) bytes pos :
  0 <= pos -> pos + 2 <= Z.of_nat (length bytes) ->
  concat els = take (Z.to_nat (2 * 1)) (drop (Z.to_nat pos) bytes) ->
  ntohs big (host_val big (concat els)) = be_at 2 bytes pos.
Proof.
  intros Hpos Hle ->. unfold be_at. rewrite ntohs_host_val; [done|].
  rewrite length_take, length_drop. lia.
Qed.

(** One read of the header: the elements, or the early return. *)
Ltac header_read H els Hle Hlen Hf Hc :=
  let E := fresh "E" in let E' := fresh "R" in let w := fresh "w" in
  apply bind_Some in H as (els & w & E & H);
  destruct els as [els|]; [|by apply ret_Some in H];
  pose proof (fun Hn => znzread_all_moved _ _ _ _ _ _ _ _ Hn
                          (moved_to_streams _ _ _ _) E) as E';
  specialize (E' ltac:(by vm_compute)); clear E;
  destruct E' as (_ & _ & Hle & Hlen & Hf & Hc & ->);
  rewrite moved_to_twice in H.

Lemma mgh_header_from_file_inv fp w hdr w' :
  mgh_header_from_file fp w = Some (Some hdr, w') -> header_read fp w hdr w'.
Proof.
  unfold mgh_header_from_file. intros H.
  io_step H.
  apply bind_Some in H as (els & w1 & E & H).
  destruct els as [els|]; [|by apply ret_Some in H].
  apply znzread_all_Some in E
    as (bytes & pos & Hfp & Hpos & _ & Hv & Hlv & Hfv & Hcv & ->); [|done].
  exists bytes, pos.
  fold (moved_to w fp bytes (pos + 4 * 1)) in H.
  header_read H sz Hs Hls Hfs Hcs.
  header_read H ty Ht Hlt Hft Hct.
  header_read H df Hd Hld Hfd Hcd.
  header_read H gf Hg Hlg Hfg Hcg.
  header_read H sp Hp Hlp Hfp' Hcp.
  header_read H dc Hdc Hldc Hfdc Hcdc.
  header_read H xt Hx Hlx Hfx Hcx.
  unfold MGH_N_XFORM in *.
  unfold MGH_MAX_DIMS, MGH_N_SPATIAL, MGH_N_COMPONENTS,
    MGH_EXTRA_SIZE, N_DIMENSIONS, MGH_HEADER_SIZE in *.
  split; [done|]. split; [done|]. split; [lia|].
  set (big := big_endian w) in *.
  assert (Hfields : forall sp' dc',
    header_fields bytes pos
      {| version := to_int (ntohl big (host_val big (concat els)));
         hdr_sizes := map (fun b => to_int (ntohl big (host_val big b))) sz;
         type := to_int (ntohl big (host_val big (concat ty)));
         dof := to_int (ntohl big (host_val big (concat df)));
         goodRASflag := to_short (ntohs big (host_val big (concat gf)));
         spacing := sp'; dircos := dc' |}).
  { intros sp' dc'. unfold header_fields, int_at, short_at. cbn.
    rewrite (ntohl_el big els bytes pos) by (done || lia).
    rewrite (ntohl_el big ty bytes (pos + 20))
      by (try lia; rewrite Hct; do 2 f_equal; lia).
    rewrite (ntohl_el big df bytes (pos + 24))
      by (try lia; rewrite Hcd; do 2 f_equal; lia).
    rewrite (ntohs_el big gf bytes (pos + 28))
      by (try lia; rewrite Hcg; do 2 f_equal; lia).
    split; [done|]. split; [|done].
    transitivity (map to_int (map (fun b => ntohl big (host_val big b)) sz));
      [by rewrite <- list_fmap_compose|].
    rewrite (ntohl_els big 4 sz bytes (pos + 4)) by (done || lia).
    by rewrite <- list_fmap_compose. }
  destruct (decide (_ ≠ 1)) as [|Hone]; [by apply ret_Some in H|].
  apply dec_stable in Hone.
  destruct (decide (_ ≠ 0)) as [Hflag|Hflag].
  - apply ret_Some in H. injection H as -> ->.
    split; [f_equal; lia|]. split; [done|]. split; [apply Hfields|].
    split; [|done]. intros _. unfold header_geometry, float_at.
    cbn [spacing dircos].
    unfold swapFloat.
    split.
    + transitivity (map float_of_bits
                      (map (fun b => ntohl big (host_val big b)) sp));
        [by rewrite <- list_fmap_compose|].
      rewrite (ntohl_els big 3 sp bytes (pos + 30))
        by first [done|lia|rewrite Hcp; repeat (f_equal; try lia)].
      by rewrite <- list_fmap_compose.
    + apply (f_equal (rows 4 3)).
      transitivity (map float_of_bits
                      (map (fun b => ntohl big (host_val big b)) dc));
        [by rewrite <- list_fmap_compose|].
      rewrite (ntohl_els big 12 dc bytes (pos + 42))
        by first [done|lia|rewrite Hcdc; repeat (f_equal; try lia)].
      by rewrite <- list_fmap_compose.
  - io_step H.
    match type of E with _ = Some ?x => destruct x as [spacing1 dircos1] end.
    apply ret_Some in H. injection H as -> ->.
    split; [f_equal; lia|]. split; [done|]. split; [apply Hfields|].
    apply dec_stable in Hflag.
    split; [done|]. intros _. cbn.
    assert (Hl : length dc = 12%nat) by lia.
    assert (Hl3 : length sp = 3%nat) by lia. clear - Hl Hl3 E.
    destruct dc as [|? [|? [|? [|? [|? [|? [|? [|? [|? [|? [|? [|? [|? ?]]]]]]]]]]]]];
      try done.
    destruct sp as [|? [|? [|? [|? ?]]]]; try done.
    vm_compute in E. injection E as <- <-. done.
Qed.

(** X2. The header of an MGH file, when it is read successfully: the stream
    held its 284 bytes and stands after them, nothing else changes in the
    world; the version is 1; the sizes, the type, the degrees of freedom
    and the flag are the big-endian integers at their offsets, on either
    host; and when the flag is not zero, the spacings and the direction
    cosines are the big-endian floats at the offsets 30 and 42. *)
Theorem mgh_header_layout (fp : Z) (w : World) (hdr : mgh_header) (w' : World) :
  mgh_header_from_file fp w = Some (Some hdr, w') ->
  exists bytes pos,
    streams w !! fp = Some (ByteStream bytes pos) /\
    0 <= pos /\ pos + MGH_HEADER_SIZE <= Z.of_nat (length bytes) /\
    w' = moved_to w fp bytes (pos + MGH_HEADER_SIZE) /\
    version hdr = 1 /\
    header_fields bytes pos hdr /\
    (goodRASflag hdr <> 0 -> header_geometry bytes pos hdr).
Proof.
  intros H. apply mgh_header_from_file_inv in H
    as (bytes & pos & Hfp & Hpos & Hle & Hw & Hv & Hf & Hg & _).
  by exists bytes, pos.
Qed.

Lemma mgh_header_layout_witness :
  exists hdr w',
    mgh_header_from_file 1 (opened "flat.mgh" constant_mgh_world) =
      Some (Some hdr, w') /\
    exists bytes pos,
      streams (opened "flat.mgh" constant_mgh_world) !! 1 =
        Some (ByteStream bytes pos) /\
      0 <= pos /\ pos + MGH_HEADER_SIZE <= Z.of_nat (length bytes) /\
      w' = moved_to (opened "flat.mgh" constant_mgh_world) 1 bytes
             (pos + MGH_HEADER_SIZE) /\
      version hdr = 1 /\
      header_fields bytes pos hdr /\
      (goodRASflag hdr <> 0 -> header_geometry bytes pos hdr).
Proof.
  eexists _, _.
  match goal with
  | |- ?h1 /\ _ => assert (H1 : h1) by (vm_compute; reflexivity)
  end.
  split; [exact H1|]. exact (mgh_header_layout _ _ _ _ H1).
Defined.

(** X3. When the flag of the header is zero, the spacings and the direction
    cosines of the file are not used, whatever they are: the spacing is 1
    along each axis and the orientation is coronal, so that the file axes
    are mapped to X, Z and Y. *)
Theorem mgh_header_defaults (fp : Z) (w : World) (hdr : mgh_header) (w' : World) :
  mgh_header_from_file fp w = Some (Some hdr, w') ->
  goodRASflag hdr = 0 ->
  spacing hdr = coronal_spacing /\ dircos hdr = coronal_dircos /\
  spatial_axis_of hdr 0 = Some X /\
  spatial_axis_of hdr 1 = Some Z_ /\
  spatial_axis_of hdr 2 = Some Y.
Proof.
  intros H Hflag. apply mgh_header_from_file_inv in H
    as (bytes & pos & _ & _ & _ & _ & _ & _ & _ & Hd).
  destruct (Hd Hflag) as [Hs Hdc]. do 2 (split; [done|]).
  unfold spatial_axis_of. rewrite Hdc. by vm_compute.
Qed.

Lemma mgh_header_defaults_witness :
  exists hdr w',
    mgh_header_from_file 1 (opened "plain.mgh" plain_mgh_world) =
      Some (Some hdr, w') /\
    goodRASflag hdr = 0 /\
    spacing hdr = coronal_spacing /\ dircos hdr = coronal_dircos /\
    spatial_axis_of hdr 0 = Some X /\
    spatial_axis_of hdr 1 = Some Z_ /\
    spatial_axis_of hdr 2 = Some Y.
Proof.
  eexists _, _.
  match goal with
  | |- ?h1 /\ ?h2 /\ _ =>
      assert (H1 : h1) by (vm_compute; reflexivity);
      assert (H2 : h2) by (by vm_compute)
  end.
  split; [exact H1|]. split; [exact H2|].
  exact (mgh_header_defaults _ _ _ _ H1 H2).
Defined.

(** ** When the header can be read *)

Lemma chunks_enough size n bs :
  (size * n <= length bs)%nat -> length (chunks size n bs) = n.
Proof.
  revert bs. induction n as [|n IH]; intros bs Hle; [done|].
  cbn [chunks]. rewrite bool_decide_true by lia. cbn [length].
  rewrite IH; [done|]. rewrite length_drop. lia.
Qed.

Lemma znzread_all_enough fp size n w bytes pos :
  streams w !! fp = Some (ByteStream bytes pos) ->
  0 <= pos -> 0 < size -> 0 <= n ->
  pos + size * n <= Z.of_nat (length bytes) ->
  exists els,
    znzread_all fp size n w = Some (Some els, moved_to w fp bytes (pos + size * n)).
Proof.
  intros Hfp Hpos Hsize Hn Hle.
  unfold znzread_all, bind, read_elements, ret. rewrite Hfp.
  rewrite bool_decide_true by lia.
  set (els := chunks _ _ _).
  assert (Hl : length els = Z.to_nat n).
  { apply chunks_enough. rewrite length_drop. nia. }
  rewrite bool_decide_true by lia. exists els.
  by rewrite Hl, Z2Nat.id by lia.
Qed.

(** One read of the header from a stream that holds enough bytes. *)
Ltac read_now els E :=
  match goal with
  | |- context [bind (znzread_all ?fp ?size ?n) _ ?w] =>
      edestruct (znzread_all_enough fp size n w) as [els E];
      [first [eassumption|apply moved_to_streams]
      |unfold MGH_N_XFORM, MGH_MAX_DIMS, MGH_N_SPATIAL, MGH_N_COMPONENTS,
         MGH_EXTRA_SIZE, N_DIMENSIONS; lia
      |by vm_compute|by vm_compute
      |unfold MGH_N_XFORM, MGH_MAX_DIMS, MGH_N_SPATIAL, MGH_N_COMPONENTS,
         MGH_EXTRA_SIZE, N_DIMENSIONS; lia|];
      unfold bind at 1; rewrite E; rewrite ?moved_to_twice
  end.

(** X4. A stream that holds 284 bytes more: the header is read, and it is
    accepted exactly when its version is 1. Either way the stream stands
    after the header. *)
Theorem mgh_header_from_file_reads (fp : Z) (w : World) (bytes : list byte)
    (pos : Z) :
  streams w !! fp = Some (ByteStream bytes pos) ->
  0 <= pos -> pos + MGH_HEADER_SIZE <= Z.of_nat (length bytes) ->
  exists hdr,
    mgh_header_from_file fp w =
      Some (hdr, moved_to w fp bytes (pos + MGH_HEADER_SIZE)) /\
    (is_Some hdr <-> int_at bytes pos = 1).
Proof.
  intros Hfp Hpos Hle. unfold MGH_HEADER_SIZE in *.
  unfold mgh_header_from_file, bind at 1, get_world.
  read_now els Ev. read_now sz Es. read_now ty Et. read_now df Ed.
  read_now gf Eg. read_now sp Ep. read_now dc Edc. read_now xt Ex.
  pose proof (fun Hn => znzread_all_moved _ _ _ _ _ _ _ _ Hn Hfp Ev) as Hcv.
  specialize (Hcv ltac:(done)).
  destruct Hcv as (_ & _ & _ & _ & _ & Hcv & _).
  pose proof (fun Hn => znzread_all_moved _ _ _ _ _ _ _ _ Hn
                          (moved_to_streams _ _ _ _) Ep) as Hlp.
  specialize (Hlp ltac:(by vm_compute)).
  destruct Hlp as (_ & _ & _ & Hlp & _).
  pose proof (fun Hn => znzread_all_moved _ _ _ _ _ _ _ _ Hn
                          (moved_to_streams _ _ _ _) Edc) as Hldc.
  specialize (Hldc ltac:(by vm_compute)).
  destruct Hldc as (_ & _ & _ & Hldc & _).
  clear Ev Es Et Ed Eg Ex Ep Edc.
  rewrite (ntohl_el _ els bytes pos) by (done || lia).
  fold (int_at bytes pos).
  replace (pos + 4 * 1 + 4 * MGH_MAX_DIMS + 4 * 1 + 4 * 1 + 2 * 1 +
           4 * MGH_N_SPATIAL + 4 * MGH_N_XFORM + 1 * MGH_EXTRA_SIZE)
    with (pos + 284)
    by (unfold MGH_N_XFORM, MGH_MAX_DIMS, MGH_N_SPATIAL, MGH_N_COMPONENTS,
          MGH_EXTRA_SIZE, N_DIMENSIONS; lia).
  destruct (decide (int_at bytes pos <> 1)) as [Hne|Heq].
  - exists None. split; [done|]. split; [by intros [? ?]|done].
  - apply dec_stable in Heq.
    destruct (decide (_ <> 0)) as [Hflag|Hflag].
    + eexists (Some _). split; [reflexivity|]. by split.
    + assert (Hl : length dc = 12%nat) by (unfold MGH_N_XFORM, MGH_N_COMPONENTS, MGH_N_SPATIAL, N_DIMENSIONS in Hldc; lia).
      assert (Hl3 : length sp = 3%nat) by (unfold MGH_N_SPATIAL, N_DIMENSIONS in Hlp; lia).
      destruct dc as [|? [|? [|? [|? [|? [|? [|? [|? [|? [|? [|? [|? [|? ?]]]]]]]]]]]]];
        try done.
      destruct sp as [|? [|? [|? [|? ?]]]]; try done.
      eexists (Some _). split; [reflexivity|]. by split.
Qed.

Lemma mgh_header_from_file_reads_witness :
  exists bytes,
    streams (opened "flat.mgh" constant_mgh_world) !! 1 =
      Some (ByteStream bytes 0) /\
    0 <= 0 /\ 0 + MGH_HEADER_SIZE <= Z.of_nat (length bytes) /\
    exists hdr,
      mgh_header_from_file 1 (opened "flat.mgh" constant_mgh_world) =
        Some (hdr, moved_to (opened "flat.mgh" constant_mgh_world) 1 bytes
                            (0 + MGH_HEADER_SIZE)) /\
      (is_Some hdr <-> int_at bytes 0 = 1).
Proof.
  eexists.
  match goal with
  | |- ?h1 /\ ?h2 /\ ?h3 /\ _ =>
      assert (H1 : h1) by (vm_compute; reflexivity);
      assert (H2 : h2) by done;
      assert (H3 : h3) by (by vm_compute)
  end.
  split; [exact H1|]. split; [exact H2|]. split; [exact H3|].
  exact (mgh_header_from_file_reads _ _ _ _ H1 H2 H3).
Defined.

(** ** Reading a slice of an MGH file *)

Lemma read_elements_full fp size n w els w' :
  0 < n ->
  read_elements fp size n w = Some (els, w') ->
  Z.of_nat (length els) = n ->
  exists bytes pos,
    streams w !! fp = Some (ByteStream bytes pos) /\
    0 <= pos /\ 0 < size /\
    pos + size * n <= Z.of_nat (length bytes) /\
    concat els = take (Z.to_nat (size * n)) (drop (Z.to_nat pos) bytes) /\
    w' = moved_to w fp bytes (pos + size * n).
Proof.
  intros Hn H Hl.
  destruct (znzread_all_Some fp size n w els w' Hn)
    as (bytes & pos & Hfp & Hpos & Hsize & Hle & _ & _ & Hc & Hw).
  { unfold znzread_all, bind. rewrite H. unfold ret.
    by rewrite bool_decide_true. }
  by exists bytes, pos.
Qed.

(** The products that the code computes in [int] and passes as [size_t]. *)
Lemma int_mul_range a b : INT_MIN <= int_mul a b <= INT_MAX.
Proof.
  unfold int_mul, to_int, INT_MIN, INT_MAX.
  pose proof (Z.mod_pos_bound (a * b + 2 ^ 31) (2 ^ 32)). lia.
Qed.

Lemma int_mul_exact a b :
  INT_MIN <= a * b <= INT_MAX -> int_mul a b = a * b.
Proof.
  unfold int_mul, to_int, INT_MIN, INT_MAX. intros H.
  rewrite Z.mod_small by lia. lia.
Qed.

Lemma size_t_of_int_id x : 0 <= x <= INT_MAX -> size_t_of_int x = x.
Proof.
  unfold size_t_of_int, INT_MAX. intros H. apply Z.mod_small. lia.
Qed.

Lemma get_type_size_range t : 0 <= get_type_size t <= INT_MAX.
Proof. unfold INT_MAX. destruct t; cbn; lia. Qed.

(** X5. A slice that is read successfully, when the number of voxels of a
    slice that the code computes, the product of the first two sizes in
    [int], is positive: the cursor stood before the last slice, the stream
    held that many samples more, their bytes are now at the start of the
    slice buffer, and the stream and the cursor have moved past them.
    Nothing else changes in the session or in the world. A failed read
    leaves the cursor where it was. *)
Theorem input_next_slice_spec (in_ptr : volume_input_struct) (w : World)
    (status : Status) (in_ptr' : volume_input_struct) (w' : World)
    (size0 size1 : Z) :
  load (sizes_in_file in_ptr) 0 = Some size0 ->
  load (sizes_in_file in_ptr) 1 = Some size1 ->
  0 < int_mul size0 size1 ->
  input_next_slice in_ptr w = Some ((status, in_ptr'), w') ->
  match status with
  | OK =>
      exists size2 bytes pos old,
        load (sizes_in_file in_ptr) 2 = Some size2 /\
        slice_index in_ptr < size2 /\
        streams w !! volume_file in_ptr = Some (ByteStream bytes pos) /\
        byte_slice_buffer in_ptr = Some old /\
        let n := get_type_size (file_data_type in_ptr) * int_mul size0 size1 in
        0 <= pos /\ pos + n <= Z.of_nat (length bytes) /\
        n <= Z.of_nat (length old) /\
        w' = moved_to w (volume_file in_ptr) bytes (pos + n) /\
        in_ptr' =
          set_slice_index
            (set_byte_slice_buffer in_ptr
               (Some (overwrite old
                        (take (Z.to_nat n) (drop (Z.to_nat pos) bytes)))))
            (slice_index in_ptr + 1)
  | ERROR => slice_index in_ptr' = slice_index in_ptr
  end.
Proof.
  intros H0 H1 Hpos. unfold input_next_slice. intros H.
  rewrite (size_t_of_int_id (get_type_size _)) in H
    by apply get_type_size_range.
  io_step H. case_bool_decide as Hend.
  { io_step H. by simplify_eq. }
  io_step H. io_step H. simplify_eq.
  rewrite (size_t_of_int_id (int_mul size0 size1)) in H
    by (pose proof (int_mul_range size0 size1); lia).
  io_step H.
  case_bool_decide as Hbuf; [|by io_step H].
  io_step H. rename a into els.
  case_bool_decide as Hl; io_step H; simplify_eq; [done|].
  match goal with
  | Hr : read_elements _ _ _ _ = Some _ |- _ =>
      apply read_elements_full in Hr
        as (bytes & pos & Hfp & Hp & Hsize & Hle & Hc & ->); [|done|done]
  end.
  match goal with
  | H2 : load (sizes_in_file in_ptr) 2 = Some ?s |- _ => exists s
  end.
  match goal with
  | Hb : byte_slice_buffer in_ptr = Some ?o |- _ => exists bytes, pos, o
  end.
  rewrite Hc. cbv zeta. repeat split; try done; try lia.
Qed.

Lemma input_next_slice_spec_witness :
  exists v in_ptr w,
    initialize_mgh_format_input unit_geometry "flat.mgh"
      (new_volume NO_DATA_TYPE NC_BYTE) new_input constant_mgh_world =
      Some ((OK, v, in_ptr), w) /\
    exists in_ptr' w' size0 size1,
      load (sizes_in_file in_ptr) 0 = Some size0 /\
      load (sizes_in_file in_ptr) 1 = Some size1 /\
      0 < int_mul size0 size1 /\
      input_next_slice in_ptr w = Some ((OK, in_ptr'), w') /\
      exists size2 bytes pos old,
        load (sizes_in_file in_ptr) 2 = Some size2 /\
        slice_index in_ptr < size2 /\
        streams w !! volume_file in_ptr = Some (ByteStream bytes pos) /\
        byte_slice_buffer in_ptr = Some old /\
        let n := get_type_size (file_data_type in_ptr) * int_mul size0 size1 in
        0 <= pos /\ pos + n <= Z.of_nat (length bytes) /\
        n <= Z.of_nat (length old) /\
        w' = moved_to w (volume_file in_ptr) bytes (pos + n) /\
        in_ptr' =
          set_slice_index
            (set_byte_slice_buffer in_ptr
               (Some (overwrite old
                        (take (Z.to_nat n) (drop (Z.to_nat pos) bytes)))))
            (slice_index in_ptr + 1).
Proof.
  eexists _, _, _. split; [vm_compute; reflexivity|].
  eexists _, _, _, _.
  match goal with
  | |- ?h0 /\ ?h1 /\ ?h2 /\ ?h3 /\ _ =>
      assert (H0 : h0) by (vm_compute; reflexivity);
      assert (H1 : h1) by (vm_compute; reflexivity);
      assert (H2 : h2) by (vm_compute; reflexivity);
      assert (H3 : h3) by (vm_compute; reflexivity)
  end.
  do 4 (split; [assumption|]).
  exact (input_next_slice_spec _ _ _ _ _ _ _ H0 H1 H2 H3).
Defined.

(** X6. On a session whose file is open and whose buffer can take the
    samples that the code asks for, their number being the product of the
    first two sizes computed in [int], the read of the next slice always
    returns. It succeeds exactly when the cursor stands before the last
    slice and the file holds that many samples more; when the number is 0,
    as for sizes whose product wraps around to 0, it succeeds without
    reading. It never moves the cursor when it fails. *)
Theorem input_next_slice_succeeds_iff (in_ptr : volume_input_struct)
    (w : World) (size0 size1 size2 : Z) (bytes : list byte) (pos : Z)
    (old : list byte) :
  load (sizes_in_file in_ptr) 0 = Some size0 ->
  load (sizes_in_file in_ptr) 1 = Some size1 ->
  load (sizes_in_file in_ptr) 2 = Some size2 ->
  0 <= int_mul size0 size1 ->
  0 < get_type_size (file_data_type in_ptr) ->
  byte_slice_buffer in_ptr = Some old ->
  int_mul size0 size1 * get_type_size (file_data_type in_ptr) <=
    Z.of_nat (length old) ->
  streams w !! volume_file in_ptr = Some (ByteStream bytes pos) ->
  0 <= pos ->
  exists status in_ptr' w',
    input_next_slice in_ptr w = Some ((status, in_ptr'), w') /\
    (status = OK <->
     slice_index in_ptr < size2 /\
     (int_mul size0 size1 = 0 \/
      pos + get_type_size (file_data_type in_ptr) * int_mul size0 size1 <=
        Z.of_nat (length bytes))) /\
    (status = ERROR -> slice_index in_ptr' = slice_index in_ptr).
Proof.
  intros H0 H1 H2 Hn Hsize Hold Hbuf Hfp Hpos.
  unfold input_next_slice, bind, lift, ret. rewrite H2.
  case_bool_decide as Hend.
  { eexists _, _, _. split; [done|]. split; [|done].
    split; [done|]. intros [? _]. lia. }
  rewrite H0, H1, Hold.
  rewrite (size_t_of_int_id (get_type_size _)) by apply get_type_size_range.
  rewrite (size_t_of_int_id (int_mul size0 size1))
    by (pose proof (int_mul_range size0 size1); lia).
  set (n := int_mul size0 size1) in *. clearbody n.
  rewrite bool_decide_true by done.
  unfold read_elements. rewrite Hfp. rewrite bool_decide_true by lia.
  set (els := chunks _ _ _).
  case_bool_decide as Hl; (eexists _, _, _; split; [reflexivity|]).
  - split; [|done]. split; [done|]. intros [_ [->|Hle]]; exfalso; apply Hl.
    + done.
    + subst els. rewrite chunks_enough; [lia|].
      rewrite length_drop. nia.
  - split; [|done]. split; [|done]. intros _.
    split; [lia|]. destruct (decide (n = 0)) as [|Hne]; [by left|right].
    subst els. apply (f_equal Z.to_nat) in Hl.
    rewrite Nat2Z.id in Hl. apply chunks_full in Hl as (Hle & _).
    rewrite length_drop in Hle. rewrite <- Z2Nat.inj_mul in Hle by lia.
    assert (0 < get_type_size (file_data_type in_ptr) * n) by nia.
    set (m := get_type_size (file_data_type in_ptr) * n) in *.
    clearbody m. lia.
Qed.

Lemma input_next_slice_succeeds_iff_witness :
  exists v in_ptr w,
    initialize_mgh_format_input unit_geometry "wide.mgh"
      (new_volume NO_DATA_TYPE NC_BYTE) new_input wide_mgh_world =
      Some ((OK, v, in_ptr), w) /\
    exists size0 size1 size2 bytes pos old,
      load (sizes_in_file in_ptr) 0 = Some size0 /\
      load (sizes_in_file in_ptr) 1 = Some size1 /\
      load (sizes_in_file in_ptr) 2 = Some size2 /\
      0 <= int_mul size0 size1 /\
      0 < get_type_size (file_data_type in_ptr) /\
      byte_slice_buffer in_ptr = Some old /\
      int_mul size0 size1 * get_type_size (file_data_type in_ptr) <=
        Z.of_nat (length old) /\
      streams w !! volume_file in_ptr = Some (ByteStream bytes pos) /\
      0 <= pos /\
      exists status in_ptr' w',
        input_next_slice in_ptr w = Some ((status, in_ptr'), w') /\
        (status = OK <->
         slice_index in_ptr < size2 /\
         (int_mul size0 size1 = 0 \/
          pos + get_type_size (file_data_type in_ptr) * int_mul size0 size1 <=
            Z.of_nat (length bytes))) /\
        (status = ERROR -> slice_index in_ptr' = slice_index in_ptr).
Proof.
  eexists _, _, _. split; [vm_compute; reflexivity|].
  eexists _, _, _, _, _, _.
  match goal with
  | |- ?h0 /\ ?h1 /\ ?h2 /\ ?h3 /\ ?h4 /\ ?h5 /\ ?h6 /\ ?h7 /\ ?h8 /\ _ =>
      assert (H0 : h0) by (vm_compute; reflexivity);
      assert (H1 : h1) by (vm_compute; reflexivity);
      assert (H2 : h2) by (vm_compute; reflexivity);
      assert (H3 : h3) by (vm_compute; discriminate);
      assert (H4 : h4) by (vm_compute; reflexivity);
      assert (H5 : h5) by (vm_compute; reflexivity);
      assert (H7 : h7) by (vm_compute; reflexivity);
      assert (H6 : h6) by (vm_compute; discriminate);
      assert (H8 : h8) by (vm_compute; discriminate)
  end.
  do 9 (split; [assumption|]).
  exact (input_next_slice_succeeds_iff _ _ _ _ _ _ _ _ H0 H1 H2 H3 H4 H5 H6 H7 H8).
Defined.

(** ** The scan leaves the file as it found it *)

Lemma moved_to_id w fp bytes pos :
  streams w !! fp = Some (ByteStream bytes pos) -> moved_to w fp bytes pos = w.
Proof.
  intros H. unfold moved_to, with_streams. rewrite insert_id by done.
  by destruct w.
Qed.

Lemma foreach_inv_world {S} (P : S -> World -> Prop) (body : Z -> S -> io S)
    l s w s' w' :
  (forall i s w s' w', P s w -> body i s w = Some (s', w') -> P s' w') ->
  P s w -> foreach l body s w = Some (s', w') -> P s' w'.
Proof.
  intros Hbody. revert s w. induction l as [|i l IH]; intros s w Hs H.
  - apply ret_Some in H. by simplify_eq.
  - cbn [foreach] in H. io_step H. eauto.
Qed.

Lemma read_elements_moved fp size n w bytes pos els w' :
  streams w !! fp = Some (ByteStream bytes pos) ->
  read_elements fp size n w = Some (els, w') ->
  exists pos', w' = moved_to w fp bytes pos'.
Proof.
  intros Hfp. unfold read_elements. rewrite Hfp.
  case_bool_decide; [|done]. intros [= <- <-]. by eexists.
Qed.

Lemma input_next_slice_world in_ptr w bytes pos status in_ptr' w' :
  streams w !! volume_file in_ptr = Some (ByteStream bytes pos) ->
  input_next_slice in_ptr w = Some ((status, in_ptr'), w') ->
  volume_file in_ptr' = volume_file in_ptr /\
  exists pos', w' = moved_to w (volume_file in_ptr) bytes pos'.
Proof.
  intros Hfp. unfold input_next_slice. intros H.
  io_step H. case_bool_decide as Hend.
  { io_step H. simplify_eq. split; [done|]. exists pos.
    by rewrite moved_to_id. }
  io_step H. io_step H. io_step H.
  case_bool_decide as Hbuf; [|by io_step H].
  io_step H.
  match goal with
  | Hr : read_elements _ _ _ _ = Some _ |- _ =>
      destruct (read_elements_moved _ _ _ _ _ _ _ _ Hfp Hr) as [pos' ->]
  end.
  case_bool_decide; io_step H; simplify_eq; (split; [done|]); by exists pos'.
Qed.

Lemma set_file_position_moved w fp bytes pos p :
  0 <= p ->
  set_file_position fp p (moved_to w fp bytes pos) =
    Some (OK, moved_to w fp bytes p).
Proof.
  intros Hp. unfold set_file_position. rewrite moved_to_streams.
  rewrite bool_decide_true by done.
  change (Some (OK, moved_to (moved_to w fp bytes pos) fp bytes p) =
          Some (OK, moved_to w fp bytes p)).
  by rewrite moved_to_twice.
Qed.

Lemma chunks_concat_length size n bs :
  (length (concat (chunks size n bs)) <= size * n)%nat.
Proof.
  revert bs. induction n as [|n IH]; intros bs; cbn [chunks]; [cbn; lia|].
  case_bool_decide; [|cbn; lia]. cbn [concat].
  rewrite length_app, length_take. specialize (IH (drop size bs)). lia.
Qed.

Lemma overwrite_length {A} (old new : list A) :
  (length new <= length old)%nat -> length (overwrite old new) = length old.
Proof. intros H. unfold overwrite. rewrite length_app, length_drop. lia. Qed.

Lemma read_elements_length fp size n w els w' :
  read_elements fp size n w = Some (els, w') ->
  0 <= size * n -> Z.of_nat (length (concat els)) <= size * n.
Proof.
  unfold read_elements.
  destruct (streams w !! fp) as [[rest|bytes pos]|]; [| |done].
  - intros [= <- <-] ?. cbn. lia.
  - case_bool_decide as Hc; [|done]. intros [= <- <-] Hn.
    destruct Hc as (Hc1 & Hc2 & _).
    pose proof (chunks_concat_length (Z.to_nat size) (Z.to_nat n)
                  (drop (Z.to_nat pos) bytes)) as H.
    rewrite <- Z2Nat.inj_mul in H by lia.
    set (m := size * n) in *. clearbody m. lia.
Qed.

(** The slice buffer keeps its size. *)
Lemma input_next_slice_buffer in_ptr w status in_ptr' w' :
  input_next_slice in_ptr w = Some ((status, in_ptr'), w') ->
  length <$> byte_slice_buffer in_ptr' = length <$> byte_slice_buffer in_ptr.
Proof.
  unfold input_next_slice. intros H.
  io_step H. case_bool_decide as Hend; [io_step H; by simplify_eq|].
  io_step H. io_step H. io_step H.
  case_bool_decide as Hbuf; [|by io_step H].
  io_step H.
  match goal with
  | Hr : read_elements _ ?ts ?n _ = Some (?els, _),
    Hb : byte_slice_buffer in_ptr = Some ?old |- _ =>
      rename Hr into Hread; rename Hb into Hold;
      assert (Hlen : length (overwrite old (concat els)) = length old)
  end.
  { apply overwrite_length.
    match type of Hread with
    | read_elements _ ?ts ?n _ = _ =>
        destruct (decide (0 <= ts * n)) as [Hn|Hn];
        [apply read_elements_length in Hread; [|done];
         replace (n * ts) with (ts * n) in Hbuf by ring; lia|]
    end.
    unfold read_elements in Hread.
    destruct (streams w !! _) as [[rest|bytes pos]|]; [| |done].
    - simplify_eq. cbn. lia.
    - rewrite bool_decide_false in Hread by (intros (? & ? & ?); nia). done. }
  rewrite Hold.
  case_bool_decide; io_step H; simplify_eq; cbn; by rewrite Hlen.
Qed.

Lemma mgh_scan_frame (in_ptr : volume_input_struct) (n : Z) (w : World)
    (found : bool) (in_ptr' : volume_input_struct) (lo hi : float) (w' : World) :
  mgh_scan_for_voxel_range in_ptr n w = Some ((found, in_ptr', lo, hi), w') ->
  w' = w /\
  (if found
   then slice_index in_ptr' = 0 /\
        sizes_in_file in_ptr' = sizes_in_file in_ptr /\
        axis_index_from_file in_ptr' = axis_index_from_file in_ptr /\
        file_data_type in_ptr' = file_data_type in_ptr /\
        volume_file in_ptr' = volume_file in_ptr /\
        length <$> byte_slice_buffer in_ptr' = length <$> byte_slice_buffer in_ptr
   else in_ptr' = in_ptr).
Proof.
  unfold mgh_scan_for_voxel_range. intros H. io_step H.
  rename a into data_offset.
  match goal with
  | Hp : file_position _ _ = Some _ |- _ =>
      unfold file_position in Hp;
      destruct (streams w !! volume_file in_ptr) as [[rest|bytes pos]|] eqn:Hfp;
      [|injection Hp as <- <-|done]
  end.
  { simplify_eq. rewrite bool_decide_true in H by lia. io_step H.
    by simplify_eq. }
  case_bool_decide as Hneg; [io_step H; by simplify_eq|].
  io_step H. io_step H.
  destruct a as [p1 [[lo1 hi1] v1]].
  match goal with
  | Hf : foreach _ _ _ _ = Some _ |- _ =>
      apply (foreach_inv_world
               (fun s w1 =>
                  (sizes_in_file s.1 = sizes_in_file in_ptr /\
                   axis_index_from_file s.1 = axis_index_from_file in_ptr /\
                   file_data_type s.1 = file_data_type in_ptr /\
                   volume_file s.1 = volume_file in_ptr /\
                   length <$> byte_slice_buffer s.1 =
                     length <$> byte_slice_buffer in_ptr) /\
                  exists pos', w1 = moved_to w (volume_file in_ptr) bytes pos'))
        in Hf as ((Hs & Ha & Ht & Hv & Hb) & pos' & ->)
  end.
  - cbn [fst] in *. io_step H.
    match goal with
    | Hs : set_file_position _ _ _ = Some _ |- _ =>
        rewrite set_file_position_moved in Hs by lia; injection Hs as <- <-
    end.
    io_step H. simplify_eq. split; [|done]. by apply moved_to_id.
  - clear. intros i [p [[lo hi] v]] w1 [p' [[lo' hi'] v']] w2
      ((Hs & Ha & Ht & Hv & Hb) & pos' & ->) Hbody.
    cbn [fst] in *. unfold mgh_scan_slice in Hbody.
    io_step Hbody. io_step Hbody. destruct a as [st p2].
    match goal with
    | Hn : input_next_slice _ _ = Some _ |- _ =>
        pose proof Hn as Hframe;
        apply input_next_slice_frame in Hframe as (Hs' & Ha' & Ht' & _);
        pose proof (input_next_slice_buffer _ _ _ _ _ Hn) as Hb';
        destruct (input_next_slice_world _ _ bytes pos' _ _ _
                    ltac:(rewrite Hv; apply moved_to_streams) Hn)
          as [Hv' [pos2 ->]]
    end.
    io_inv Hbody. simplify_eq. cbn [fst].
    split; [repeat split; congruence|].
    rewrite Hv, moved_to_twice. by eexists.
  - cbn [fst]. split; [done|]. exists pos. by rewrite moved_to_id.
Qed.

(** X7. The scan for the voxel range of an MGH file leaves the world as it
    found it, the stream back at the position where the scan began, and
    when it has run, the cursor of the session at 0; the sizes, the axes,
    the type, the file and the size of the buffer of the session are as
    before. *)
Theorem mgh_scan_rewinds (in_ptr : volume_input_struct) (n : Z) (w : World)
    (found : bool) (in_ptr' : volume_input_struct) (lo hi : float) (w' : World) :
  mgh_scan_for_voxel_range in_ptr n w = Some ((found, in_ptr', lo, hi), w') ->
  w' = w /\
  (if found
   then slice_index in_ptr' = 0 /\
        sizes_in_file in_ptr' = sizes_in_file in_ptr /\
        axis_index_from_file in_ptr' = axis_index_from_file in_ptr /\
        file_data_type in_ptr' = file_data_type in_ptr /\
        volume_file in_ptr' = volume_file in_ptr /\
        length <$> byte_slice_buffer in_ptr' = length <$> byte_slice_buffer in_ptr
   else in_ptr' = in_ptr).
Proof. apply mgh_scan_frame. Qed.

Lemma mgh_scan_rewinds_witness :
  exists v in_ptr w,
    initialize_mgh_format_input unit_geometry "flat.mgh"
      (new_volume NO_DATA_TYPE NC_BYTE) new_input constant_mgh_world =
      Some ((OK, v, in_ptr), w) /\
    exists in_ptr' lo hi w',
      mgh_scan_for_voxel_range in_ptr 2 w = Some ((true, in_ptr', lo, hi), w') /\
      w' = w /\
      slice_index in_ptr' = 0 /\
      sizes_in_file in_ptr' = sizes_in_file in_ptr /\
      axis_index_from_file in_ptr' = axis_index_from_file in_ptr /\
      file_data_type in_ptr' = file_data_type in_ptr /\
      volume_file in_ptr' = volume_file in_ptr /\
      length <$> byte_slice_buffer in_ptr' = length <$> byte_slice_buffer in_ptr.
Proof.
  eexists _, _, _. split; [vm_compute; reflexivity|].
  eexists _, _, _, _.
  match goal with
  | |- ?h0 /\ _ => assert (H0 : h0) by (vm_compute; reflexivity)
  end.
  split; [exact H0|]. exact (mgh_scan_rewinds _ _ _ _ _ _ _ _ H0).
Defined.

(** ** A failed MGH open *)

Lemma others_kept_trans fp w1 w2 w3 :
  others_kept fp w1 w2 -> others_kept fp w2 w3 -> others_kept fp w1 w3.
Proof. intros [? ?] [? ?]. split; congruence. Qed.

Lemma znzread_all_others fp size n w r w' :
  znzread_all fp size n w = Some (r, w') -> others_kept fp w w'.
Proof.
  unfold znzread_all, bind, read_elements, ret, others_kept.
  destruct (streams w !! fp) as [[rest|bytes pos]|]; [| |done].
  - by intros [= <- <-].
  - case_bool_decide; [|done]. intros [= <- <-]. cbn.
    split; [apply delete_insert_eq|done].
Qed.

Ltac header_others H K :=
  let E := fresh "E" in let els := fresh "els" in let w := fresh "w" in
  apply bind_Some in H as (els & w & E & H);
  apply znzread_all_others in E;
  pose proof (others_kept_trans _ _ _ _ K E); clear K E;
  match goal with K' : others_kept _ _ w |- _ => rename K' into K end;
  destruct els as [els|];
  [|apply ret_Some in H; injection H as -> ->; exact K].

Lemma mgh_header_from_file_others fp w r w' :
  mgh_header_from_file fp w = Some (r, w') -> others_kept fp w w'.
Proof.
  unfold mgh_header_from_file. intros H. io_step H.
  assert (K : others_kept fp w w) by done.
  do 8 header_others H K.
  assert (Hw : forall r0 wx, others_kept fp w wx ->
                 ret r0 wx = Some (r, w') -> others_kept fp w w').
  { intros r0 wx Kx Hr. apply ret_Some in Hr. by injection Hr as -> ->. }
  destruct (decide _); [by eapply Hw|].
  destruct (decide _); [by eapply Hw|].
  io_step H.
  match type of H with
  | context [match ?x with pair _ _ => _ end] => destruct x
  end.
  by eapply Hw.
Qed.

Lemma open_file_fresh filename w status fp w' :
  streams w !! next_FILE w = None ->
  open_file filename w = Some ((status, fp), w') ->
  (status = ERROR /\ w' = w) \/
  (status = OK /\ fp = next_FILE w /\ is_Some (streams w' !! fp) /\
   delete fp (streams w') = streams w /\ disk w' = disk w).
Proof.
  intros Hfresh. unfold open_file.
  destruct (disk w !! filename) as [d|]; intros [= <- <- <-]; [|by left].
  right. cbn. rewrite lookup_insert_eq, delete_insert_eq.
  do 2 (split; [done|]). split; [by eexists|]. split; [by apply delete_id|done].
Qed.

(** X8. An MGH open that fails leaves no stream open and the volume and the
    session as they were: the file that it opened is closed again, whether
    the header could not be read, its version is not 1 or its type is not
    one of unsigned byte, int, float and short. *)
Theorem mgh_open_failure_closes_file
    (convert : Transform -> list Z -> list Real * list Real * (Z -> list Real))
    (filename : string) (v : Volume) (p : volume_input_struct) (w : World)
    (v' : Volume) (p' : volume_input_struct) (w' : World) :
  streams w !! next_FILE w = None ->
  initialize_mgh_format_input convert filename v p w = Some ((ERROR, v', p'), w') ->
  streams w' = streams w /\ disk w' = disk w /\ v' = v /\ p' = p.
Proof.
  intros Hfresh. unfold initialize_mgh_format_input. intros H.
  io_step H. io_step H. destruct a as [opened fp].
  destruct (open_file_fresh _ _ _ _ _ Hfresh E)
    as [[-> ->]|(-> & -> & Hopen & Hdel & Hd0)]; clear E.
  { rewrite decide_True in H by done. io_step H. by simplify_eq. }
  rewrite decide_False in H by done. io_step H.
  apply mgh_header_from_file_others in E as [Hothers Hdisk].
  assert (Hclose : forall w2,
    close_file (next_FILE w) w1 = Some (OK, w2) ->
    streams w2 = streams w /\ disk w2 = disk w).
  { intros w2. unfold close_file.
    destruct (streams w1 !! next_FILE w); [|done]. intros [= <-]. cbn.
    split; congruence. }
  destruct a as [hdr|].
  - destruct (if decide (type hdr = MGH_TYPE_UCHAR) then _ else _)
      as [[[t nc] sg]|].
    + destruct (if decide (data_type v = NO_DATA_TYPE) then _ else _).
      io_inv H.
      case_decide; [|io_step H; simplify_eq].
      io_step H. destruct a as [[[found q] lo] hi].
      destruct found; io_step H; simplify_eq.
    + io_step H. io_step H. simplify_eq.
      match goal with Hc : close_file _ _ = Some (?st, _) |- _ =>
        destruct st; [|by unfold close_file in Hc; destruct (streams w1 !! _)];
        apply Hclose in Hc as [? ?] end.
      repeat split; congruence.
  - io_step H. io_step H. simplify_eq.
    match goal with Hc : close_file _ _ = Some (?st, _) |- _ =>
      destruct st; [|by unfold close_file in Hc; destruct (streams w1 !! _)];
      apply Hclose in Hc as [? ?] end.
    repeat split; congruence.
Qed.

Lemma mgh_open_failure_closes_file_witness :
  exists v' p' w',
    streams long_mgh_world !! next_FILE long_mgh_world = None /\
    initialize_mgh_format_input unit_geometry "long.mgh"
      (new_volume NO_DATA_TYPE NC_BYTE) new_input long_mgh_world =
      Some ((ERROR, v', p'), w') /\
    streams w' = streams long_mgh_world /\ disk w' = disk long_mgh_world /\
    v' = new_volume NO_DATA_TYPE NC_BYTE /\ p' = new_input.
Proof.
  eexists _, _, _.
  match goal with
  | |- ?h0 /\ ?h1 /\ _ =>
      assert (H0 : h0) by (vm_compute; reflexivity);
      assert (H1 : h1) by (vm_compute; reflexivity)
  end.
  do 2 (split; [assumption|]).
  exact (mgh_open_failure_closes_file _ _ _ _ _ _ _ _ H0 H1).
Defined.

(** ** A successful MGH open *)

(** Lines 484-491: the sizes of the header are copied to the session. *)
Lemma copy_sizes (hs : list Z) (q q' : volume_input_struct) (nd : Z) :
  foldl (fun st axis =>
           '(in_ptr, n_dimensions) ← st;
           n ← load hs axis;
           s ← store (sizes_in_file in_ptr) axis n;
           Some (set_sizes_in_file in_ptr s,
                 if bool_decide (n > 1) then n_dimensions + 1
                 else n_dimensions))
        (Some (q, 0)) (for_less 0 MGH_MAX_DIMS) = Some (q', nd) ->
  (forall k, 0 <= k < 4 -> load (sizes_in_file q') k = load hs k) /\
  file_data_type q' = file_data_type q /\
  axis_index_from_file q' = axis_index_from_file q.
Proof.
  change (for_less 0 MGH_MAX_DIMS) with [0; 1; 2; 3]. cbn [foldl].
  intros H. simplify_option_eq.
  repeat match goal with
  | Hs : store _ _ _ = Some _ |- _ => apply load_store in Hs as (? & ? & _)
  end.
  split; [|done]. intros k Hk.
  assert (k = 0 \/ k = 1 \/ k = 2 \/ k = 3) as [-> | [-> | [-> | ->]]] by lia;
    cbn [sizes_in_file set_sizes_in_file];
    repeat match goal with
    | Hne : forall j, j <> ?i -> load ?a j = _ |- load ?a ?k = _ =>
        first [rewrite Hne by lia | fail 1]
    end; congruence.
Qed.

Lemma set_spatial_axes_frame (hdr : mgh_header) (q q' : volume_input_struct) :
  foldl (fun p axis => p ≫= (fun p => set_spatial_axis hdr p axis))
        (Some q) (for_less 0 MGH_N_SPATIAL) = Some q' ->
  sizes_in_file q' = sizes_in_file q /\
  file_data_type q' = file_data_type q.
Proof.
  apply (foldl_bind_inv
           (fun s => sizes_in_file s = sizes_in_file q /\
                     file_data_type s = file_data_type q)
           (fun axis p => set_spatial_axis hdr p axis)); [|done].
  intros i s s' [Hs Ht] H. unfold set_spatial_axis in H.
  simplify_option_eq. done.
Qed.

Lemma default_spatial_axes_data v v' :
  default_spatial_axes v = Some v' -> data v' = data v.
Proof.
  unfold default_spatial_axes. intros H.
  destruct (load (spatial_axes v) X); [|done].
  destruct (load (spatial_axes v) Y); [|done].
  destruct (load (spatial_axes v) Z_); [|done].
  cbn [mbind option_bind] in H.
  case_bool_decide; by simplify_option_eq.
Qed.

Lemma set_axis_geometry_data in_ptr mnc_dircos (v : Volume) (sizes : list Z) r :
  foldl (fun st axis => st ≫= (fun st => set_axis_geometry in_ptr mnc_dircos st axis))
        (Some (v, sizes)) (for_less 0 N_DIMENSIONS) = Some r ->
  data r.1 = data v.
Proof.
  apply (foldl_bind_inv (fun s => data s.1 = data v)
           (fun axis st => set_axis_geometry in_ptr mnc_dircos st axis)); [|done].
  intros i [v1 s1] s' Hs H. unfold set_axis_geometry in H.
  destruct (load (spatial_axes v1) i) as [va|]; [|done].
  cbn [mbind option_bind] in H.
  destruct (load (axis_index_from_file in_ptr) va); [|done].
  cbn [mbind option_bind] in H.
  destruct (load (sizes_in_file in_ptr) va); [|done].
  cbn [mbind option_bind] in H.
  destruct (store s1 _ _); [|done]. cbn [mbind option_bind] in H.
  case_bool_decide; by simplify_option_eq.
Qed.

Lemma open_file_OK filename w fp w' :
  open_file filename w = Some ((OK, fp), w') ->
  exists d,
    disk w !! filename = Some d /\ fp = next_FILE w /\
    w' = with_streams w (<[fp := start_stream d]> (streams w)) (fp + 1).
Proof.
  unfold open_file. destruct (disk w !! filename) as [d|]; [|done].
  intros [= <- <-]. by exists d.
Qed.

Lemma length_fresh_bytes w n : length (fresh_bytes w n) = Z.to_nat n.
Proof. unfold fresh_bytes. by rewrite length_map, length_seq. Qed.

(** What every successful MGH open has done. *)
Lemma mgh_open_OK_inv
    (convert : Transform -> list Z -> list Real * list Real * (Z -> list Real))
    (filename : string) (v : Volume) (p : volume_input_struct) (w : World)
    (v' : Volume) (p' : volume_input_struct) (w' : World) :
  streams w !! next_FILE w = None ->
  initialize_mgh_format_input convert filename v p w = Some ((OK, v', p'), w') ->
  exists bytes,
    disk w !! filename = Some (Binary bytes) /\
    MGH_HEADER_SIZE <= Z.of_nat (length bytes) /\
    streams w' =
      <[next_FILE w := ByteStream bytes MGH_HEADER_SIZE]> (streams w) /\
    disk w' = disk w /\
    volume_file p' = next_FILE w /\ slice_index p' = 0 /\
    (forall k, 0 <= k < 4 ->
       load (sizes_in_file p') k = Some (int_at bytes (4 + 4 * k))) /\
    mgh_file_type (int_at bytes 20) = Some (file_data_type p') /\
    (length <$> byte_slice_buffer p' =
       Some (Z.to_nat (int_mul (int_mul (int_at bytes 4) (int_at bytes 8))
                               (get_type_size (file_data_type p'))))) /\
    data v' = data v.
Proof.
  intros Hfresh. unfold initialize_mgh_format_input. intros H.
  io_step H. io_step H. destruct a as [[] fp];
    [|rewrite decide_True in H by done; io_step H; simplify_eq].
  rewrite decide_False in H by done.
  apply open_file_OK in E as (d & Hd & -> & ->).
  io_step H. destruct a as [hdr|]; [|io_step H; io_step H; simplify_eq].
  apply mgh_header_from_file_inv in E
    as (bytes & pos & Hfp & _ & Hle & -> & Hver & Hfields & _).
  cbn [streams with_streams] in Hfp. rewrite lookup_insert_eq in Hfp.
  destruct d as [toks|bytes0]; [done|]. injection Hfp as <- <-.
  exists bytes0. split; [done|]. split; [lia|].
  destruct Hfields as (_ & Hsizes & Htype & _).
  change (0 + 20) with 20 in Htype.
  unfold mgh_file_type. rewrite <- Htype.
  destruct (if decide (type hdr = MGH_TYPE_UCHAR) then _ else _)
    as [[[t nc] sg]|] eqn:Htypes; [|io_step H; io_step H; simplify_eq].
  assert (Ht : (if decide (type hdr = MGH_TYPE_UCHAR) then Some UNSIGNED_BYTE
                else if decide (type hdr = MGH_TYPE_INT) then Some SIGNED_INT
                else if decide (type hdr = MGH_TYPE_FLOAT) then Some FLOAT
                else if decide (type hdr = MGH_TYPE_SHORT) then Some SIGNED_SHORT
                else None) = Some t).
  { repeat case_decide; by simplify_eq. }
  rewrite Ht. clear Htypes Ht.
  destruct (if decide (data_type v = NO_DATA_TYPE) then _ else _) as [dnc dsg].
  io_inv H.
  match goal with
  | Hc : foldl _ (Some (set_file_data_type p t, 0)) _ = Some _ |- _ =>
      apply copy_sizes in Hc as (Hk & Htp & _)
  end.
  match goal with
  | Hc : foldl _ (Some _) (for_less 0 MGH_N_SPATIAL) = Some _ |- _ =>
      apply set_spatial_axes_frame in Hc as (Hs1 & Ht1)
  end.
  match goal with
  | Hc : default_spatial_axes v = Some _ |- _ =>
      apply default_spatial_axes_data in Hc as Hd0
  end.
  match goal with
  | Hc : foldl _ (Some (with_n_dimensions _ _, _)) _ = Some _ |- _ =>
      apply set_axis_geometry_data in Hc as Hd1
  end.
  cbn [fst data with_n_dimensions file_data_type set_file_data_type] in *.
  assert (Hsz : forall k, 0 <= k < 4 ->
            load (sizes_in_file x1) k = Some (int_at bytes0 (4 + 4 * k))).
  { intros k Hk4. rewrite Hs1, (Hk k Hk4), Hsizes. unfold load.
    rewrite bool_decide_true by lia. rewrite list_lookup_fmap.
    rewrite lookup_seqZ_lt by lia. cbn. do 2 f_equal. lia. }
  assert (Hx5 : x5 = int_at bytes0 4).
  { pose proof (Hsz 0 ltac:(lia)) as H0. change (4 + 4 * 0) with 4 in H0.
    congruence. }
  assert (Hx6 : x6 = int_at bytes0 8).
  { pose proof (Hsz 1 ltac:(lia)) as H1. change (4 + 4 * 1) with 8 in H1.
    congruence. }
  subst x5 x6.
  set (q0 := set_slice_index _ 0) in H.
  assert (Hq0 : volume_file q0 = next_FILE w /\ slice_index q0 = 0 /\
                sizes_in_file q0 = sizes_in_file x1 /\
                file_data_type q0 = t /\
                length <$> byte_slice_buffer q0 =
                  Some (Z.to_nat (int_mul (int_mul (int_at bytes0 4)
                                                   (int_at bytes0 8))
                                          (get_type_size t)))).
  { subst q0. cbn. rewrite length_fresh_bytes. repeat split; congruence. }
  clearbody q0. destruct Hq0 as (Hq1 & Hq2 & Hq3 & Hq4 & Hq5).
  set (wh := moved_to _ _ _ _) in H.
  assert (Hwh : streams wh =
                  <[next_FILE w := ByteStream bytes0 MGH_HEADER_SIZE]> (streams w) /\
                disk wh = disk w).
  { subst wh. cbn. by rewrite insert_insert_eq. }
  clearbody wh. destruct Hwh as [Hw1 Hw2].
  set (vf := set_volume_sizes _ _) in H.
  assert (Hvf : data vf = data v) by (subst vf; cbn; congruence).
  clearbody vf.
  case_decide.
  - io_step H. destruct a as [[[found q] lo] hi].
    match goal with
    | Hc : mgh_scan_for_voxel_range _ _ _ = Some _ |- _ =>
        apply mgh_scan_frame in Hc as [-> Hq]
    end.
    destruct found; io_step H; simplify_eq.
    + destruct Hq as (Hc1 & Hc2 & Hc3 & Hc4 & Hc5 & Hc6).
      rewrite Hc1, Hc2, Hc4, Hc5, Hc6, Hq3, Hq4, Hq5.
      repeat split; try done; by rewrite Hq4.
    + rewrite Hq3, Hq4, Hq5. repeat split; try done; by rewrite Hq4.
  - io_step H. simplify_eq. rewrite Hq3, Hq4, Hq5.
    repeat split; try done; by rewrite Hq4.
Qed.

(** X9. An MGH open that succeeds: the file is a binary file of at least 284
    bytes, left open on a fresh stream that stands at the first sample,
    and that stream is all that changes in the world. The session holds
    that stream, its cursor is 0, its sizes and its type are those of the
    header, and its slice buffer has the number of bytes that the code
    computes in [int]: the product of the first two sizes, times the size
    of a sample, each product wrapped to 32 bits (when the number is not
    negative). No voxel of the volume is written. *)
Theorem mgh_open_establishes_session
    (convert : Transform -> list Z -> list Real * list Real * (Z -> list Real))
    (filename : string) (v : Volume) (p : volume_input_struct) (w : World)
    (v' : Volume) (p' : volume_input_struct) (w' : World) :
  streams w !! next_FILE w = None ->
  initialize_mgh_format_input convert filename v p w = Some ((OK, v', p'), w') ->
  exists bytes,
    disk w !! filename = Some (Binary bytes) /\
    MGH_HEADER_SIZE <= Z.of_nat (length bytes) /\
    streams w' =
      <[next_FILE w := ByteStream bytes MGH_HEADER_SIZE]> (streams w) /\
    disk w' = disk w /\
    volume_file p' = next_FILE w /\ slice_index p' = 0 /\
    (forall k, 0 <= k < 4 ->
       load (sizes_in_file p') k = Some (int_at bytes (4 + 4 * k))) /\
    mgh_file_type (int_at bytes 20) = Some (file_data_type p') /\
    (let n := int_mul (int_mul (int_at bytes 4) (int_at bytes 8))
                      (get_type_size (file_data_type p')) in
     0 <= n -> length <$> byte_slice_buffer p' = Some (Z.to_nat n)) /\
    data v' = data v.
Proof.
  intros Hfresh H.
  destruct (mgh_open_OK_inv _ _ _ _ _ _ _ _ Hfresh H)
    as (bytes & ? & ? & ? & ? & ? & ? & ? & ? & ? & ?).
  exists bytes. do 8 (split; [done|]). split; [|done]. by intros n _.
Qed.

Lemma mgh_open_establishes_session_witness :
  exists v' p' w',
    streams constant_mgh_world !! next_FILE constant_mgh_world = None /\
    initialize_mgh_format_input unit_geometry "flat.mgh"
      (new_volume UNSIGNED_SHORT NC_SHORT) new_input constant_mgh_world =
      Some ((OK, v', p'), w') /\
    exists bytes,
      disk constant_mgh_world !! "flat.mgh"%string = Some (Binary bytes) /\
      MGH_HEADER_SIZE <= Z.of_nat (length bytes) /\
      streams w' =
        <[next_FILE constant_mgh_world := ByteStream bytes MGH_HEADER_SIZE]>
          (streams constant_mgh_world) /\
      disk w' = disk constant_mgh_world /\
      volume_file p' = next_FILE constant_mgh_world /\ slice_index p' = 0 /\
      (forall k, 0 <= k < 4 ->
         load (sizes_in_file p') k = Some (int_at bytes (4 + 4 * k))) /\
      mgh_file_type (int_at bytes 20) = Some (file_data_type p') /\
      (let n := int_mul (int_mul (int_at bytes 4) (int_at bytes 8))
                        (get_type_size (file_data_type p')) in
       0 <= n -> length <$> byte_slice_buffer p' = Some (Z.to_nat n)) /\
      data v' = data (new_volume UNSIGNED_SHORT NC_SHORT).
Proof.
  eexists _, _, _.
  match goal with
  | |- ?h0 /\ ?h1 /\ _ =>
      assert (H0 : h0) by (vm_compute; reflexivity);
      assert (H1 : h1) by (vm_compute; reflexivity)
  end.
  do 2 (split; [assumption|]).
  exact (mgh_open_establishes_session _ _ _ _ _ _ _ _ H0 H1).
Defined.

(** X10. An MGH session that was opened can be closed, and then no stream is
    left open: the streams and the disk are those from before the open, and
    the slice buffer is released. *)
Theorem mgh_open_then_delete
    (convert : Transform -> list Z -> list Real * list Real * (Z -> list Real))
    (filename : string) (v : Volume) (p : volume_input_struct) (w : World)
    (v' : Volume) (p' : volume_input_struct) (w' : World) :
  streams w !! next_FILE w = None ->
  initialize_mgh_format_input convert filename v p w = Some ((OK, v', p'), w') ->
  exists p'' w'',
    delete_mgh_format_input p' w' = Some (p'', w'') /\
    streams w'' = streams w /\ disk w'' = disk w /\
    byte_slice_buffer p'' = None.
Proof.
  intros Hfresh H.
  destruct (mgh_open_OK_inv _ _ _ _ _ _ _ _ Hfresh H)
    as (bytes & _ & _ & Hs & Hd & Hf & _).
  unfold delete_mgh_format_input, bind, close_file, ret.
  rewrite Hf, Hs, lookup_insert_eq. eexists _, _. split; [done|]. cbn.
  rewrite delete_insert_eq. split; [by apply delete_id|]. by split.
Qed.

Lemma mgh_open_then_delete_witness :
  exists v' p' w',
    streams constant_mgh_world !! next_FILE constant_mgh_world = None /\
    initialize_mgh_format_input unit_geometry "flat.mgh"
      (new_volume UNSIGNED_SHORT NC_SHORT) new_input constant_mgh_world =
      Some ((OK, v', p'), w') /\
    exists p'' w'',
      delete_mgh_format_input p' w' = Some (p'', w'') /\
      streams w'' = streams constant_mgh_world /\
      disk w'' = disk constant_mgh_world /\
      byte_slice_buffer p'' = None.
Proof.
  eexists _, _, _.
  match goal with
  | |- ?h0 /\ ?h1 /\ _ =>
      assert (H0 : h0) by (vm_compute; reflexivity);
      assert (H1 : h1) by (vm_compute; reflexivity)
  end.
  do 2 (split; [assumption|]).
  exact (mgh_open_then_delete _ _ _ _ _ _ _ _ H0 H1).
Defined.

(** ** The MGH loader at and past the last slice *)

(** X11. A call of the MGH loader on a session whose cursor is at or past the
    number of slices reads nothing: the world and the session are as before
    and no voxel is written. It reports that the work is done only when the
    cursor equals the number of slices; past it, as after the open of a file
    that declares a negative number of slices, it reports more to do and
    leaves the volume as it is, so that the next call does the same. *)
Theorem mgh_loader_beyond_last_slice (can_alloc : bool) (v : Volume)
    (in_ptr : volume_input_struct) (w : World) (size2 : Z) :
  load (sizes_in_file in_ptr) 2 = Some size2 ->
  size2 <= slice_index in_ptr ->
  exists v',
    input_more_mgh_format_file can_alloc v in_ptr w =
      Some ((bool_decide (slice_index in_ptr <> size2),
             Some (Rdiv (Real_of_int (slice_index in_ptr)) (Real_of_int size2)),
             v', in_ptr), w) /\
    data v' = data v /\ sizes v' = sizes v /\
    (size2 < slice_index in_ptr -> v' = v).
Proof.
  intros Hsize Hpast.
  unfold input_more_mgh_format_file, input_more_mgh_slice, bind, get_world,
    lift, ret.
  rewrite Hsize. rewrite bool_decide_false by lia. cbn. rewrite Hsize.
  destruct (decide (slice_index in_ptr = size2)) as [Heq|Hne].
  - rewrite bool_decide_false by (by intros ?). eexists. split; [done|].
    repeat split; [by destruct (decide _)..|lia].
  - rewrite bool_decide_true by done. by eexists.
Qed.

Lemma mgh_loader_beyond_last_slice_witness :
  exists v in_ptr w,
    initialize_mgh_format_input unit_geometry "neg.mgh"
      (new_volume NO_DATA_TYPE NC_BYTE) new_input negative_slices_world =
      Some ((OK, v, in_ptr), w) /\
    exists size2,
      load (sizes_in_file in_ptr) 2 = Some size2 /\
      size2 <= slice_index in_ptr /\
      exists v',
        input_more_mgh_format_file true v in_ptr w =
          Some ((bool_decide (slice_index in_ptr <> size2),
                 Some (Rdiv (Real_of_int (slice_index in_ptr))
                            (Real_of_int size2)),
                 v', in_ptr), w) /\
        data v' = data v /\ sizes v' = sizes v /\
        (size2 < slice_index in_ptr -> v' = v).
Proof.
  eexists _, _, _. split; [vm_compute; reflexivity|].
  eexists.
  match goal with
  | |- ?h0 /\ ?h1 /\ _ =>
      assert (H0 : h0) by (vm_compute; reflexivity);
      assert (H1 : h1) by (vm_compute; discriminate)
  end.
  do 2 (split; [assumption|]).
  exact (mgh_loader_beyond_last_slice _ _ _ _ _ H0 H1).
Defined.

(** ** The transform of an MGH header *)

Lemma store2_spec {A} (m : list (list A)) i j x m' :
  store2 m i j x = Some m' ->
  load2 m' i j = Some x /\
  forall i' j', (i', j') <> (i, j) -> load2 m' i' j' = load2 m i' j'.
Proof.
  unfold store2, load2. intros H.
  destruct (load m i) as [row|] eqn:Hrow; [|done]. cbn in H.
  destruct (store row j x) as [row'|] eqn:Hrow'; [|done]. cbn in H.
  apply load_store in H as (Hi & Hother & _).
  apply load_store in Hrow' as (Hj & Hother' & _).
  split; [by rewrite Hi|].
  intros i' j' Hne. destruct (decide (i' = i)) as [->|Hi'].
  - rewrite Hi, Hrow. cbn. apply Hother'. congruence.
  - by rewrite Hother.
Qed.

(** A loop that assigns one cell of a matrix at each step: every cell holds
    the value of the last step that assigned it, or what it held before. *)
Lemma foldl_cells {A K} (step : list (list A) -> K -> option (list (list A)))
    (val : K -> option A) (c : K -> Z * Z) ks m0 m :
  (forall m k, k ∈ ks -> step m k = x ← val k; store2 m (c k).1 (c k).2 x) ->
  foldl (fun m k => m ≫= fun m => step m k) (Some m0) ks = Some m ->
  (forall k, k ∈ ks -> is_Some (val k)) /\
  forall i j,
    load2 m i j =
      match find (fun k => bool_decide (c k = (i, j))) (rev ks) with
      | Some k => val k
      | None => load2 m0 i j
      end.
Proof.
  revert m. induction ks as [|k ks IH] using rev_ind; intros m Hstep H.
  - cbn in H. injection H as <-. split; [|done]. intros k Hk. by inversion Hk.
  - rewrite foldl_app in H. cbn [foldl] in H.
    destruct (foldl _ (Some m0) ks) as [m1|] eqn:Hfold; [|done].
    cbn [mbind option_bind] in H.
    rewrite Hstep in H by (apply elem_of_app; right; by apply list_elem_of_singleton).
    destruct (val k) as [x|] eqn:Hval; [|done]. cbn [mbind option_bind] in H.
    destruct (IH m1) as [Hvals Hcells]; [|done|].
    { intros m2 k2 Hk2. apply Hstep, elem_of_app. by left. }
    apply store2_spec in H as [Hwritten Hothers]. split.
    + intros k2 [Hk2|Hk2]%elem_of_app; [by apply Hvals|].
      apply list_elem_of_singleton in Hk2 as ->. by rewrite Hval.
    + intros i j. rewrite rev_unit. cbn [find]. case_bool_decide as Hc.
      * rewrite Hval. destruct (c k) as [ci cj]. cbn in *. by simplify_eq.
      * rewrite Hothers; [apply Hcells|]. destruct (c k). cbn. congruence.
Qed.

Lemma xform_scaled_cell hdr m k :
  xform_scaled hdr m k =
    x ← mgh_scaled_cosine hdr k.1 k.2; store2 m (id k).1 (id k).2 x.
Proof.
  destruct k as [i j]. unfold xform_scaled, mgh_scaled_cosine. cbn.
  destruct (load2 (dircos hdr) j i); [|done]. cbn.
  by destruct (load (spacing hdr) i).
Qed.

Lemma xform_origin_cell hdr ignore_offsets m i :
  xform_origin hdr ignore_offsets m i =
    x ← mgh_origin hdr ignore_offsets i;
    store2 m (i, MGH_N_COMPONENTS - 1).1 (i, MGH_N_COMPONENTS - 1).2 x.
Proof.
  unfold xform_origin, mgh_origin.
  destruct (foldl _ _ _) as [temp|]; [|done]. cbn.
  destruct ignore_offsets; [done|].
  by destruct (load2 (dircos hdr) _ i).
Qed.

(** The axis of the volume that column [j] of the MGH transform goes to. *)
Lemma xform_column_cell in_ptr mgh_xform t i j a :
  (if bool_decide (j < N_DIMENSIONS)
   then load (axis_index_from_file in_ptr) j else Some j) = Some a ->
  xform_column in_ptr mgh_xform t (i, j) =
    x ← load2 mgh_xform i j; store2 t i a x.
Proof. unfold xform_column. by intros ->. Qed.

(** What the transform of an MGH header holds when the three file axes go
    to the three axes of the volume. *)
Lemma mgh_transform_inv w hdr in_ptr ignore_offsets t a0 a1 a2 :
  load (axis_index_from_file in_ptr) 0 = Some a0 ->
  load (axis_index_from_file in_ptr) 1 = Some a1 ->
  load (axis_index_from_file in_ptr) 2 = Some a2 ->
  a0 <> a1 -> a0 <> a2 -> a1 <> a2 ->
  0 <= a0 < 3 -> 0 <= a1 < 3 -> 0 <= a2 < 3 ->
  mgh_header_to_linear_transform w hdr in_ptr ignore_offsets = Some t ->
  (forall i j a, 0 <= i < 3 -> 0 <= j < 3 ->
     load (axis_index_from_file in_ptr) j = Some a ->
     is_Some (mgh_scaled_cosine hdr i j) /\
     Transform_elem t i a = mgh_scaled_cosine hdr i j) /\
  (forall i, 0 <= i < 3 ->
     is_Some (mgh_origin hdr ignore_offsets i) /\
     Transform_elem t i 3 = mgh_origin hdr ignore_offsets i) /\
  (forall j, 0 <= j < 4 ->
     Transform_elem t 3 j = Some (if decide (j = 3) then Rone else Rzero)).
Proof.
  intros Ha0 Ha1 Ha2 H01 H02 H12 R0 R1 R2 H.
  unfold mgh_header_to_linear_transform in H.
  change (pairs (for_less 0 MGH_N_SPATIAL) (for_less 0 MGH_N_SPATIAL))
    with [(0, 0); (0, 1); (0, 2); (1, 0); (1, 1); (1, 2);
          (2, 0); (2, 1); (2, 2)] in H.
  change (pairs (for_less 0 MGH_N_SPATIAL) (for_less 0 MGH_N_COMPONENTS))
    with [(0, 0); (0, 1); (0, 2); (0, 3); (1, 0); (1, 1); (1, 2); (1, 3);
          (2, 0); (2, 1); (2, 2); (2, 3)] in H.
  change (for_less 0 MGH_N_SPATIAL) with [0; 1; 2] in H.
  destruct (foldl _ (Some _) [(0, 0); _; _; _; _; _; _; _; _])
    as [m1|] eqn:E1; [|done].
  cbn [mbind option_bind] in H.
  destruct (foldl _ (Some m1) [0; 1; 2]) as [m2|] eqn:E2; [|done].
  cbn [mbind option_bind] in H.
  apply (foldl_cells _ (fun k => mgh_scaled_cosine hdr k.1 k.2) id) in E1
    as [V1 C1]; [|intros; apply xform_scaled_cell].
  apply (foldl_cells _ (mgh_origin hdr ignore_offsets)
           (fun i => (i, MGH_N_COMPONENTS - 1))) in E2
    as [V2 C2]; [|intros; apply xform_origin_cell].
  set (col := fun j : Z =>
         if decide (j = 0) then a0 else if decide (j = 1) then a1
         else if decide (j = 2) then a2 else j).
  assert (Hcol : forall i j,
            (i, j) ∈ [(0, 0); (0, 1); (0, 2); (0, 3); (1, 0); (1, 1); (1, 2);
                      (1, 3); (2, 0); (2, 1); (2, 2); (2, 3)] ->
            (if bool_decide (j < N_DIMENSIONS)
             then load (axis_index_from_file in_ptr) j else Some j) =
            Some (col j)).
  { intros i j Hk. unfold col.
    repeat (apply elem_of_cons in Hk as [[= -> ->]|Hk]); try done.
    by inversion Hk. }
  destruct (foldl_cells _ (fun k => load2 m2 k.1 k.2)
              (fun k => (k.1, col k.2)) _ _ _
              ltac:(intros m [i j] Hk; apply xform_column_cell; by apply (Hcol i)) H)
    as [V3 C3].
  assert (Hm2 : forall i j, 0 <= i < 3 -> 0 <= j < 3 ->
            load2 m2 i j = mgh_scaled_cosine hdr i j).
  { intros i j Hi Hj. rewrite C2, C1. unfold MGH_N_COMPONENTS.
    assert (Hi' : i = 0 \/ i = 1 \/ i = 2) by lia.
    assert (Hj' : j = 0 \/ j = 1 \/ j = 2) by lia.
    cbn [rev app find id fst snd].
    destruct Hi' as [-> | [-> | ->]], Hj' as [-> | [-> | ->]];
      repeat (case_bool_decide; simplify_eq; try done). }
  assert (Hm3 : forall i, 0 <= i < 3 ->
            load2 m2 i 3 = mgh_origin hdr ignore_offsets i).
  { intros i Hi. rewrite C2. unfold MGH_N_COMPONENTS.
    assert (Hi' : i = 0 \/ i = 1 \/ i = 2) by lia.
    cbn [rev app find id fst snd].
    destruct Hi' as [-> | [-> | ->]];
      repeat (case_bool_decide; simplify_eq; try done). }
  assert (HT : forall i j, Transform_elem t i j = load2 t i j) by done.
  split; [|split].
  - intros i j a Hi Hj Ha. split.
    { assert (Hi' : i = 0 \/ i = 1 \/ i = 2) by lia.
      assert (Hj' : j = 0 \/ j = 1 \/ j = 2) by lia.
      destruct Hi' as [-> | [-> | ->]], Hj' as [-> | [-> | ->]];
        match goal with
        | |- is_Some (mgh_scaled_cosine hdr ?i ?j) =>
            apply (V1 (i, j)); repeat constructor
        end. }
    rewrite <- Hm2 by done. rewrite HT, C3.
    assert (Hi' : i = 0 \/ i = 1 \/ i = 2) by lia.
    assert (Hj' : j = 0 \/ j = 1 \/ j = 2) by lia.
    cbn [rev app find fst snd].
    change (col 0) with a0. change (col 1) with a1. change (col 2) with a2.
    change (col 3) with 3. clearbody col.
    destruct Hi' as [-> | [-> | ->]], Hj' as [-> | [-> | ->]];
      simplify_eq;
      repeat (case_bool_decide; simplify_eq; try done; try lia).
  - intros i Hi. split.
    { assert (Hi' : i = 0 \/ i = 1 \/ i = 2) by lia.
      destruct Hi' as [-> | [-> | ->]]; apply V2; repeat constructor. }
    rewrite <- Hm3 by done. rewrite HT, C3.
    assert (Hi' : i = 0 \/ i = 1 \/ i = 2) by lia.
    cbn [rev app find fst snd].
    change (col 0) with a0. change (col 1) with a1. change (col 2) with a2.
    change (col 3) with 3. clearbody col.
    destruct Hi' as [-> | [-> | ->]];
      repeat (case_bool_decide; simplify_eq; try done; try lia).
  - intros j Hj. rewrite HT, C3.
    assert (Hj' : j = 0 \/ j = 1 \/ j = 2 \/ j = 3) by lia.
    cbn [rev app find fst snd].
    destruct Hj' as [-> | [-> | [-> | ->]]];
      repeat (case_bool_decide; simplify_eq; try done; try lia).
Qed.

(** Every entry of the local matrix is assigned before it is read. *)
Lemma mgh_xform_assigned hdr ignore_offsets
    (b00 b01 b02 b03 b10 b11 b12 b13 b20 b21 b22 b23 : Real)
    (c00 c01 c02 c03 c10 c11 c12 c13 c20 c21 c22 c23 : Real) :
  (mgh_xform ←
     foldl (fun m ij => m ≫= (fun m => xform_scaled hdr m ij))
           (Some [[b00; b01; b02; b03]; [b10; b11; b12; b13];
                  [b20; b21; b22; b23]])
           [(0, 0); (0, 1); (0, 2); (1, 0); (1, 1); (1, 2);
            (2, 0); (2, 1); (2, 2)];
   foldl (fun m i => m ≫= (fun m => xform_origin hdr ignore_offsets m i))
         (Some mgh_xform) [0; 1; 2]) =
  (mgh_xform ←
     foldl (fun m ij => m ≫= (fun m => xform_scaled hdr m ij))
           (Some [[c00; c01; c02; c03]; [c10; c11; c12; c13];
                  [c20; c21; c22; c23]])
           [(0, 0); (0, 1); (0, 2); (1, 0); (1, 1); (1, 2);
            (2, 0); (2, 1); (2, 2)];
   foldl (fun m i => m ≫= (fun m => xform_origin hdr ignore_offsets m i))
         (Some mgh_xform) [0; 1; 2]).
Proof.
  cbn [foldl mbind option_bind].
  repeat
    (rewrite !xform_scaled_cell; cbn [fst snd id];
     match goal with
     | |- context [mgh_scaled_cosine hdr ?i ?j] =>
         destruct (mgh_scaled_cosine hdr i j); [|done]
     end;
     cbn [mbind option_bind];
     repeat match goal with
     | |- context [store2 ?m ?i ?j ?x] =>
         let r := eval vm_compute in (store2 m i j x) in
         change (store2 m i j x) with r
     end;
     cbn [mbind option_bind]).
  repeat
    (rewrite !xform_origin_cell; cbn [fst snd];
     match goal with
     | |- context [mgh_origin hdr ignore_offsets ?i] =>
         destruct (mgh_origin hdr ignore_offsets i); [|done]
     end;
     cbn [mbind option_bind];
     repeat match goal with
     | |- context [store2 ?m ?i ?j ?x] =>
         let r := eval vm_compute in (store2 m i j x) in
         change (store2 m i j x) with r
     end;
     cbn [mbind option_bind]).
  done.
Qed.

(** X12. The transform of an MGH header does not depend on what the local
    matrix of the function holds when it is declared: all the entries that
    are read have been assigned. *)
Theorem mgh_transform_reads_no_indeterminate_value (w w' : World)
    (hdr : mgh_header) (in_ptr : volume_input_struct) (ignore_offsets : bool) :
  mgh_header_to_linear_transform w hdr in_ptr ignore_offsets =
  mgh_header_to_linear_transform w' hdr in_ptr ignore_offsets.
Proof.
  unfold mgh_header_to_linear_transform.
  change (pairs (for_less 0 MGH_N_SPATIAL) (for_less 0 MGH_N_SPATIAL))
    with [(0, 0); (0, 1); (0, 2); (1, 0); (1, 1); (1, 2);
          (2, 0); (2, 1); (2, 2)].
  change (for_less 0 MGH_N_SPATIAL) with [0; 1; 2].
  change (for_less 0 MGH_N_COMPONENTS) with [0; 1; 2; 3].
  cbn [map].
  pose proof (mgh_xform_assigned hdr ignore_offsets) as H.
  match goal with
  | |- (?a ≫= ?f) = (?b ≫= ?g) =>
      match a with
      | foldl _ (Some [[?b00; ?b01; ?b02; ?b03]; [?b10; ?b11; ?b12; ?b13];
                       [?b20; ?b21; ?b22; ?b23]]) _ =>
        match b with
        | foldl _ (Some [[?c00; ?c01; ?c02; ?c03]; [?c10; ?c11; ?c12; ?c13];
                         [?c20; ?c21; ?c22; ?c23]]) _ =>
            specialize (H b00 b01 b02 b03 b10 b11 b12 b13 b20 b21 b22 b23
                          c00 c01 c02 c03 c10 c11 c12 c13 c20 c21 c22 c23)
        end
      end
  end.
  destruct (foldl _ (Some [[junk_real w _; _; _; _]; _; _]) _) as [m1|];
    destruct (foldl _ (Some [[junk_real w' _; _; _; _]; _; _]) _) as [m1'|];
    cbn [mbind option_bind] in *; try done.
  - by rewrite H.
  - by rewrite H.
  - by rewrite <- H.
Qed.

(** X13. When the three file axes go to the three axes of the volume, the
    transform of an MGH header holds, in the column of the volume axis of
    file axis [j] and the row of world axis [i], the cosine [dircos[j][i]]
    scaled by [spacing[i]]; its last column holds the origins and its last
    row is 0 0 0 1. *)
Theorem mgh_transform_columns (w : World) (hdr : mgh_header)
    (in_ptr : volume_input_struct) (ignore_offsets : bool) (t : Transform) :
  take 3 (axis_index_from_file in_ptr) ≡ₚ [0; 1; 2] ->
  mgh_header_to_linear_transform w hdr in_ptr ignore_offsets = Some t ->
  (forall i j a, 0 <= i < 3 -> 0 <= j < 3 ->
     load (axis_index_from_file in_ptr) j = Some a ->
     is_Some (mgh_scaled_cosine hdr i j) /\
     Transform_elem t i a = mgh_scaled_cosine hdr i j) /\
  (forall i, 0 <= i < 3 ->
     is_Some (mgh_origin hdr ignore_offsets i) /\
     Transform_elem t i 3 = mgh_origin hdr ignore_offsets i) /\
  (forall j, 0 <= j < 4 ->
     Transform_elem t 3 j = Some (if decide (j = 3) then Rone else Rzero)).
Proof.
  intros Hp H.
  destruct (axis_index_from_file in_ptr) as [|a0 [|a1 [|a2 rest]]] eqn:Ha;
    try (apply Permutation_length in Hp; done).
  cbn [take] in Hp.
  assert (Hnodup : NoDup [a0; a1; a2]).
  { rewrite Hp. by apply (bool_decide_unpack _). }
  assert (Hin : forall a, a ∈ [a0; a1; a2] -> 0 <= a < 3).
  { intros a. rewrite Hp. intros Hin.
    repeat (apply elem_of_cons in Hin as [->|Hin]); [lia..|by inversion Hin]. }
  apply NoDup_cons in Hnodup as [N0 Hnodup].
  apply NoDup_cons in Hnodup as [N1 _].
  rewrite <- Ha.
  apply (mgh_transform_inv w hdr in_ptr ignore_offsets t a0 a1 a2);
    [by rewrite Ha..| | | | | | |done].
  - intros ->. apply N0. by left.
  - intros ->. apply N0. right. by left.
  - intros ->. apply N1. by left.
  - apply Hin. by left.
  - apply Hin. right. by left.
  - apply Hin. right. right. by left.
Qed.

Lemma mgh_transform_columns_witness :
  exists hdr w1 v in_ptr w2 t,
    mgh_header_from_file 1 (opened "flat.mgh" constant_mgh_world) =
      Some (Some hdr, w1) /\
    initialize_mgh_format_input unit_geometry "flat.mgh"
      (new_volume NO_DATA_TYPE NC_BYTE) new_input constant_mgh_world =
      Some ((OK, v, in_ptr), w2) /\
    take 3 (axis_index_from_file in_ptr) ≡ₚ [0; 1; 2] /\
    mgh_header_to_linear_transform constant_mgh_world hdr in_ptr false =
      Some t /\
    (forall i j a, 0 <= i < 3 -> 0 <= j < 3 ->
       load (axis_index_from_file in_ptr) j = Some a ->
       is_Some (mgh_scaled_cosine hdr i j) /\
       Transform_elem t i a = mgh_scaled_cosine hdr i j) /\
    (forall i, 0 <= i < 3 ->
       is_Some (mgh_origin hdr false i) /\
       Transform_elem t i 3 = mgh_origin hdr false i) /\
    (forall j, 0 <= j < 4 ->
       Transform_elem t 3 j = Some (if decide (j = 3) then Rone else Rzero)).
Proof.
  eexists _, _, _, _, _, _.
  split; [vm_compute; reflexivity|]. split; [vm_compute; reflexivity|].
  match goal with
  | |- ?h0 /\ ?h1 /\ _ =>
      assert (H0 : h0) by (vm_compute; reflexivity);
      assert (H1 : h1) by (vm_compute; reflexivity)
  end.
  do 2 (split; [assumption|]).
  exact (mgh_transform_columns _ _ _ _ _ H0 H1).
Defined.

(** ** Stream handles during a free-format open *)

Lemma opens_none_ret {A} (a : A) : opens_none (ret a).
Proof. intros w b w' H. apply ret_Some in H. by simplify_eq. Qed.

Lemma opens_none_lift {A} (o : option A) : opens_none (lift o).
Proof. intros w b w' H. apply lift_Some in H as (? & _ & ?). by simplify_eq. Qed.

Lemma opens_none_get_world : opens_none get_world.
Proof. intros w b w' H. apply get_world_Some in H. by simplify_eq. Qed.

Lemma opens_none_bind {A B} (m : io A) (k : A -> io B) :
  opens_none m -> (forall a, opens_none (k a)) -> opens_none (bind m k).
Proof.
  intros Hm Hk w b w' H. apply bind_Some in H as (a & w1 & E & H).
  rewrite (Hk _ _ _ _ H). by eapply Hm.
Qed.

Lemma opens_none_read_token {A} f (accept : token -> option (A * list token)) :
  opens_none (read_token f accept).
Proof.
  intros w a w'. unfold read_token.
  destruct (streams w !! f) as [[[|t rest]|bytes pos]|]; try done;
    try (by intros [= <- <-]).
  destruct (accept t) as [[b back]|]; by intros [= <- <-].
Qed.

Lemma opens_none_close_file f : opens_none (close_file f).
Proof.
  intros w a w'. unfold close_file.
  destruct (streams w !! f); [|done]. by intros [= <- <-].
Qed.

Lemma opens_none_tokens_left f : opens_none (tokens_left f).
Proof.
  intros w a w'. unfold tokens_left.
  destruct (streams w !! f) as [[rest|bytes pos]|]; try done;
    by intros [= <- <-].
Qed.

Create HintDb opens_none.
#[local] Hint Resolve opens_none_ret opens_none_lift opens_none_get_world
  opens_none_read_token opens_none_close_file opens_none_tokens_left
  : opens_none.

(** The combinators, the pairs and the tests of a computation are taken
    apart until its primitives remain. *)
Ltac opens_none :=
  repeat first
    [ progress intros
    | apply opens_none_bind
    | match goal with
      | |- opens_none (match ?x with pair _ _ => _ end) => destruct x
      | |- opens_none (if ?b then _ else _) => destruct b
      | |- opens_none (match ?x with Some _ => _ | None => _ end) => destruct x
      end
    | solve [eauto with opens_none] ].

Lemma opens_none_into {A} (old : A) m : opens_none m -> opens_none (into old m).
Proof. intros Hm. unfold into. opens_none. Qed.

#[local] Hint Resolve opens_none_into : opens_none.

Lemma opens_none_input_int_at file a i : opens_none (input_int_at file a i).
Proof. unfold input_int_at, input_int. opens_none. Qed.

Lemma opens_none_input_real_at file a i : opens_none (input_real_at file a i).
Proof. unfold input_real_at, input_real. opens_none. Qed.

#[local] Hint Resolve opens_none_input_int_at opens_none_input_real_at
  : opens_none.

Lemma opens_none_input_translations file trans :
  opens_none (input_translations file trans).
Proof. unfold input_translations. opens_none. Qed.

Lemma opens_none_input_axis file v axis st : opens_none (input_axis file v axis st).
Proof.
  unfold input_axis, input_nonwhite_character. destruct st. opens_none.
Qed.

#[local] Hint Resolve opens_none_input_translations opens_none_input_axis
  : opens_none.

Lemma opens_none_input_axes axes file v st : opens_none (input_axes axes file v st).
Proof.
  revert st. induction axes as [|axis axes IH]; intros st; cbn [input_axes];
    opens_none.
Qed.

Lemma opens_none_input_slice_files fuel file names offsets :
  opens_none (input_slice_files fuel file names offsets).
Proof.
  revert names offsets. induction fuel as [|fuel IH]; intros names offsets;
    cbn [input_slice_files]; unfold input_string, input_int; opens_none.
Qed.

#[local] Hint Resolve opens_none_input_axes opens_none_input_slice_files
  : opens_none.

Lemma opens_none_input_header_files filename file status vi :
  opens_none (input_header_files filename file status vi).
Proof. unfold input_header_files, input_string, input_int. opens_none. Qed.

Lemma open_file_next filename w status f w' :
  open_file filename w = Some ((status, f), w') ->
  (status = OK /\ f = next_FILE w /\ next_FILE w' = next_FILE w + 1 /\
   forall g, g <> f -> streams w' !! g = streams w !! g) \/
  (status = ERROR /\ w' = w).
Proof.
  unfold open_file. destruct (disk w !! filename); intros [= <- <- <-].
  - left. do 3 (split; [done|]). intros g Hg. cbn.
    by apply lookup_insert_ne.
  - by right.
Qed.

(** Lines 52-97, when they succeed: the header is on a fresh stream, and
    the file holds bytes or shorts. *)
Lemma input_header_start_OK filename v vi w file trans vi1 ddt w1 :
  input_header_start filename v vi w = Some ((OK, file, trans, vi1, ddt), w1) ->
  file = next_FILE w /\ next_FILE w1 = next_FILE w + 1 /\
  (file_data_type vi1 = UNSIGNED_BYTE \/ file_data_type vi1 = UNSIGNED_SHORT) /\
  vi1 = set_file_data_type vi (file_data_type vi1).
Proof.
  unfold input_header_start. intros H. io_step H. io_step H.
  destruct a as [file_status f].
  assert (Hopen : file_status = OK -> f = next_FILE w /\
                                      next_FILE w0 = next_FILE w + 1).
  { intros ->. unfold open_file_with_default_suffix in E.
    destruct (disk w !! filename);
      apply open_file_next in E as [(_ & ? & ? & _)|[? _]]; done. }
  destruct (decide (file_status = OK)) as [->|Hne].
  - destruct (Hopen eq_refl) as [-> Hn]. clear Hopen E.
    io_step H. destruct a as [st n].
    apply opens_none_into in E; [|unfold input_int; apply opens_none_read_token].
    io_step H. destruct a as [st0 tr].
    match goal with
    | Hc : (if decide (st = OK) then ?m1 else ?m2) _ = Some _ |- _ =>
        apply (ltac:(opens_none) : opens_none (if decide (st = OK) then m1 else m2))
          in Hc
    end.
    destruct (decide (st0 = OK)) as [->|Hst]; [|io_step H; by simplify_eq].
    repeat case_decide; io_step H; simplify_eq; cbn;
      (split; [done|]); (split; [lia|]); auto.
  - apply bind_Some in H as ([st n] & w2 & E1 & H).
    apply ret_Some in E1. simplify_eq.
    rewrite decide_False in H by done.
    apply bind_Some in H as ([st0 tr] & w3 & E2 & H).
    apply ret_Some in E2. simplify_eq.
    rewrite decide_False in H by done. apply ret_Some in H. by simplify_eq.
Qed.

(** Lines 192-208: every slice file name comes with an offset. *)
Lemma input_slice_files_lengths fuel : forall file names offsets w names' offsets' w',
  input_slice_files fuel file names offsets w = Some ((names', offsets'), w') ->
  length names = length offsets -> length names' = length offsets'.
Proof.
  induction fuel as [|fuel IH]; intros file names offsets w names' offsets' w' H Hl;
    cbn [input_slice_files] in H.
  - apply ret_Some in H. by simplify_eq.
  - io_step H. destruct a as [st name].
    destruct (decide (st = OK)); [|apply ret_Some in H; by simplify_eq].
    io_step H. destruct a as [st' off]. apply IH in H; [done|].
    rewrite !length_app. cbn. lia.
Qed.

(** Lines 173-226, when they succeed: the axes were distinct and the header
    file is closed; in the mode of one file per slice, the number of slices
    is the number of file names read, each with its offset. *)
Lemma input_header_files_OK filename file status vi w vi' abs off w' :
  input_header_files filename file status vi w = Some ((OK, vi', abs, off), w') ->
  status = OK /\ two_axis_indices_equal vi = Some false /\
  next_FILE w' = next_FILE w /\ streams w' !! file = None /\
  axis_index_from_file vi' = axis_index_from_file vi /\
  file_data_type vi' = file_data_type vi /\
  (forall k, k <> 0 -> load (sizes_in_file vi') k = load (sizes_in_file vi) k) /\
  if one_file_per_slice vi'
  then exists names offsets,
         length names = length offsets /\
         load (sizes_in_file vi') 0 = Some (Z.of_nat (length names)) /\
         (names <> [] -> slice_filenames vi' = Some names /\
                         slice_byte_offsets vi' = Some offsets)
  else sizes_in_file vi' = sizes_in_file vi.
Proof.
  intros H. pose proof (opens_none_input_header_files _ _ _ _ _ _ _ H) as Hnext.
  unfold input_header_files in H. io_step H.
  assert (Hstatus : status = OK /\ two_axis_indices_equal vi = Some false).
  { destruct (decide (status = OK)) as [->|Hne].
    - apply bind_Some in H as (st1 & w1 & E1 & H).
      apply bind_Some in E1 as (dup & ? & Eeq & E1).
      apply lift_Some in Eeq as (b & Heq & [= -> ->]).
      apply ret_Some in E1. injection E1 as -> ->.
      destruct b; [|done]. exfalso.
      rewrite decide_False in H by done.
      apply bind_Some in H as (r & w2 & E2 & H). apply ret_Some in E2.
      injection E2 as -> ->. rewrite decide_False in H by done.
      apply bind_Some in H as (st3 & w3 & E3 & H). apply ret_Some in E3.
      injection E3 as -> ->. apply ret_Some in H. by simplify_eq.
    - exfalso. apply bind_Some in H as (st1 & w1 & E1 & H).
      apply ret_Some in E1. injection E1 as -> ->.
      rewrite decide_False in H by done.
      apply bind_Some in H as (r & w2 & E2 & H). apply ret_Some in E2.
      injection E2 as -> ->. rewrite decide_False in H by done.
      apply bind_Some in H as (st3 & w3 & E3 & H). apply ret_Some in E3.
      injection E3 as -> ->. apply ret_Some in H. by simplify_eq. }
  destruct Hstatus as [-> Heq]. do 2 (split; [done|]). split; [done|].
  apply bind_Some in H as (st1 & w1 & E1 & H).
  apply bind_Some in E1 as (dup & ? & Eeq & E1).
  apply lift_Some in Eeq as (b & Heq' & [= -> ->]).
  apply ret_Some in E1. injection E1 as -> ->.
  rewrite Heq in Heq'. injection Heq' as <-.
  rewrite decide_True in H by done.
  apply bind_Some in H as ([[[st vi2] abs2] off2] & w2 & E2 & H).
  apply bind_Some in H as (st3 & w3 & E3 & H).
  apply ret_Some in H. injection H as <- <- <- <- <-.
  destruct (decide (st = OK)) as [->|Hst];
    [|apply ret_Some in E3; by simplify_eq].
  split.
  { unfold close_file in E3. destruct (streams w2 !! file); [|done].
    injection E3 as <-. cbn. apply lookup_delete_eq. }
  clear E3.
  io_step E2. case_bool_decide as Hs.
  - apply bind_Some in E2 as (fuel & w4 & Ef & E2).
    apply bind_Some in E2 as ([names offsets] & w5 & Hf & E2).
    apply input_slice_files_lengths in Hf; [|done].
    io_step E2. apply ret_Some in E2. simplify_eq. cbn.
    match goal with
    | Hf : store _ 0 _ = Some _ |- _ =>
        apply load_store in Hf as (Hl0 & Hlk & _)
    end.
    assert (Hsz : forall (q : volume_input_struct),
              sizes_in_file
                (if decide (names = []) then q
                 else set_slice_byte_offsets
                        (set_slice_filenames q (Some names)) (Some offsets)) =
              sizes_in_file q) by (intros q; by case_decide).
    rewrite Hsz in *. cbn in *.
    split; [by case_decide|]. split; [by case_decide|].
    split; [done|]. exists names, offsets. do 2 (split; [done|]).
    intros Hne. by rewrite decide_False by done.
  - apply bind_Some in E2 as ([st name] & w4 & Ef & E2).
    apply bind_Some in E2 as ([rd o] & w5 & Ho & E2).
    apply ret_Some in E2. by simplify_eq.
Qed.

(** With a single image file no open whose behaviour is defined returns
    [OK]: the image file is opened on a new stream, but the stream that
    lines 289 and 326 position is [file], the stream of the header, closed
    at line 226, and the use of a closed stream is undefined. *)
Lemma single_file_never_OK file abs off n status v vi w st1 v1 vi1 w1 vi2 w2 :
  streams w !! file = None -> next_FILE w <> file ->
  one_file_per_slice vi = false ->
  find_voxel_range file abs off n status v vi w = Some ((st1, v1, vi1), w1) ->
  open_volume_file file abs off st1 vi1 w1 = Some ((OK, vi2), w2) ->
  False.
Proof.
  intros Hclosed Hnext Hsingle Hfind Hopen.
  assert (Hseek : forall st f w3 (k : Status -> io (Status * volume_input_struct)) r,
    open_file abs w = Some ((st, f), w3) ->
    (let* status :=
       if decide (st = OK) then set_file_position file off else ret st in
     k status) w3 = Some r ->
    st = ERROR /\ w3 = w /\ k ERROR w = Some r).
  { intros st f w3 k r Ho Hk.
    apply open_file_next in Ho as [(-> & -> & _ & Hs)|[-> ->]].
    - rewrite decide_True in Hk by done. io_step Hk.
      unfold set_file_position in E. rewrite Hs, Hclosed in E by done. done.
    - rewrite decide_False in Hk by done. io_step Hk.
      apply ret_Some in E. by simplify_eq. }
  unfold find_voxel_range in Hfind. case_bool_decide as Hq.
  - rewrite Hsingle in Hfind. cbn [negb] in Hfind.
    apply bind_Some in Hfind as ([st vi3] & w3 & E & Hfind).
    apply bind_Some in E as ([st0 f] & w4 & Ho & E).
    eapply Hseek in E as (-> & -> & E); [|done].
    apply ret_Some in E. simplify_eq.
    io_inv Hfind. simplify_eq.
    match goal with
    | Hc : (if bool_decide (ERROR = OK /\ _) then _ else _) _ = Some _ |- _ =>
        rewrite bool_decide_false in Hc by (by intros [? _]);
        apply ret_Some in Hc; simplify_eq
    end.
  - apply ret_Some in Hfind. injection Hfind as <- <- <- <-.
    unfold open_volume_file in Hopen. case_bool_decide as Hs.
    + apply bind_Some in Hopen as ([st0 f] & w4 & Ho & E).
      eapply Hseek in E as (-> & -> & E); [|done].
      apply ret_Some in E. by simplify_eq.
    + apply ret_Some in Hopen. simplify_eq. by destruct Hs.
Qed.

(** ** What a free-format open establishes *)

Lemma same_header_refl vi : same_header vi vi.
Proof. by repeat split. Qed.

Lemma same_header_trans vi1 vi2 vi3 :
  same_header vi1 vi2 -> same_header vi2 vi3 -> same_header vi1 vi3.
Proof.
  unfold same_header. intros (?&?&?&?&?&?&?) (?&?&?&?&?&?&?).
  repeat split; congruence.
Qed.

Lemma input_slice_header vi w status vi' w' :
  input_slice vi w = Some ((status, vi'), w') -> same_header vi vi'.
Proof.
  unfold input_slice. intros H. io_step H.
  case_bool_decide as Hlt.
  - io_step H. destruct a as [status1 file].
    io_step H. destruct a as [status2 vi2].
    io_inv H. simplify_eq.
    assert (Hf : same_header vi vi2).
    { destruct (decide (status1 = OK)).
      - io_inv E1.
        destruct (file_data_type vi) eqn:Et; io_inv E1; simplify_eq;
          by repeat split.
      - io_inv E1. simplify_eq. apply same_header_refl. }
    eapply same_header_trans; [exact Hf|]. by repeat split.
  - io_step H. simplify_eq. apply same_header_refl.
Qed.

Lemma scan_slice_header n slice st w st' w' :
  scan_slice n slice st w = Some (st', w') -> same_header st.1 st'.1.
Proof.
  destruct st as [vi range]. unfold scan_slice. intros H.
  io_inv H. simplify_eq. cbn. eauto using input_slice_header.
Qed.

(** Lines 281-327 with one file per slice: the prepass and the reopening
    leave the status, the header part of the state and the sizes of the
    volume as they were. *)
Lemma find_voxel_range_per_slice file abs off n status v vi w st1 v1 vi1 w1 :
  one_file_per_slice vi = true ->
  find_voxel_range file abs off n status v vi w = Some ((st1, v1, vi1), w1) ->
  st1 = status /\ same_header vi vi1 /\ sizes v1 = sizes v.
Proof.
  intros Hper H. unfold find_voxel_range in H. case_bool_decide as Hq.
  - rewrite Hper in H. cbn [negb] in H.
    apply bind_Some in H as ([st vi3] & w3 & E & H).
    apply ret_Some in E. simplify_eq.
    io_step H.
    apply bind_Some in H as ([vi4 [lo hi]] & w4 & Escan & H).
    assert (Hh : same_header vi vi4).
    { eapply (foreach_inv (fun s => same_header vi s.1)) in Escan; [done| |].
      - intros i s wa s' wb Hs Hb.
        eapply same_header_trans; [exact Hs|]. by eapply scan_slice_header.
      - by repeat split. }
    pose proof Hh as (_ & _ & _ & Hper4 & _). cbn in Hper4.
    rewrite bool_decide_false in H by (rewrite Hper4, Hper; by intros [_ ?]).
    io_inv H. apply ret_Some in E0. by simplify_eq.
  - apply ret_Some in H. simplify_eq. split; [done|].
    split; [apply same_header_refl|done].
Qed.

Lemma open_volume_file_per_slice file abs off status vi w st1 vi1 w1 :
  one_file_per_slice vi = true ->
  open_volume_file file abs off status vi w = Some ((st1, vi1), w1) ->
  st1 = status /\ vi1 = vi.
Proof.
  intros Hper H. unfold open_volume_file in H.
  rewrite bool_decide_false in H by (rewrite Hper; by intros [_ ?]).
  apply ret_Some in H. by simplify_eq.
Qed.

(** A status other than [OK] passes lines 281-327 unchanged. *)
Lemma find_voxel_range_failed file abs off n status v vi w st1 v1 vi1 w1 :
  status <> OK ->
  find_voxel_range file abs off n status v vi w = Some ((st1, v1, vi1), w1) ->
  st1 = status.
Proof.
  intros Hne H. unfold find_voxel_range in H.
  rewrite bool_decide_false in H by (by intros [? _]).
  apply ret_Some in H. by simplify_eq.
Qed.

Lemma open_volume_file_failed file abs off status vi w st1 vi1 w1 :
  status <> OK ->
  open_volume_file file abs off status vi w = Some ((st1, vi1), w1) ->
  st1 = status.
Proof.
  intros Hne H. unfold open_volume_file in H.
  rewrite bool_decide_false in H by (by intros [? _]).
  apply ret_Some in H. by simplify_eq.
Qed.

Lemma alloc_slice_buffer_header w status n vi :
  same_header vi (alloc_slice_buffer w status n vi).
Proof.
  unfold alloc_slice_buffer. destruct (decide (status = OK)); [|apply same_header_refl].
  destruct (file_data_type vi) eqn:Et; by repeat split.
Qed.

(** Lines 232-244 for the three axes, when no two file axes go to the same
    volume axis: each volume axis receives the size of its file axis. *)
Lemma record_axes_sizes vi seps s0 vs0 t0 s vs t :
  record_axes vi seps (s0, vs0, t0) = Some (s, vs, t) ->
  two_axis_indices_equal vi = Some false ->
  forall k, 0 <= k < N_DIMENSIONS ->
    exists a n, load (axis_index_from_file vi) k = Some a /\
                load (sizes_in_file vi) k = Some n /\
                load s a = Some n.
Proof.
  intros H Hdistinct k Hk.
  unfold two_axis_indices_equal in Hdistinct.
  destruct (load (axis_index_from_file vi) X) as [ax|] eqn:Eax; [|done].
  destruct (load (axis_index_from_file vi) Y) as [ay|] eqn:Eay; [|done].
  destruct (load (axis_index_from_file vi) Z_) as [az|] eqn:Eaz; [|done].
  cbn in Hdistinct. injection Hdistinct as Hdistinct.
  apply bool_decide_eq_false in Hdistinct.
  assert (Hxy : ax <> ay) by tauto. assert (Hxz : ax <> az) by tauto.
  assert (Hyz : ay <> az) by tauto. clear Hdistinct.
  unfold record_axes in H. change (for_less 0 N_DIMENSIONS) with [0; 1; 2] in H.
  cbn [foldl] in H.
  assert (Hstep : forall axis sa va ta sb vb tb,
    record_axis vi seps axis (sa, va, ta) = Some (sb, vb, tb) ->
    exists a n, load (axis_index_from_file vi) axis = Some a /\
                load (sizes_in_file vi) axis = Some n /\
                store sa a n = Some sb).
  { intros axis sa va ta sb vb tb Hr. unfold record_axis in Hr.
    destruct (load (axis_index_from_file vi) axis) as [a|]; [|done].
    destruct (load (sizes_in_file vi) axis) as [n|]; [|done].
    cbn [mbind option_bind] in Hr.
    destruct (store sa a n) as [sc|] eqn:Es; [|done].
    exists a, n. do 2 (split; [done|]).
    cbn [mbind option_bind] in Hr.
    do 3 (match type of Hr with
          | mbind _ ?x = Some _ =>
              destruct x; [|done]; cbn [mbind option_bind] in Hr
          end).
    destruct (Rlt _ Rzero); [|by simplify_eq].
    do 3 (match type of Hr with
          | mbind _ ?x = Some _ =>
              destruct x; [|done]; cbn [mbind option_bind] in Hr
          end).
    by simplify_eq. }
  cbn [mbind option_bind] in H.
  destruct (record_axis vi seps 0 (s0, vs0, t0)) as [[[s1 vs1] t1]|] eqn:E0;
    [|done].
  cbn [mbind option_bind] in H.
  destruct (record_axis vi seps 1 (s1, vs1, t1)) as [[[s2 vs2] t2]|] eqn:E1;
    [|done].
  cbn [mbind option_bind] in H.
  apply Hstep in E0 as (a0 & n0 & Ha0 & Hn0 & Hs0).
  apply Hstep in E1 as (a1 & n1 & Ha1 & Hn1 & Hs1).
  apply Hstep in H as (a2 & n2 & Ha2 & Hn2 & Hs2).
  change X with 0 in *. change Y with 1 in *. change Z_ with 2 in *.
  simplify_eq.
  apply load_store in Hs0 as (L0 & _ & _).
  apply load_store in Hs1 as (L1 & K1 & _).
  apply load_store in Hs2 as (L2 & K2 & _).
  unfold N_DIMENSIONS in Hk.
  assert (Hcases : k = 0 \/ k = 1 \/ k = 2) by lia.
  destruct Hcases as [-> | [-> | ->]]; eexists _, _;
    (split; [done|]); (split; [done|]).
  - rewrite K2, K1 by done. done.
  - rewrite K2 by done. done.
  - done.
Qed.

Lemma input_axis_type file v axis st w complete st' w' :
  input_axis file v axis st w = Some ((complete, st'), w') ->
  file_data_type st'.1 = file_data_type st.1.
Proof.
  destruct st as [vi seps]. unfold input_axis. intros H.
  apply bind_Some in H as ([st1 s] & w1 & _ & H).
  destruct (decide (st1 = OK)); [|apply ret_Some in H; by simplify_eq].
  apply bind_Some in H as ([st2 seps2] & w2 & _ & H).
  destruct (decide (st2 = OK)); [|apply ret_Some in H; by simplify_eq].
  apply bind_Some in H as ([st3 ch] & w3 & _ & H).
  destruct (decide (st3 = OK)); [|apply ret_Some in H; by simplify_eq].
  destruct (axis_of_letter ch); [|apply ret_Some in H; by simplify_eq].
  io_inv H. by simplify_eq.
Qed.

Lemma input_axes_type axes file v st w status st' w' :
  input_axes axes file v st w = Some ((status, st'), w') ->
  file_data_type st'.1 = file_data_type st.1.
Proof.
  revert st w. induction axes as [|axis axes IH]; intros st w H;
    cbn [input_axes] in H.
  - apply ret_Some in H. by simplify_eq.
  - apply bind_Some in H as ([complete st1] & w1 & E & H).
    apply input_axis_type in E. cbn in E. destruct complete.
    + apply IH in H. congruence.
    + apply ret_Some in H. by simplify_eq.
Qed.

Lemma record_volume_info_sizes w v vi seps trans ddt v' :
  record_volume_info w OK v vi seps trans ddt = Some v' ->
  exists s vs t,
    record_axes vi seps
      (map (junk_int w) (seq 0 3), map (junk_real w) (seq 5 5), trans) =
      Some (s, vs, t) /\
    sizes v' = s.
Proof.
  unfold record_volume_info. rewrite decide_True by done. intros H.
  destruct (record_axes vi seps _) as [[[s vs] t]|]; [|done].
  cbn in H. injection H as <-. by exists s, vs, t.
Qed.

(** What every free-format open that returns [OK] with defined behaviour
    has done. *)
Lemma free_open_inv filename v vi w v' vi' w' :
  initialize_free_format_input filename v vi w = Some ((OK, v', vi'), w') ->
  one_file_per_slice vi' = true /\
  (file_data_type vi' = UNSIGNED_BYTE \/ file_data_type vi' = UNSIGNED_SHORT) /\
  slice_index vi' = 0 /\
  two_axis_indices_equal vi' = Some false /\
  (forall k, 0 <= k < N_DIMENSIONS ->
     exists a n, load (axis_index_from_file vi') k = Some a /\
                 load (sizes_in_file vi') k = Some n /\
                 load (sizes v') a = Some n) /\
  exists names offsets,
    length names = length offsets /\
    load (sizes_in_file vi') 0 = Some (Z.of_nat (length names)) /\
    (names <> [] -> slice_filenames vi' = Some names /\
                    slice_byte_offsets vi' = Some offsets).
Proof.
  intros H. unfold initialize_free_format_input in H. io_step H.
  apply bind_Some in H as ([[[[st0 file] trans] vi1] ddt] & w1 & Estart & H).
  apply bind_Some in H as (? & ? & Ev1 & H).
  apply lift_Some in Ev1 as (v1 & Ev1 & [= -> ->]).
  apply bind_Some in H as ([st2 [vi2 seps]] & w2 & Eaxes & H).
  apply bind_Some in H as (? & ? & Ev2 & H).
  apply lift_Some in Ev2 as (v2 & Ev2 & [= -> ->]).
  apply bind_Some in H as ([[[st3 vi3] abs] off] & w3 & Efiles & H).
  apply bind_Some in H as (? & ? & Erec & H).
  apply lift_Some in Erec as (v3 & Erec & [= -> ->]).
  apply bind_Some in H as (? & ? & Es1 & H).
  apply lift_Some in Es1 as (size1 & Es1 & [= -> ->]).
  apply bind_Some in H as (? & ? & Es2 & H).
  apply lift_Some in Es2 as (size2 & Es2 & [= -> ->]).
  apply bind_Some in H as ([[st4 v4] vi4] & w4 & Efind & H).
  apply bind_Some in H as ([st5 vi5] & w5 & Eopen & H).
  apply ret_Some in H. simplify_eq.
  assert (st4 = OK) as ->.
  { destruct (decide (st4 = OK)) as [|Hne]; [done|].
    by apply (open_volume_file_failed _ _ _ _ _ _ _ _ _ Hne) in Eopen. }
  assert (st3 = OK) as ->.
  { destruct (decide (st3 = OK)) as [|Hne]; [done|].
    by apply (find_voxel_range_failed _ _ _ _ _ _ _ _ _ _ _ _ Hne) in Efind. }
  pose proof (input_header_files_OK _ _ _ _ _ _ _ _ _ Efiles)
    as (-> & Hdistinct & Hnext3 & Hclosed & Haxis3 & Htype3 & Hsizes3 & Hnames).
  assert (st0 = OK) as ->.
  { destruct (decide (st0 = OK)) as [|Hne]; [done|].
    apply ret_Some in Eaxes. by simplify_eq. }
  rewrite decide_True in Eaxes by done.
  pose proof (input_header_start_OK _ _ _ _ _ _ _ _ _ Estart)
    as (-> & Hnext1 & Htype1 & _).
  pose proof (opens_none_input_axes _ _ _ _ _ _ _ Eaxes) as Hnext2.
  apply input_axes_type in Eaxes as Htype2. cbn in Htype2.
  pose proof (alloc_slice_buffer_header w OK (size1 * size2) vi3)
    as Halloc.
  set (vi3a := alloc_slice_buffer w OK (size1 * size2) vi3) in *.
  destruct (one_file_per_slice vi3) eqn:Hper.
  - assert (Hper' : one_file_per_slice vi3a = true).
    { destruct Halloc as (_ & _ & _ & -> & _). done. }
    apply (find_voxel_range_per_slice _ _ _ _ _ _ _ _ _ _ _ _ Hper') in Efind
      as (_ & Hfind & Hsizes4).
    pose proof (same_header_trans _ _ _ Halloc Hfind) as Hh.
    assert (Hper4 : one_file_per_slice vi4 = true).
    { destruct Hfind as (_ & _ & _ & -> & _). done. }
    apply (open_volume_file_per_slice _ _ _ _ _ _ _ _ _ Hper4) in Eopen
      as (_ & ->).
    destruct Hh as (Ht & Hs & Ha & Hp & _ & Hn & Ho).
    apply record_volume_info_sizes in Erec as (s & vs & t & Erec & Hv3).
    assert (Hdistinct3 : two_axis_indices_equal vi3 = Some false).
    { unfold two_axis_indices_equal in *. by rewrite Haxis3. }
    pose proof (record_axes_sizes _ _ _ _ _ _ _ _ Erec Hdistinct3) as Hrec.
    cbn [one_file_per_slice file_data_type slice_index set_slice_index
         axis_index_from_file sizes_in_file slice_filenames
         slice_byte_offsets].
    split; [congruence|]. split; [rewrite Ht, Htype3, Htype2; exact Htype1|].
    split; [done|]. split.
    { unfold two_axis_indices_equal in *.
      cbn [axis_index_from_file set_slice_index]. by rewrite Ha. }
    split.
    { intros k Hk. destruct (Hrec k Hk) as (a & n & Hka & Hkn & Hks).
      exists a, n. rewrite Ha, Hs, Hsizes4, Hv3. done. }
    destruct Hnames as (names & offsets & Hlen & Hsize0 & Htables).
    exists names, offsets. rewrite Hs, Hn, Ho. done.
  - exfalso.
    assert (Hper' : one_file_per_slice vi3a = false).
    { destruct Halloc as (_ & _ & _ & -> & _). done. }
    eapply (single_file_never_OK (next_FILE w)); [| |exact Hper'| |]; cycle 2.
    + exact Efind.
    + exact Eopen.
    + exact Hclosed.
    + lia.
Qed.

(** X14. After a free-format open that returns [OK] with one file per
    slice, every slice of the session has an entry in the table of file
    names and in the table of offsets: the two tables are as long as the
    number of slices, so that the lookups of [input_slice] stay within
    them. *)
Theorem free_open_slice_tables filename v vi w v' vi' w' :
  initialize_free_format_input filename v vi w = Some ((OK, v', vi'), w') ->
  one_file_per_slice vi' = true ->
  exists n,
    load (sizes_in_file vi') 0 = Some n /\ 0 <= n /\
    forall k, 0 <= k < n ->
      exists name offset,
        (slice_filenames vi' ≫= fun names => load names k) = Some name /\
        (slice_byte_offsets vi' ≫= fun offsets => load offsets k) =
          Some offset.
Proof.
  intros H _.
  apply free_open_inv in H
    as (_ & _ & _ & _ & _ & names & offsets & Hlen & Hn & Htables).
  exists (Z.of_nat (length names)). split; [done|]. split; [lia|].
  intros k Hk.
  destruct Htables as [-> ->]; [by intros ->; cbn in Hk; lia|].
  cbn [mbind option_bind]. unfold load. rewrite bool_decide_true by lia.
  destruct (lookup_lt_is_Some_2 names (Z.to_nat k)) as [name Hname]; [lia|].
  destruct (lookup_lt_is_Some_2 offsets (Z.to_nat k)) as [offset Hoffset];
    [lia|].
  by exists name, offset.
Qed.

Lemma free_open_slice_tables_witness :
  exists v' vi' w',
    initialize_free_format_input "scan.fre" turned_volume new_input zyx_world =
      Some ((OK, v', vi'), w') /\
    one_file_per_slice vi' = true /\
    exists n,
      load (sizes_in_file vi') 0 = Some n /\ 0 <= n /\
      forall k, 0 <= k < n ->
        exists name offset,
          (slice_filenames vi' ≫= fun names => load names k) = Some name /\
          (slice_byte_offsets vi' ≫= fun offsets => load offsets k) =
            Some offset.
Proof.
  eexists _, _, _.
  match goal with
  | |- ?h1 /\ ?h2 /\ _ =>
      assert (H1 : h1) by (vm_compute; reflexivity);
      assert (H2 : h2) by (vm_compute; reflexivity)
  end.
  do 2 (split; [assumption|]).
  exact (free_open_slice_tables _ _ _ _ _ _ _ H1 H2).
Defined.

(** X15. After a free-format open that returns [OK] the file holds unsigned bytes
    or unsigned shorts, the cursor is at the first slice, the three file axes
    go to three different volume axes, and each volume axis has the size of
    its file axis: the state is a session of as many slices as the header
    names. *)
Theorem free_open_establishes_session filename v vi w v' vi' w' :
  initialize_free_format_input filename v vi w = Some ((OK, v', vi'), w') ->
  (file_data_type vi' = UNSIGNED_BYTE \/ file_data_type vi' = UNSIGNED_SHORT) /\
  slice_index vi' = 0 /\
  two_axis_indices_equal vi' = Some false /\
  (forall k, 0 <= k < N_DIMENSIONS ->
     exists a n, load (axis_index_from_file vi') k = Some a /\
                 load (sizes_in_file vi') k = Some n /\
                 load (sizes v') a = Some n) /\
  exists total, free_session total v' vi'.
Proof.
  intros H.
  apply free_open_inv in H as (_ & Ht & Hi & Hd & Hs & names & _ & _ & Hn & _).
  do 4 (split; [done|]). exists (Z.of_nat (length names)).
  split; [done|]. split; [|lia].
  destruct (Hs 0) as (a & n & Ha & Hn' & Hv); [by unfold N_DIMENSIONS|].
  exists a. split; [done|]. congruence.
Qed.

Lemma free_open_establishes_session_witness :
  exists v' vi' w',
    initialize_free_format_input "scan.fre" turned_volume new_input zyx_world =
      Some ((OK, v', vi'), w') /\
    (file_data_type vi' = UNSIGNED_BYTE \/ file_data_type vi' = UNSIGNED_SHORT) /\
    slice_index vi' = 0 /\
    two_axis_indices_equal vi' = Some false /\
    (forall k, 0 <= k < N_DIMENSIONS ->
       exists a n, load (axis_index_from_file vi') k = Some a /\
                   load (sizes_in_file vi') k = Some n /\
                   load (sizes v') a = Some n) /\
    exists total, free_session total v' vi'.
Proof.
  eexists _, _, _.
  match goal with
  | |- ?h1 /\ _ => assert (H1 : h1) by (vm_compute; reflexivity)
  end.
  split; [exact H1|]. exact (free_open_establishes_session _ _ _ _ _ _ _ H1).
Defined.

(** ** The stream of a slice file *)

Lemma set_file_position_stream f p w status w' :
  set_file_position f p w = Some (status, w') ->
  others_kept f w w' /\ next_FILE w' = next_FILE w /\
  is_Some (streams w' !! f).
Proof.
  unfold set_file_position, others_kept.
  destruct (streams w !! f) as [[rest|bytes pos]|] eqn:Hf; [| |done].
  - intros [= <- <-]. by rewrite Hf.
  - case_bool_decide; intros [= <- <-]; cbn.
    + rewrite lookup_insert_eq, delete_insert_eq. by eauto.
    + by rewrite Hf.
Qed.

Lemma read_elements_stream f size n w els w' :
  read_elements f size n w = Some (els, w') ->
  others_kept f w w' /\ next_FILE w' = next_FILE w /\
  is_Some (streams w' !! f).
Proof.
  unfold read_elements, others_kept.
  destruct (streams w !! f) as [[rest|bytes pos]|] eqn:Hf; [| |done].
  - intros [= <- <-]. by rewrite Hf.
  - case_bool_decide; [|done]. intros [= <- <-]. cbn.
    rewrite lookup_insert_eq, delete_insert_eq. by eauto.
Qed.

Lemma io_binary_data_stream {A} f (buffer : option (list A)) size decode n w
    status buffer' w' :
  io_binary_data f buffer size decode n w = Some ((status, buffer'), w') ->
  others_kept f w w' /\ next_FILE w' = next_FILE w /\
  is_Some (streams w' !! f).
Proof.
  unfold io_binary_data. intros H. io_step H.
  case_bool_decide; [|done]. io_step H. io_step H.
  apply read_elements_stream in E0. apply ret_Some in H. by simplify_eq.
Qed.

(** X16. With one file per slice, a slice that is read leaves the open streams
    as they were: the file of the slice is closed again. When the slice is
    not read, either nothing was opened, or the file of the slice was opened
    and is left open: it is closed only after a successful read. *)
Theorem input_slice_closes_after_success (vi : volume_input_struct)
    (w : World) (status : Status) (vi' : volume_input_struct) (w' : World) :
  one_file_per_slice vi = true ->
  streams w !! next_FILE w = None ->
  input_slice vi w = Some ((status, vi'), w') ->
  disk w' = disk w /\
  match status with
  | OK => streams w' = streams w /\ next_FILE w' = next_FILE w + 1
  | ERROR =>
      w' = w \/
      (next_FILE w' = next_FILE w + 1 /\
       is_Some (streams w' !! next_FILE w) /\
       delete (next_FILE w) (streams w') = streams w)
  end.
Proof.
  intros Hper Hfresh H. unfold input_slice in H. io_step H.
  case_bool_decide as Hlt; cycle 1.
  { apply ret_Some in H. injection H as -> -> ->. split; [done|by left]. }
  rewrite Hper in H.
  apply bind_Some in H as ([st1 file] & w1 & Eopen & H).
  io_step Eopen. io_step Eopen.
  apply bind_Some in Eopen as ([st0 f] & w0 & Eo & Eopen).
  apply open_file_next in Eo as Hopen.
  unfold open_file in Eo.
  destruct Hopen as [(-> & -> & Hnext & _)|[-> ->]]; cycle 1.
  { (* the slice file cannot be opened *)
    rewrite decide_False in Eopen by done.
    apply ret_Some in Eopen. simplify_eq.
    rewrite decide_False in H by done.
    io_inv H. apply ret_Some in E2. simplify_eq.
    rewrite decide_False in E3 by done. apply ret_Some in E3. simplify_eq.
    split; [done|by left]. }
  destruct (disk w !! _) as [d|]; [|done]. injection Eo as <-.
  set (w0 := with_streams w (<[next_FILE w := start_stream d]> (streams w))
                          (next_FILE w + 1)) in *.
  assert (Hbase : others_kept (next_FILE w) w0 w0 /\
                  delete (next_FILE w) (streams w0) = streams w /\
                  disk w0 = disk w).
  { split; [done|]. split; [|done]. cbn.
    rewrite delete_insert_eq. by apply delete_id. }
  destruct Hbase as (_ & Hdel0 & Hdisk0).
  rewrite decide_True in Eopen by done.
  io_step Eopen. io_step Eopen.
  apply bind_Some in Eopen as (st2 & w2 & Eseek & Eopen).
  apply ret_Some in Eopen. simplify_eq.
  apply set_file_position_stream in Eseek as ([Hd1 Hk1] & Hn1 & Ho1).
  apply bind_Some in H as ([st3 vi3] & w3 & Eread & H).
  assert (Hread : delete (next_FILE w) (streams w3) = streams w /\
                  disk w3 = disk w /\ next_FILE w3 = next_FILE w + 1 /\
                  is_Some (streams w3 !! next_FILE w) /\
                  (st2 = ERROR -> st3 = ERROR)).
  { destruct (decide (st2 = OK)) as [->|Hne].
    - io_step Eread. io_step Eread.
      destruct (file_data_type vi) eqn:Et;
        try (apply ret_Some in Eread; simplify_eq;
             repeat split; congruence).
      + apply bind_Some in Eread as ([st4 b] & w4 & Eio & Eread).
        apply io_binary_data_stream in Eio as ([Hd2 Hk2] & Hn2 & Ho2).
        apply ret_Some in Eread. simplify_eq. repeat split; congruence.
      + apply bind_Some in Eread as ([st4 b] & w4 & Eio & Eread).
        apply io_binary_data_stream in Eio as ([Hd2 Hk2] & Hn2 & Ho2).
        apply ret_Some in Eread. simplify_eq. repeat split; congruence.
    - apply ret_Some in Eread. simplify_eq.
      repeat split; try congruence. }
  destruct Hread as (Hd3 & Hk3 & Hn3 & Ho3 & Herr).
  apply bind_Some in H as (st5 & w5 & Eclose & H).
  apply ret_Some in H. simplify_eq.
  destruct (decide (st3 = OK)) as [->|Hne].
  - destruct (one_file_per_slice vi3) eqn:Hper3.
    + unfold close_file in Eclose.
      destruct (streams w3 !! next_FILE w); [|done].
      injection Eclose as <- <-. cbn. by rewrite Hd3.
    + apply ret_Some in Eclose. simplify_eq.
      (* the mode does not change while the slice is read *)
      exfalso. clear Herr.
      destruct (decide (st2 = OK)) as [->|Hne1];
        [|apply ret_Some in Eread; by simplify_eq].
      io_step Eread. io_step Eread.
      destruct (file_data_type vi); io_inv Eread; simplify_eq;
        cbn in Hper3; congruence.
  - apply ret_Some in Eclose. simplify_eq.
    split; [done|]. destruct st3; [done|]. right. by eauto.
Qed.

Lemma input_slice_closes_after_success_witness :
  exists v vi w,
    initialize_free_format_input "scan.fre" turned_volume new_input zyx_world =
      Some ((OK, v, vi), w) /\
    one_file_per_slice vi = true /\
    streams w !! next_FILE w = None /\
    exists vi' w',
      input_slice vi w = Some ((OK, vi'), w') /\
      disk w' = disk w /\
      streams w' = streams w /\ next_FILE w' = next_FILE w + 1.
Proof.
  eexists _, _, _. split; [vm_compute; reflexivity|].
  match goal with
  | |- ?h0 /\ ?h1 /\ _ =>
      assert (H0 : h0) by (vm_compute; reflexivity);
      assert (H1 : h1) by (vm_compute; reflexivity)
  end.
  do 2 (split; [assumption|]).
  eexists _, _.
  match goal with
  | |- ?h2 /\ _ => assert (H2 : h2) by (vm_compute; reflexivity)
  end.
  split; [exact H2|].
  exact (input_slice_closes_after_success _ _ _ _ _ H0 H1 H2).
Defined.
